(** * Image layout and descriptor construction of the turnip Vulkan driver

    A shallow embedding of [src/freedreno/vulkan/tu_image.c]: plane
    decomposition, the tiling / UBWC policy and per-plane layout placement of
    [tu_image_create], swizzle composition, the texture descriptor words
    packed by [tu_image_view_init] and [tu_buffer_view_init], the modifier
    query and the three destroy entry points; then the command-stream
    reference helpers, the subresource layout query, [tu_CreateImage] and
    the two entry points that create views.

    Conventions.  C integers are [Z] with their wrap-around written out
    ([u32], [u64]); C arrays are lists read with [!!!] and written with
    [<[ _ := _ ]>] or [alter]; a failed [assert], an [unreachable] and a read
    through a null pointer all end in [Abort]. *)

From Stdlib Require Import ZArith Lia Bool List.
From stdpp Require Import base list gmap.

Local Open Scope Z_scope.

(** ** Machine integers *)

Definition u32 (x : Z) : Z := x mod 2 ^ 32.
Definition u64 (x : Z) : Z := x mod 2 ^ 64.

(** Modelled from the spec: [MASK] of the driver's headers, the low [n] bits,
    the spec's [(1 << 15) - 1] for [n = 15]. *)
Definition MASK (n : Z) : Z := Z.shiftl 1 n - 1.

(** Modelled from the spec: [ALIGN_POT] of [util/macros.h] is not part of the
    sources; the spec calls it [align_up(x, 4096)].  On [uint32_t] operands:
    [((x) + (y) - 1) & ~((y) - 1)]. *)
Definition ALIGN_POT (x y : Z) : Z :=
  u32 (Z.land (u32 (x + y - 1)) (Z.lnot (y - 1))).

(** Modelled from the spec: [MAX2] of [util/macros.h], the spec's [max]. *)
Definition MAX2 (a b : Z) : Z := if b <? a then a else b.

(** Modelled from the spec: [u_minify] of [util/u_math.h], the spec's
    [max(1, value >> level)]. *)
Definition u_minify (value levels : Z) : Z := MAX2 1 (Z.shiftr value levels).

(** Modelled from the spec: [DIV_ROUND_UP] and [util_logbase2_ceil], the
    spec's [ceil(a / b)] and [ceil(log2 n)].  A zero divisor is undefined in C
    and gives 0 here. *)
Definition DIV_ROUND_UP (a b : Z) : Z := u32 (a + b - 1) / b.
Definition util_logbase2_ceil (n : Z) : Z := Z.log2_up n.

(** A bit-field packer of the register headers: [(val << shift) & mask]. *)
Definition field (shift mask val : Z) : Z := Z.land (Z.shiftl val shift) mask.

(** Modelled from the spec: [COND] of the driver's headers, [bits] when the
    condition holds and 0 otherwise. *)
Definition COND (c : bool) (bits : Z) : Z := if c then bits else 0.

(** ** Outcomes of a call

    [Ok a]: the call returns normally; [Error e]: it returns the error code
    [e] and produces nothing; [Abort]: an assertion failed or the behaviour is
    undefined. *)

Inductive VkResult :=
| VK_SUCCESS
| VK_ERROR_OUT_OF_HOST_MEMORY
| VK_ERROR_INVALID_DRM_FORMAT_MODIFIER_PLANE_LAYOUT_EXT.

Inductive result (A : Type) :=
| Ok (a : A)
| Error (e : VkResult)
| Abort.
Arguments Ok {A} a.
Arguments Error {A} e.
Arguments Abort {A}.

#[global] Instance result_ret : MRet result := fun A a => Ok a.
#[global] Instance result_bind : MBind result := fun A B k m =>
  match m with
  | Ok a => k a
  | Error e => Error e
  | Abort => Abort
  end.

(** [assert(b)]. *)
Definition assert (b : bool) : result unit := if b then Ok tt else Abort.

(** ** Vulkan enumerations and flag bits used by the file *)

Definition VkFormat := Z.

Definition VK_FORMAT_R8_UNORM : VkFormat := 9.
Definition VK_FORMAT_R8G8_UNORM : VkFormat := 16.
Definition VK_FORMAT_R8G8B8A8_UNORM : VkFormat := 37.
Definition VK_FORMAT_R8G8B8A8_SRGB : VkFormat := 43.
Definition VK_FORMAT_E5B9G9R9_UFLOAT_PACK32 : VkFormat := 123.
Definition VK_FORMAT_D16_UNORM : VkFormat := 124.
Definition VK_FORMAT_X8_D24_UNORM_PACK32 : VkFormat := 125.
Definition VK_FORMAT_D32_SFLOAT : VkFormat := 126.
Definition VK_FORMAT_S8_UINT : VkFormat := 127.
Definition VK_FORMAT_D16_UNORM_S8_UINT : VkFormat := 128.
Definition VK_FORMAT_D24_UNORM_S8_UINT : VkFormat := 129.
Definition VK_FORMAT_D32_SFLOAT_S8_UINT : VkFormat := 130.
Definition VK_FORMAT_BC1_RGB_UNORM_BLOCK : VkFormat := 131.
Definition VK_FORMAT_BC1_RGB_SRGB_BLOCK : VkFormat := 132.
Definition VK_FORMAT_G8B8G8R8_422_UNORM : VkFormat := 1000156000.
Definition VK_FORMAT_B8G8R8G8_422_UNORM : VkFormat := 1000156001.
Definition VK_FORMAT_G8_B8_R8_3PLANE_420_UNORM : VkFormat := 1000156002.
Definition VK_FORMAT_G8_B8R8_2PLANE_420_UNORM : VkFormat := 1000156003.

(** The formats that carry both a depth and a stencil component.  The file
    treats [VK_FORMAT_D24_UNORM_S8_UINT] as one: [tu_image_view_init] and
    [tu6_texswiz] serve its depth aspect and its stencil aspect. *)
Definition is_combined_depth_stencil (format : VkFormat) : bool :=
  (format =? VK_FORMAT_D16_UNORM_S8_UINT)
  || (format =? VK_FORMAT_D24_UNORM_S8_UINT)
  || (format =? VK_FORMAT_D32_SFLOAT_S8_UINT).

Definition VkImageAspectFlags := Z.
Definition VK_IMAGE_ASPECT_COLOR_BIT : VkImageAspectFlags := 1.
Definition VK_IMAGE_ASPECT_DEPTH_BIT : VkImageAspectFlags := 2.
Definition VK_IMAGE_ASPECT_STENCIL_BIT : VkImageAspectFlags := 4.
Definition VK_IMAGE_ASPECT_PLANE_0_BIT : VkImageAspectFlags := 16.
Definition VK_IMAGE_ASPECT_PLANE_1_BIT : VkImageAspectFlags := 32.
Definition VK_IMAGE_ASPECT_PLANE_2_BIT : VkImageAspectFlags := 64.

Definition VK_IMAGE_USAGE_SAMPLED_BIT : Z := 4.
Definition VK_IMAGE_USAGE_STORAGE_BIT : Z := 8.
Definition VK_IMAGE_USAGE_INPUT_ATTACHMENT_BIT : Z := 128.
Definition VK_IMAGE_CREATE_MUTABLE_FORMAT_BIT : Z := 8.

Definition VK_STRUCTURE_TYPE_IMAGE_CREATE_INFO : Z := 14.
Definition VK_STRUCTURE_TYPE_IMAGE_DRM_FORMAT_MODIFIER_PROPERTIES_EXT : Z :=
  1000158005.
Definition VK_QUEUE_FAMILY_EXTERNAL : Z := 2 ^ 32 - 2.
Definition VK_WHOLE_SIZE : Z := 2 ^ 64 - 1.

Inductive VkImageType :=
| VK_IMAGE_TYPE_1D | VK_IMAGE_TYPE_2D | VK_IMAGE_TYPE_3D.

Inductive VkImageTiling :=
| VK_IMAGE_TILING_OPTIMAL
| VK_IMAGE_TILING_LINEAR
| VK_IMAGE_TILING_DRM_FORMAT_MODIFIER_EXT.

Inductive VkSharingMode :=
| VK_SHARING_MODE_EXCLUSIVE | VK_SHARING_MODE_CONCURRENT.

Inductive VkImageViewType :=
| VK_IMAGE_VIEW_TYPE_1D
| VK_IMAGE_VIEW_TYPE_2D
| VK_IMAGE_VIEW_TYPE_3D
| VK_IMAGE_VIEW_TYPE_CUBE
| VK_IMAGE_VIEW_TYPE_1D_ARRAY
| VK_IMAGE_VIEW_TYPE_2D_ARRAY
| VK_IMAGE_VIEW_TYPE_CUBE_ARRAY.

Inductive VkComponentSwizzle :=
| VK_COMPONENT_SWIZZLE_IDENTITY
| VK_COMPONENT_SWIZZLE_ZERO
| VK_COMPONENT_SWIZZLE_ONE
| VK_COMPONENT_SWIZZLE_R
| VK_COMPONENT_SWIZZLE_G
| VK_COMPONENT_SWIZZLE_B
| VK_COMPONENT_SWIZZLE_A.

Inductive VkChromaLocation :=
| VK_CHROMA_LOCATION_COSITED_EVEN | VK_CHROMA_LOCATION_MIDPOINT.

Record VkComponentMapping := {
  cm_r : VkComponentSwizzle;
  cm_g : VkComponentSwizzle;
  cm_b : VkComponentSwizzle;
  cm_a : VkComponentSwizzle
}.

Record VkExtent3D := { ext_width : Z; ext_height : Z; ext_depth : Z }.
Record VkExtent2D := { ext2_width : Z; ext2_height : Z }.

Record VkSubresourceLayout := {
  srl_offset : Z;
  srl_size : Z;
  srl_rowPitch : Z;
  srl_arrayPitch : Z;
  srl_depthPitch : Z
}.

#[global] Instance VkComponentSwizzle_inhabited : Inhabited VkComponentSwizzle :=
  populate VK_COMPONENT_SWIZZLE_IDENTITY.
#[global] Instance VkSubresourceLayout_inhabited : Inhabited VkSubresourceLayout :=
  populate (Build_VkSubresourceLayout 0 0 0 0 0).

(** DRM format modifiers ([drm_fourcc.h]). *)
Definition DRM_FORMAT_MOD_LINEAR : Z := 0.
Definition DRM_FORMAT_MOD_INVALID : Z := 2 ^ 56 - 1.
Definition DRM_FORMAT_MOD_QCOM_COMPRESSED : Z := 5 * 2 ^ 56 + 1.

(** [enum a6xx_tile_mode] and [enum a6xx_tex_swiz] of [a6xx.xml.h]. *)
Definition TILE6_LINEAR : Z := 0.
Definition TILE6_2 : Z := 2.
Definition TILE6_3 : Z := 3.

Definition A6XX_TEX_X : Z := 0.
Definition A6XX_TEX_Y : Z := 1.
Definition A6XX_TEX_Z : Z := 2.
Definition A6XX_TEX_W : Z := 3.
Definition A6XX_TEX_ZERO : Z := 4.
Definition A6XX_TEX_ONE : Z := 5.

(** ** Plane decomposition *)

Definition tu6_plane_count (format : VkFormat) : Z :=
  if (format =? VK_FORMAT_G8_B8R8_2PLANE_420_UNORM)
     || (format =? VK_FORMAT_D32_SFLOAT_S8_UINT) then 2
  else if format =? VK_FORMAT_G8_B8_R8_3PLANE_420_UNORM then 3
  else 1.

Definition tu6_plane_format (format : VkFormat) (plane : Z) : VkFormat :=
  if format =? VK_FORMAT_G8_B8R8_2PLANE_420_UNORM then
    if plane =? 0 then VK_FORMAT_R8_UNORM else VK_FORMAT_R8G8_UNORM
  else if format =? VK_FORMAT_G8_B8_R8_3PLANE_420_UNORM then
    VK_FORMAT_R8_UNORM
  else if format =? VK_FORMAT_D32_SFLOAT_S8_UINT then
    if plane =? 0 then VK_FORMAT_D32_SFLOAT else VK_FORMAT_S8_UINT
  else format.

Definition tu6_plane_index (format : VkFormat)
    (aspect_mask : VkImageAspectFlags) : Z :=
  if aspect_mask =? VK_IMAGE_ASPECT_PLANE_1_BIT then 1
  else if aspect_mask =? VK_IMAGE_ASPECT_PLANE_2_BIT then 2
  else if aspect_mask =? VK_IMAGE_ASPECT_STENCIL_BIT then
    (if format =? VK_FORMAT_D32_SFLOAT_S8_UINT then 1 else 0)
  else 0.

(** ** Swizzle composition *)

(** [vk_swiz[i] - VK_COMPONENT_SWIZZLE_R] for the members of the case range
    [VK_COMPONENT_SWIZZLE_R ... VK_COMPONENT_SWIZZLE_A]. *)
Definition swizzle_channel (s : VkComponentSwizzle) : option nat :=
  match s with
  | VK_COMPONENT_SWIZZLE_R => Some 0%nat
  | VK_COMPONENT_SWIZZLE_G => Some 1%nat
  | VK_COMPONENT_SWIZZLE_B => Some 2%nat
  | VK_COMPONENT_SWIZZLE_A => Some 3%nat
  | _ => None
  end.

(** One iteration of the loop of [compose_swizzle]. *)
Definition compose_swizzle_step (src_swiz : list Z)
    (vk_swiz : list VkComponentSwizzle) (swiz : list Z) (i : nat) : list Z :=
  match vk_swiz !!! i with
  | VK_COMPONENT_SWIZZLE_IDENTITY => <[i := src_swiz !!! i]> swiz
  | VK_COMPONENT_SWIZZLE_ZERO => <[i := A6XX_TEX_ZERO]> swiz
  | VK_COMPONENT_SWIZZLE_ONE => <[i := A6XX_TEX_ONE]> swiz
  | c => <[i := src_swiz !!! default 0%nat (swizzle_channel c)]> swiz
  end.

Definition compose_swizzle (swiz : list Z) (mapping : VkComponentMapping)
    : list Z :=
  let src_swiz := [swiz !!! 0%nat; swiz !!! 1%nat; swiz !!! 2%nat; swiz !!! 3%nat] in
  let vk_swiz := [cm_r mapping; cm_g mapping; cm_b mapping; cm_a mapping] in
  fold_left (compose_swizzle_step src_swiz vk_swiz) (seq 0 4) swiz.

Definition identity_mapping : VkComponentMapping :=
  {| cm_r := VK_COMPONENT_SWIZZLE_IDENTITY;
     cm_g := VK_COMPONENT_SWIZZLE_IDENTITY;
     cm_b := VK_COMPONENT_SWIZZLE_IDENTITY;
     cm_a := VK_COMPONENT_SWIZZLE_IDENTITY |}.

(** ** Collaborators outside the file

    The format database ([vk_format.h], [util/format]), the driver's private
    header and format tables ([tu_private.h], [tu_formats.c]) and the layout
    library ([freedreno/fdl]) are not part of the sources.  What the file
    calls from them is taken as a parameter, one class per collaborator. *)

Definition pipe_format := Z.

Class FormatDb := {
  (** [vk_format_description(f)->layout == UTIL_FORMAT_LAYOUT_SUBSAMPLED] *)
  vk_format_is_subsampled : VkFormat → bool;
  vk_format_is_depth_or_stencil : VkFormat → bool;
  vk_format_is_compressed : VkFormat → bool;
  vk_format_is_srgb : VkFormat → bool;
  vk_format_is_int : VkFormat → bool;
  vk_format_is_sint : VkFormat → bool;
  vk_format_is_uint : VkFormat → bool;
  vk_format_to_pipe_format : VkFormat → pipe_format;
  util_format_get_blocksize : pipe_format → Z
}.

(** [struct fdl_slice] and [struct fdl_explicit_layout]. *)
Record fdl_slice := { sl_offset : Z; sl_size0 : Z }.
Record fdl_explicit_layout := { el_offset : Z; el_pitch : Z }.

(** Modelled from the spec: [struct fdl_layout] is declared in
    [freedreno_layout.h]; the fields are those the file reads or writes
    ([lay_tile_mode], [lay_ubwc], [lay_slices], [lay_ubwc_slices], [lay_size],
    [lay_ubwc_layer_size], [lay_width0], [lay_height0], [lay_pitchalign])
    and the remaining ones of the spec's plane layout. *)
Record fdl_layout := {
  lay_slices : list fdl_slice;
  lay_ubwc_slices : list fdl_slice;
  lay_pitch0 : Z;
  lay_ubwc_width0 : Z;
  lay_layer_size : Z;
  lay_ubwc_layer_size : Z;
  lay_ubwc : bool;
  lay_layer_first : bool;
  lay_tile_mode : Z;
  lay_cpp : Z;
  lay_width0 : Z;
  lay_height0 : Z;
  lay_depth0 : Z;
  lay_nr_samples : Z;
  lay_size : Z;
  lay_base_align : Z;
  lay_pitchalign : Z
}.

Definition FDL_MAX_MIP_LEVELS : nat := 14.

Definition fdl_slice_zero : fdl_slice := {| sl_offset := 0; sl_size0 := 0 |}.

(** A zero-initialised layout, as [vk_object_zalloc] leaves it. *)
Definition fdl_layout_zero : fdl_layout :=
  {| lay_slices := replicate FDL_MAX_MIP_LEVELS fdl_slice_zero;
     lay_ubwc_slices := replicate FDL_MAX_MIP_LEVELS fdl_slice_zero;
     lay_pitch0 := 0; lay_ubwc_width0 := 0; lay_layer_size := 0;
     lay_ubwc_layer_size := 0; lay_ubwc := false; lay_layer_first := false;
     lay_tile_mode := 0; lay_cpp := 0; lay_width0 := 0; lay_height0 := 0;
     lay_depth0 := 0; lay_nr_samples := 0; lay_size := 0; lay_base_align := 0;
     lay_pitchalign := 0 |}.

#[global] Instance fdl_slice_inhabited : Inhabited fdl_slice :=
  populate fdl_slice_zero.
#[global] Instance fdl_layout_inhabited : Inhabited fdl_layout :=
  populate fdl_layout_zero.

(** Field assignments on a layout. *)
Definition set_lay_tile_mode (v : Z) (l : fdl_layout) : fdl_layout :=
  {| lay_slices := lay_slices l; lay_ubwc_slices := lay_ubwc_slices l;
     lay_pitch0 := lay_pitch0 l; lay_ubwc_width0 := lay_ubwc_width0 l;
     lay_layer_size := lay_layer_size l;
     lay_ubwc_layer_size := lay_ubwc_layer_size l; lay_ubwc := lay_ubwc l;
     lay_layer_first := lay_layer_first l; lay_tile_mode := v;
     lay_cpp := lay_cpp l; lay_width0 := lay_width0 l;
     lay_height0 := lay_height0 l; lay_depth0 := lay_depth0 l;
     lay_nr_samples := lay_nr_samples l; lay_size := lay_size l;
     lay_base_align := lay_base_align l; lay_pitchalign := lay_pitchalign l |}.

Definition set_lay_ubwc (v : bool) (l : fdl_layout) : fdl_layout :=
  {| lay_slices := lay_slices l; lay_ubwc_slices := lay_ubwc_slices l;
     lay_pitch0 := lay_pitch0 l; lay_ubwc_width0 := lay_ubwc_width0 l;
     lay_layer_size := lay_layer_size l;
     lay_ubwc_layer_size := lay_ubwc_layer_size l; lay_ubwc := v;
     lay_layer_first := lay_layer_first l; lay_tile_mode := lay_tile_mode l;
     lay_cpp := lay_cpp l; lay_width0 := lay_width0 l;
     lay_height0 := lay_height0 l; lay_depth0 := lay_depth0 l;
     lay_nr_samples := lay_nr_samples l; lay_size := lay_size l;
     lay_base_align := lay_base_align l; lay_pitchalign := lay_pitchalign l |}.

Definition set_lay_slices (v : list fdl_slice) (l : fdl_layout) : fdl_layout :=
  {| lay_slices := v; lay_ubwc_slices := lay_ubwc_slices l;
     lay_pitch0 := lay_pitch0 l; lay_ubwc_width0 := lay_ubwc_width0 l;
     lay_layer_size := lay_layer_size l;
     lay_ubwc_layer_size := lay_ubwc_layer_size l; lay_ubwc := lay_ubwc l;
     lay_layer_first := lay_layer_first l; lay_tile_mode := lay_tile_mode l;
     lay_cpp := lay_cpp l; lay_width0 := lay_width0 l;
     lay_height0 := lay_height0 l; lay_depth0 := lay_depth0 l;
     lay_nr_samples := lay_nr_samples l; lay_size := lay_size l;
     lay_base_align := lay_base_align l; lay_pitchalign := lay_pitchalign l |}.

Definition set_lay_ubwc_slices (v : list fdl_slice) (l : fdl_layout)
    : fdl_layout :=
  {| lay_slices := lay_slices l; lay_ubwc_slices := v;
     lay_pitch0 := lay_pitch0 l; lay_ubwc_width0 := lay_ubwc_width0 l;
     lay_layer_size := lay_layer_size l;
     lay_ubwc_layer_size := lay_ubwc_layer_size l; lay_ubwc := lay_ubwc l;
     lay_layer_first := lay_layer_first l; lay_tile_mode := lay_tile_mode l;
     lay_cpp := lay_cpp l; lay_width0 := lay_width0 l;
     lay_height0 := lay_height0 l; lay_depth0 := lay_depth0 l;
     lay_nr_samples := lay_nr_samples l; lay_size := lay_size l;
     lay_base_align := lay_base_align l; lay_pitchalign := lay_pitchalign l |}.

Definition set_lay_size (v : Z) (l : fdl_layout) : fdl_layout :=
  {| lay_slices := lay_slices l; lay_ubwc_slices := lay_ubwc_slices l;
     lay_pitch0 := lay_pitch0 l; lay_ubwc_width0 := lay_ubwc_width0 l;
     lay_layer_size := lay_layer_size l;
     lay_ubwc_layer_size := lay_ubwc_layer_size l; lay_ubwc := lay_ubwc l;
     lay_layer_first := lay_layer_first l; lay_tile_mode := lay_tile_mode l;
     lay_cpp := lay_cpp l; lay_width0 := lay_width0 l;
     lay_height0 := lay_height0 l; lay_depth0 := lay_depth0 l;
     lay_nr_samples := lay_nr_samples l; lay_size := v;
     lay_base_align := lay_base_align l; lay_pitchalign := lay_pitchalign l |}.

(** The layout library.  [fdl6_layout] fills the layout it is given and
    returns [false] ([None] here) when it cannot; the inline accessors of
    [freedreno_layout.h] take the layout and a level (and a layer). *)
Class FdlLayout := {
  fdl6_layout :
    fdl_layout → pipe_format → (* nr_samples *) Z →
    (* width0 height0 depth0 *) Z → Z → Z →
    (* mip_levels array_size *) Z → Z → (* is_3d *) bool →
    option fdl_explicit_layout → option fdl_layout;
  fdl_surface_offset : fdl_layout → Z → Z → Z;
  fdl_ubwc_offset : fdl_layout → Z → Z → Z;
  fdl_pitch : fdl_layout → Z → Z;
  fdl_ubwc_pitch : fdl_layout → Z → Z;
  fdl_layer_stride : fdl_layout → Z → Z;
  fdl_tile_mode : fdl_layout → Z → Z;
  fdl_ubwc_enabled : fdl_layout → Z → bool;
  fdl6_get_ubwc_blockwidth : fdl_layout → Z * Z
}.

(** ** Devices and images *)

(** What the file reads through [device->physical_device]. *)
Record tu_device := {
  debug_flags : Z;
  limited_z24s8 : bool
}.

Record tu_bo := { iova : Z }.

Definition handle := Z.
Definition VK_NULL_HANDLE : handle := 0.

Record tu_image := {
  img_type : VkImageType;
  img_vk_format : VkFormat;
  img_tiling : VkImageTiling;
  img_usage : Z;
  img_flags : Z;
  img_extent : VkExtent3D;
  img_level_count : Z;
  img_layer_count : Z;
  img_samples : Z;
  img_layout : list fdl_layout;
  img_total_size : Z;
  img_queue_family_mask : Z;
  img_exclusive : bool;
  img_shareable : bool;
  img_owned_memory : handle;
  img_bo : option tu_bo;
  img_bo_offset : Z
}.

(** [image->layout[i] = layout; image->total_size = total]. *)
Definition set_img_plane (i : nat) (layout : fdl_layout) (total : Z)
    (image : tu_image) : tu_image :=
  {| img_type := img_type image; img_vk_format := img_vk_format image;
     img_tiling := img_tiling image; img_usage := img_usage image;
     img_flags := img_flags image; img_extent := img_extent image;
     img_level_count := img_level_count image;
     img_layer_count := img_layer_count image;
     img_samples := img_samples image;
     img_layout := <[i := layout]> (img_layout image);
     img_total_size := total;
     img_queue_family_mask := img_queue_family_mask image;
     img_exclusive := img_exclusive image;
     img_shareable := img_shareable image;
     img_owned_memory := img_owned_memory image;
     img_bo := img_bo image; img_bo_offset := img_bo_offset image |}.

Record VkImageCreateInfo := {
  ci_sType : Z;
  (** [pNext] holds a [VkExternalMemoryImageCreateInfo] *)
  ci_external_memory : bool;
  ci_flags : Z;
  ci_imageType : VkImageType;
  ci_format : VkFormat;
  ci_extent : VkExtent3D;
  ci_mipLevels : Z;
  ci_arrayLayers : Z;
  ci_samples : Z;
  ci_tiling : VkImageTiling;
  ci_usage : Z;
  ci_sharingMode : VkSharingMode;
  (** [pQueueFamilyIndices], [queueFamilyIndexCount] being its length *)
  ci_pQueueFamilyIndices : list Z
}.

(** [x & bit] as a condition. *)
Definition has_bits (x bits : Z) : bool := negb (Z.land x bits =? 0).

(** A [for] loop over the indices [l] whose body can leave the function. *)
Fixpoint for_each {S : Type} (body : nat → S → result S) (l : list nat)
    (s : S) : result S :=
  match l with
  | [] => Ok s
  | i :: l' => s' ← body i s; for_each body l' s'
  end.

Record VkImageSubresourceRange := {
  sr_aspectMask : VkImageAspectFlags;
  sr_baseMipLevel : Z;
  sr_levelCount : Z;
  sr_baseArrayLayer : Z;
  sr_layerCount : Z
}.

(** [struct tu_native_format]. *)
Record tu_native_format := {
  nf_fmt : Z;
  nf_swap : Z;
  nf_tile_mode : Z;
  nf_supported : Z
}.

(** The driver's private header and format tables. *)
Class TuPrivate := {
  TU_DEBUG_NOUBWC : Z;
  TU_MAX_QUEUE_FAMILIES : Z;
  FMT_COLOR : Z;
  FMT6_8_8_8_8_UINT : Z;
  FMT6_Z24_UNORM_S8_UINT : Z;
  FMT6_Z24_UINT_S8_UINT : Z;
  FMT6_Z24_UNORM_S8_UINT_AS_R8G8B8A8 : Z;
  tu6_format_texture : VkFormat → Z → tu_native_format;
  tu6_format_color : VkFormat → Z → tu_native_format;
  tu_get_layerCount : tu_image → VkImageSubresourceRange → Z;
  tu_get_levelCount : tu_image → VkImageSubresourceRange → Z;
  tu_minify : Z → Z → Z;
  tu_msaa_samples : Z → Z;
  tu6_tex_type : VkImageViewType → bool → Z
}.

(** ** [tu_image_create] *)

Section ImageCreate.
Context `{FormatDb, FdlLayout, TuPrivate}.

(** The queue-family mask of a concurrently shared image. *)
Definition queue_family_mask_of (indices : list Z) : Z :=
  fold_left
    (fun mask index =>
       if index =? VK_QUEUE_FAMILY_EXTERNAL then
         Z.lor mask (u32 (u32 (Z.shiftl 1 TU_MAX_QUEUE_FAMILIES) - 1))
       else Z.lor mask (u32 (Z.shiftl 1 index)))
    indices 0.

(** The tiling and UBWC decision: the values of [tile_mode] and
    [ubwc_enabled] when the loop over the planes is entered. *)
Definition tu_image_tiling_policy (device : tu_device)
    (pCreateInfo : VkImageCreateInfo) (modifier : Z) : Z * bool :=
  let vk_format := ci_format pCreateInfo in
  let usage := ci_usage pCreateInfo in
  let tile_mode := TILE6_3 in
  let ubwc_enabled := negb (has_bits (debug_flags device) TU_DEBUG_NOUBWC) in
  let '(tile_mode, ubwc_enabled) :=
    if match ci_tiling pCreateInfo with
       | VK_IMAGE_TILING_LINEAR => true
       | _ => false
       end
       || (modifier =? DRM_FORMAT_MOD_LINEAR)
       || vk_format_is_subsampled vk_format
       || (has_bits (ci_flags pCreateInfo) VK_IMAGE_CREATE_MUTABLE_FORMAT_BIT
           && negb (vk_format_is_depth_or_stencil vk_format))
    then (TILE6_LINEAR, false)
    else (tile_mode, ubwc_enabled) in
  let '(tile_mode, ubwc_enabled) :=
    if (vk_format =? VK_FORMAT_G8_B8R8_2PLANE_420_UNORM)
       || (vk_format =? VK_FORMAT_G8_B8_R8_3PLANE_420_UNORM)
    then (TILE6_LINEAR, false)
    else (tile_mode, ubwc_enabled) in
  let ubwc_enabled :=
    if vk_format_is_compressed vk_format then false else ubwc_enabled in
  let ubwc_enabled :=
    if vk_format =? VK_FORMAT_E5B9G9R9_UFLOAT_PACK32 then false
    else ubwc_enabled in
  let ubwc_enabled :=
    if vk_format =? VK_FORMAT_S8_UINT then false else ubwc_enabled in
  let ubwc_enabled :=
    if 1 <? ext_depth (ci_extent pCreateInfo) then false else ubwc_enabled in
  let ubwc_enabled :=
    if has_bits usage VK_IMAGE_USAGE_STORAGE_BIT then false
    else ubwc_enabled in
  let ubwc_enabled :=
    if limited_z24s8 device
       && (vk_format =? VK_FORMAT_D24_UNORM_S8_UINT)
       && has_bits usage
            (Z.lor VK_IMAGE_USAGE_SAMPLED_BIT
                   VK_IMAGE_USAGE_INPUT_ATTACHMENT_BIT)
    then false else ubwc_enabled in
  (tile_mode, ubwc_enabled).

(** [slices[i].offset += offset]. *)
Definition add_offset (offset : Z) (s : fdl_slice) : fdl_slice :=
  {| sl_offset := u32 (sl_offset s + offset); sl_size0 := sl_size0 s |}.

(** One iteration of the inner loop over the mip levels. *)
Definition shift_level (offset : Z) (layout : fdl_layout) (i : nat)
    : fdl_layout :=
  let layout :=
    set_lay_slices (alter (add_offset offset) i (lay_slices layout)) layout in
  set_lay_ubwc_slices
    (alter (add_offset offset) i (lay_ubwc_slices layout)) layout.

(** The placement of an extra plane behind the planes laid out so far. *)
Definition shift_plane (offset mipLevels : Z) (layout : fdl_layout)
    : fdl_layout :=
  let layout :=
    fold_left (shift_level offset) (seq 0 (Z.to_nat mipLevels)) layout in
  set_lay_size (u32 (lay_size layout + offset)) layout.

(** Width, height and [ubwc_enabled] of plane [i], from the [switch] that
    opens the loop body. *)
Definition plane_adjust (vk_format : VkFormat) (i : nat)
    (width0 height0 : Z) (ubwc_enabled : bool) : Z * Z * bool :=
  if (0 <? i)%nat then
    if (vk_format =? VK_FORMAT_G8_B8R8_2PLANE_420_UNORM)
       || (vk_format =? VK_FORMAT_G8_B8_R8_3PLANE_420_UNORM)
    then (Z.shiftr (u32 (width0 + 1)) 1, Z.shiftr (u32 (height0 + 1)) 1,
          ubwc_enabled)
    else if vk_format =? VK_FORMAT_D32_SFLOAT_S8_UINT
    then (width0, height0, false)
    else (width0, height0, ubwc_enabled)
  else (width0, height0, ubwc_enabled).

(** "only expect simple 2D images for now" *)
Definition simple_2d (pCreateInfo : VkImageCreateInfo) : bool :=
  (ci_mipLevels pCreateInfo =? 1)
  && (ci_arrayLayers pCreateInfo =? 1)
  && (ext_depth (ci_extent pCreateInfo) =? 1).

(** The explicit layout handed to the layout routine for plane [i]; reading
    [plane_layouts[i]] past the end of the array is undefined. *)
Definition explicit_plane_layout (pCreateInfo : VkImageCreateInfo)
    (plane_layouts : option (list VkSubresourceLayout)) (i : nat)
    : result (option fdl_explicit_layout) :=
  match plane_layouts with
  | Some layouts =>
      if negb (simple_2d pCreateInfo) then
        Error VK_ERROR_INVALID_DRM_FORMAT_MODIFIER_PLANE_LAYOUT_EXT
      else
        match layouts !! i with
        | Some l =>
            Ok (Some {| el_offset := u32 (srl_offset l);
                        el_pitch := u32 (srl_rowPitch l) |})
        | None => Abort
        end
  | None => Ok None
  end.

(** The call of the layout routine for a plane. *)
Definition plane_fdl6_layout (pCreateInfo : VkImageCreateInfo)
    (layout : fdl_layout) (tile_mode : Z) (ubwc_enabled : bool)
    (format : VkFormat) (width0 height0 : Z)
    (plane_layout : option fdl_explicit_layout) : option fdl_layout :=
  fdl6_layout
    (set_lay_ubwc ubwc_enabled (set_lay_tile_mode tile_mode layout))
    (vk_format_to_pipe_format format)
    (ci_samples pCreateInfo)
    width0 height0
    (ext_depth (ci_extent pCreateInfo))
    (ci_mipLevels pCreateInfo)
    (ci_arrayLayers pCreateInfo)
    match ci_imageType pCreateInfo with
    | VK_IMAGE_TYPE_3D => true
    | _ => false
    end
    plane_layout.

(** "fdl6_layout can't take explicit offset without explicit pitch; add
    offset manually for extra layouts for planes" *)
Definition place_plane (pCreateInfo : VkImageCreateInfo)
    (plane_layouts : option (list VkSubresourceLayout)) (i : nat)
    (total_size : Z) (layout : fdl_layout) : fdl_layout :=
  if bool_decide (plane_layouts = None) && (0 <? i)%nat then
    shift_plane (ALIGN_POT total_size 4096) (ci_mipLevels pCreateInfo) layout
  else layout.

(** The body of the loop over the planes; the state is the image under
    construction and [ubwc_enabled]. *)
Definition tu_image_create_plane (pCreateInfo : VkImageCreateInfo)
    (plane_layouts : option (list VkSubresourceLayout)) (tile_mode : Z)
    (i : nat) (st : tu_image * bool) : result (tu_image * bool) :=
  let '(image, ubwc_enabled) := st in
  let layout := img_layout image !!! i in
  let format := tu6_plane_format (img_vk_format image) (Z.of_nat i) in
  let '(width0, height0, ubwc_enabled) :=
    plane_adjust (img_vk_format image) i
      (ext_width (ci_extent pCreateInfo))
      (ext_height (ci_extent pCreateInfo)) ubwc_enabled in
  plane_layout ← explicit_plane_layout pCreateInfo plane_layouts i;
  match plane_fdl6_layout pCreateInfo layout tile_mode ubwc_enabled format
          width0 height0 plane_layout with
  | None =>
      (* can only fail with explicit layout *)
      assert (bool_decide (is_Some plane_layouts));;
      Error VK_ERROR_INVALID_DRM_FORMAT_MODIFIER_PLANE_LAYOUT_EXT
  | Some layout =>
      let layout :=
        place_plane pCreateInfo plane_layouts i (img_total_size image) layout in
      Ok (set_img_plane i layout
            (MAX2 (img_total_size image) (lay_size layout)) image,
          ubwc_enabled)
  end.

(** The image as it stands when the tiling decision starts: zero-initialised
    by [vk_object_zalloc], then filled from the create info. *)
Definition tu_image_init (pCreateInfo : VkImageCreateInfo) : tu_image :=
  {| img_type := ci_imageType pCreateInfo;
     img_vk_format := ci_format pCreateInfo;
     img_tiling := ci_tiling pCreateInfo;
     img_usage := ci_usage pCreateInfo;
     img_flags := ci_flags pCreateInfo;
     img_extent := ci_extent pCreateInfo;
     img_level_count := ci_mipLevels pCreateInfo;
     img_layer_count := ci_arrayLayers pCreateInfo;
     img_samples := ci_samples pCreateInfo;
     img_layout := replicate 3 fdl_layout_zero;
     img_total_size := 0;
     img_queue_family_mask :=
       match ci_sharingMode pCreateInfo with
       | VK_SHARING_MODE_CONCURRENT =>
           queue_family_mask_of (ci_pQueueFamilyIndices pCreateInfo)
       | VK_SHARING_MODE_EXCLUSIVE => 0
       end;
     img_exclusive :=
       match ci_sharingMode pCreateInfo with
       | VK_SHARING_MODE_EXCLUSIVE => true
       | VK_SHARING_MODE_CONCURRENT => false
       end;
     img_shareable := ci_external_memory pCreateInfo;
     img_owned_memory := VK_NULL_HANDLE;
     img_bo := None;
     img_bo_offset := 0 |}.

(** The assertions on the create info that open [tu_image_create]. *)
Definition create_info_asserts (pCreateInfo : VkImageCreateInfo) : bool :=
  (ci_sType pCreateInfo =? VK_STRUCTURE_TYPE_IMAGE_CREATE_INFO)
  && (0 <? ci_mipLevels pCreateInfo)
  && (0 <? ci_arrayLayers pCreateInfo)
  && (0 <? ci_samples pCreateInfo)
  && (0 <? ext_width (ci_extent pCreateInfo))
  && (0 <? ext_height (ci_extent pCreateInfo))
  && (0 <? ext_depth (ci_extent pCreateInfo)).

(** [tu_image_create]; [alloc_ok] tells whether [vk_object_zalloc] returned
    an object. *)
Definition tu_image_create (device : tu_device) (alloc_ok : bool)
    (pCreateInfo : VkImageCreateInfo) (modifier : Z)
    (plane_layouts : option (list VkSubresourceLayout)) : result tu_image :=
  assert (create_info_asserts pCreateInfo);;
  if negb alloc_ok then Error VK_ERROR_OUT_OF_HOST_MEMORY
  else
    let image := tu_image_init pCreateInfo in
    let '(tile_mode, ubwc_enabled) :=
      tu_image_tiling_policy device pCreateInfo modifier in
    (* expect UBWC enabled if we asked for it *)
    assert (negb (modifier =? DRM_FORMAT_MOD_QCOM_COMPRESSED) || ubwc_enabled);;
    '(image, _) ←
      for_each (tu_image_create_plane pCreateInfo plane_layouts tile_mode)
        (seq 0 (Z.to_nat (tu6_plane_count (img_vk_format image))))
        (image, ubwc_enabled);
    Ok image.

(** ** The modifier query *)

(** [tu_GetImageDrmFormatModifierPropertiesEXT]: the result code and the
    modifier stored through [pProperties]. *)
Definition tu_GetImageDrmFormatModifierPropertiesEXT (image : tu_image)
    (pProperties_sType : Z) : result (VkResult * Z) :=
  assert (pProperties_sType =?
          VK_STRUCTURE_TYPE_IMAGE_DRM_FORMAT_MODIFIER_PROPERTIES_EXT);;
  let layout0 := img_layout image !!! 0%nat in
  let drmFormatModifier :=
    if lay_tile_mode layout0 =? 0 then DRM_FORMAT_MOD_LINEAR
    else if negb (lay_ubwc_layer_size layout0 =? 0) then
      DRM_FORMAT_MOD_QCOM_COMPRESSED
    else DRM_FORMAT_MOD_INVALID in
  Ok (VK_SUCCESS, drmFormatModifier).

End ImageCreate.

(** ** Descriptor words

    The field packers of the texture ([A6XX_TEX_CONST]) and storage
    ([A6XX_IBO]) descriptor words come from the generated register header
    [a6xx.xml.h], which is not part of the sources.  The spec names the
    fields; their positions are those of the a6xx descriptor layout.  Each
    packer is [(val << shift) & mask]; a single bit is its mask. *)

(** Modelled from the spec: the length of a descriptor, [A6XX_TEX_CONST_DWORDS]
    of [a6xx.xml.h]. *)
Definition A6XX_TEX_CONST_DWORDS : nat := 16.

(** Modelled from the spec: word 0, "tile_mode, SRGB bit, format, sample
    enum, byte-swap, composed swizzle, miplvls", and the chroma midpoint bits
    that re-use the MIPLVLS bits. *)

Definition A6XX_TEX_CONST_0_TILE_MODE : Z → Z := field 0 0x00000003.
Definition A6XX_TEX_CONST_0_SRGB : Z := 0x00000004.
Definition A6XX_TEX_CONST_0_SWIZ_X : Z → Z := field 4 0x00000070.
Definition A6XX_TEX_CONST_0_SWIZ_Y : Z → Z := field 7 0x00000380.
Definition A6XX_TEX_CONST_0_SWIZ_Z : Z → Z := field 10 0x00001c00.
Definition A6XX_TEX_CONST_0_SWIZ_W : Z → Z := field 13 0x0000e000.
Definition A6XX_TEX_CONST_0_MIPLVLS : Z → Z := field 16 0x000f0000.
Definition A6XX_TEX_CONST_0_CHROMA_MIDPOINT_X : Z := 0x00010000.
Definition A6XX_TEX_CONST_0_CHROMA_MIDPOINT_Y : Z := 0x00040000.
Definition A6XX_TEX_CONST_0_SAMPLES : Z → Z := field 20 0x00300000.
Definition A6XX_TEX_CONST_0_FMT : Z → Z := field 22 0x3fc00000.
Definition A6XX_TEX_CONST_0_SWAP : Z → Z := field 30 0xc0000000.

(** Modelled from the spec: "width/height into word 1; pitch,
    pitch-alignment and tex-type enum into word 2; per-layer stride into
    word 3; base address (high) | depth field into word 5", with the marker
    bits of word 2 and the FLAG, TILE_ALL and MIN_LAYERSZ fields of word 3. *)
Definition A6XX_TEX_CONST_1_WIDTH : Z → Z := field 0 0x00007fff.
Definition A6XX_TEX_CONST_1_HEIGHT : Z → Z := field 15 0x3fff8000.
Definition A6XX_TEX_CONST_2_PITCHALIGN : Z → Z := field 0 0x0000000f.
Definition A6XX_TEX_CONST_2_UNK4 : Z := 0x00000010.
Definition A6XX_TEX_CONST_2_PITCH : Z → Z := field 7 0x1fffff80.
Definition A6XX_TEX_CONST_2_TYPE : Z → Z := field 29 0x60000000.
Definition A6XX_TEX_CONST_2_UNK31 : Z := 0x80000000.
Definition A6XX_TEX_CONST_3_ARRAY_PITCH (val : Z) : Z :=
  field 0 0x00003fff (Z.shiftr val 12).
Definition A6XX_TEX_CONST_3_MIN_LAYERSZ (val : Z) : Z :=
  field 23 0x07800000 (Z.shiftr val 12).
Definition A6XX_TEX_CONST_3_TILE_ALL : Z := 0x08000000.
Definition A6XX_TEX_CONST_3_FLAG : Z := 0x10000000.
Definition A6XX_TEX_CONST_5_DEPTH : Z → Z := field 17 0x3ffe0000.

(** Modelled from the spec: "word 6 with plane-1 pitch", "word 9 receives
    FLAG_BUFFER_ARRAY_PITCH", "word 10 receives FLAG_BUFFER_PITCH, LOGW,
    LOGH". *)
Definition A6XX_TEX_CONST_6_PLANE_PITCH : Z → Z := field 8 0xffffff00.
Definition A6XX_TEX_CONST_9_FLAG_BUFFER_ARRAY_PITCH (val : Z) : Z :=
  field 0 0x0001ffff (Z.shiftr val 4).
Definition A6XX_TEX_CONST_10_FLAG_BUFFER_PITCH (val : Z) : Z :=
  field 0 0x0000007f (Z.shiftr val 6).
Definition A6XX_TEX_CONST_10_FLAG_BUFFER_LOGW : Z → Z := field 8 0x00000f00.
Definition A6XX_TEX_CONST_10_FLAG_BUFFER_LOGH : Z → Z := field 12 0x0000f000.

(** Modelled from the spec: the storage descriptor "mirrors the texture
    descriptor but uses the image-block-object (IBO) field encoding". *)
Definition A6XX_IBO_0_TILE_MODE : Z → Z := field 0 0x00000003.
Definition A6XX_IBO_0_FMT : Z → Z := field 22 0x3fc00000.
Definition A6XX_IBO_1_WIDTH : Z → Z := field 0 0x00007fff.
Definition A6XX_IBO_1_HEIGHT : Z → Z := field 15 0x3fff8000.
Definition A6XX_IBO_2_PITCH : Z → Z := field 7 0x1fffff80.
Definition A6XX_IBO_2_TYPE : Z → Z := field 29 0x60000000.
Definition A6XX_IBO_3_ARRAY_PITCH (val : Z) : Z :=
  field 0 0x00003fff (Z.shiftr val 12).
Definition A6XX_IBO_3_UNK27 : Z := 0x08000000.
Definition A6XX_IBO_3_FLAG : Z := 0x10000000.
Definition A6XX_IBO_5_DEPTH : Z → Z := field 17 0x3ffe0000.
Definition A6XX_IBO_9_FLAG_BUFFER_ARRAY_PITCH (val : Z) : Z :=
  field 0 0x0001ffff (Z.shiftr val 4).
Definition A6XX_IBO_10_FLAG_BUFFER_PITCH (val : Z) : Z :=
  field 0 0x0000007f (Z.shiftr val 6).

(** The value of the [DEPTH] field of descriptor word 5. *)
Definition tex_const_5_depth (word : Z) : Z :=
  Z.shiftr (Z.land word 0x3ffe0000) 17.

(** The packers of the register values a view caches for the command stream
    ([A6XX_SP_PS_2D_SRC_INFO(...).value] and the like); their arguments are
    the fields the file names, in the order it names them. *)
Class A6xxRegs := {
  (** color_format tile_mode color_swap flags srgb samples samples_average
      unk20 unk22 *)
  A6XX_SP_PS_2D_SRC_INFO :
    Z → Z → Z → bool → bool → Z → bool → bool → bool → Z;
  (** width height *)
  A6XX_SP_PS_2D_SRC_SIZE : Z → Z → Z;
  A6XX_RB_DEPTH_BUFFER_PITCH : Z → Z;
  (** pitch array_pitch *)
  A6XX_RB_DEPTH_FLAG_BUFFER_PITCH : Z → Z → Z;
  (** color_tile_mode color_format color_swap, for render target 0 *)
  A6XX_RB_MRT_BUF_INFO : Z → Z → Z → Z;
  (** color_format color_sint color_uint, for render target 0 *)
  A6XX_SP_FS_MRT_REG : Z → bool → bool → Z;
  (** color_format tile_mode color_swap flags srgb *)
  A6XX_RB_2D_DST_INFO : Z → Z → Z → bool → bool → Z;
  (** tile_mode samples color_format color_swap flags *)
  A6XX_RB_BLIT_DST_INFO : Z → Z → Z → Z → bool → Z;
  A6XX_RB_STENCIL_BUFFER_PITCH : Z → Z
}.

(** ** Image views *)

Record tu_sampler_ycbcr_conversion := {
  conv_components : VkComponentMapping;
  conv_chroma_offsets : list VkChromaLocation
}.

#[global] Instance VkChromaLocation_inhabited : Inhabited VkChromaLocation :=
  populate VK_CHROMA_LOCATION_COSITED_EVEN.

Record VkImageViewCreateInfo := {
  vci_image : handle;
  vci_viewType : VkImageViewType;
  vci_format : VkFormat;
  vci_components : VkComponentMapping;
  vci_subresourceRange : VkImageSubresourceRange;
  (** the conversion named by a [VkSamplerYcbcrConversionInfo] in [pNext] *)
  vci_conversion : option tu_sampler_ycbcr_conversion
}.

Record tu_image_view := {
  iv_image : handle;
  iv_base_addr : Z;
  iv_ubwc_addr : Z;
  iv_layer_size : Z;
  iv_ubwc_layer_size : Z;
  iv_extent : VkExtent2D;
  iv_need_y2_align : bool;
  iv_ubwc_enabled : bool;
  iv_descriptor : list Z;
  iv_storage_descriptor : list Z;
  iv_PITCH : Z;
  iv_FLAG_BUFFER_PITCH : Z;
  iv_RB_MRT_BUF_INFO : Z;
  iv_SP_FS_MRT_REG : Z;
  iv_SP_PS_2D_SRC_INFO : Z;
  iv_SP_PS_2D_SRC_SIZE : Z;
  iv_RB_2D_DST_INFO : Z;
  iv_RB_BLIT_DST_INFO : Z;
  iv_stencil_base_addr : Z;
  iv_stencil_layer_size : Z;
  iv_stencil_PITCH : Z
}.

(** [word |= bits] on element [i] of a descriptor. *)
Definition or_word (i : nat) (bits : Z) (d : list Z) : list Z :=
  alter (fun w => Z.lor w bits) i d.

Definition tu6_texswiz (comps : VkComponentMapping)
    (conversion : option tu_sampler_ycbcr_conversion) (format : VkFormat)
    (aspect_mask : VkImageAspectFlags) (limited_z24s8 : bool) : Z :=
  let swiz := [A6XX_TEX_X; A6XX_TEX_Y; A6XX_TEX_Z; A6XX_TEX_W] in
  let swiz :=
    if (format =? VK_FORMAT_G8B8G8R8_422_UNORM)
       || (format =? VK_FORMAT_B8G8R8G8_422_UNORM)
       || (format =? VK_FORMAT_G8_B8R8_2PLANE_420_UNORM)
       || (format =? VK_FORMAT_G8_B8_R8_3PLANE_420_UNORM)
    then
      <[2%nat := A6XX_TEX_Y]>
        (<[1%nat := A6XX_TEX_X]> (<[0%nat := A6XX_TEX_Z]> swiz))
    else if (format =? VK_FORMAT_BC1_RGB_UNORM_BLOCK)
            || (format =? VK_FORMAT_BC1_RGB_SRGB_BLOCK)
    then <[3%nat := A6XX_TEX_ONE]> swiz
    else if format =? VK_FORMAT_D24_UNORM_S8_UINT then
      if aspect_mask =? VK_IMAGE_ASPECT_STENCIL_BIT then
        if limited_z24s8 then
          <[1%nat := A6XX_TEX_ZERO]> (<[0%nat := A6XX_TEX_W]> swiz)
        else <[1%nat := A6XX_TEX_ZERO]> (<[0%nat := A6XX_TEX_Y]> swiz)
      else swiz
    else swiz in
  let swiz := compose_swizzle swiz comps in
  let swiz :=
    match conversion with
    | Some c => compose_swizzle swiz (conv_components c)
    | None => swiz
    end in
  Z.lor (Z.lor (Z.lor (A6XX_TEX_CONST_0_SWIZ_X (swiz !!! 0%nat))
                      (A6XX_TEX_CONST_0_SWIZ_Y (swiz !!! 1%nat)))
               (A6XX_TEX_CONST_0_SWIZ_Z (swiz !!! 2%nat)))
        (A6XX_TEX_CONST_0_SWIZ_W (swiz !!! 3%nat)).

(** [iview->image] and [iview->descriptor]. *)
Definition set_iv_texture (image : handle) (descriptor : list Z)
    (iview : tu_image_view) : tu_image_view :=
  {| iv_image := image;
     iv_base_addr := iv_base_addr iview;
     iv_ubwc_addr := iv_ubwc_addr iview;
     iv_layer_size := iv_layer_size iview;
     iv_ubwc_layer_size := iv_ubwc_layer_size iview;
     iv_extent := iv_extent iview;
     iv_need_y2_align := iv_need_y2_align iview;
     iv_ubwc_enabled := iv_ubwc_enabled iview;
     iv_descriptor := descriptor;
     iv_storage_descriptor := iv_storage_descriptor iview;
     iv_PITCH := iv_PITCH iview;
     iv_FLAG_BUFFER_PITCH := iv_FLAG_BUFFER_PITCH iview;
     iv_RB_MRT_BUF_INFO := iv_RB_MRT_BUF_INFO iview;
     iv_SP_FS_MRT_REG := iv_SP_FS_MRT_REG iview;
     iv_SP_PS_2D_SRC_INFO := iv_SP_PS_2D_SRC_INFO iview;
     iv_SP_PS_2D_SRC_SIZE := iv_SP_PS_2D_SRC_SIZE iview;
     iv_RB_2D_DST_INFO := iv_RB_2D_DST_INFO iview;
     iv_RB_BLIT_DST_INFO := iv_RB_BLIT_DST_INFO iview;
     iv_stencil_base_addr := iv_stencil_base_addr iview;
     iv_stencil_layer_size := iv_stencil_layer_size iview;
     iv_stencil_PITCH := iv_stencil_PITCH iview |}.

(** The 2D-source registers, the pitches and the cached addresses and sizes. *)
Definition set_iv_source (src_info : Z) (src_size : Z) (pitch : Z) (flag_pitch : Z) (base_addr : Z) (ubwc_addr : Z) (layer_size : Z) (ubwc_layer_size : Z)
    (iview : tu_image_view) : tu_image_view :=
  {| iv_image := iv_image iview;
     iv_base_addr := base_addr;
     iv_ubwc_addr := ubwc_addr;
     iv_layer_size := layer_size;
     iv_ubwc_layer_size := ubwc_layer_size;
     iv_extent := iv_extent iview;
     iv_need_y2_align := iv_need_y2_align iview;
     iv_ubwc_enabled := iv_ubwc_enabled iview;
     iv_descriptor := iv_descriptor iview;
     iv_storage_descriptor := iv_storage_descriptor iview;
     iv_PITCH := pitch;
     iv_FLAG_BUFFER_PITCH := flag_pitch;
     iv_RB_MRT_BUF_INFO := iv_RB_MRT_BUF_INFO iview;
     iv_SP_FS_MRT_REG := iv_SP_FS_MRT_REG iview;
     iv_SP_PS_2D_SRC_INFO := src_info;
     iv_SP_PS_2D_SRC_SIZE := src_size;
     iv_RB_2D_DST_INFO := iv_RB_2D_DST_INFO iview;
     iv_RB_BLIT_DST_INFO := iv_RB_BLIT_DST_INFO iview;
     iv_stencil_base_addr := iv_stencil_base_addr iview;
     iv_stencil_layer_size := iv_stencil_layer_size iview;
     iv_stencil_PITCH := iv_stencil_PITCH iview |}.

(** [iview->storage_descriptor]. *)
Definition set_iv_storage_descriptor (descriptor : list Z)
    (iview : tu_image_view) : tu_image_view :=
  {| iv_image := iv_image iview;
     iv_base_addr := iv_base_addr iview;
     iv_ubwc_addr := iv_ubwc_addr iview;
     iv_layer_size := iv_layer_size iview;
     iv_ubwc_layer_size := iv_ubwc_layer_size iview;
     iv_extent := iv_extent iview;
     iv_need_y2_align := iv_need_y2_align iview;
     iv_ubwc_enabled := iv_ubwc_enabled iview;
     iv_descriptor := iv_descriptor iview;
     iv_storage_descriptor := descriptor;
     iv_PITCH := iv_PITCH iview;
     iv_FLAG_BUFFER_PITCH := iv_FLAG_BUFFER_PITCH iview;
     iv_RB_MRT_BUF_INFO := iv_RB_MRT_BUF_INFO iview;
     iv_SP_FS_MRT_REG := iv_SP_FS_MRT_REG iview;
     iv_SP_PS_2D_SRC_INFO := iv_SP_PS_2D_SRC_INFO iview;
     iv_SP_PS_2D_SRC_SIZE := iv_SP_PS_2D_SRC_SIZE iview;
     iv_RB_2D_DST_INFO := iv_RB_2D_DST_INFO iview;
     iv_RB_BLIT_DST_INFO := iv_RB_BLIT_DST_INFO iview;
     iv_stencil_base_addr := iv_stencil_base_addr iview;
     iv_stencil_layer_size := iv_stencil_layer_size iview;
     iv_stencil_PITCH := iv_stencil_PITCH iview |}.

(** The fields used for attachments and blit destinations. *)
Definition set_iv_attachment (extent : VkExtent2D) (need_y2_align : bool) (ubwc_enabled : bool) (mrt_buf_info : Z) (mrt_reg : Z) (dst_info_2d : Z) (blit_dst_info : Z)
    (iview : tu_image_view) : tu_image_view :=
  {| iv_image := iv_image iview;
     iv_base_addr := iv_base_addr iview;
     iv_ubwc_addr := iv_ubwc_addr iview;
     iv_layer_size := iv_layer_size iview;
     iv_ubwc_layer_size := iv_ubwc_layer_size iview;
     iv_extent := extent;
     iv_need_y2_align := need_y2_align;
     iv_ubwc_enabled := ubwc_enabled;
     iv_descriptor := iv_descriptor iview;
     iv_storage_descriptor := iv_storage_descriptor iview;
     iv_PITCH := iv_PITCH iview;
     iv_FLAG_BUFFER_PITCH := iv_FLAG_BUFFER_PITCH iview;
     iv_RB_MRT_BUF_INFO := mrt_buf_info;
     iv_SP_FS_MRT_REG := mrt_reg;
     iv_SP_PS_2D_SRC_INFO := iv_SP_PS_2D_SRC_INFO iview;
     iv_SP_PS_2D_SRC_SIZE := iv_SP_PS_2D_SRC_SIZE iview;
     iv_RB_2D_DST_INFO := dst_info_2d;
     iv_RB_BLIT_DST_INFO := blit_dst_info;
     iv_stencil_base_addr := iv_stencil_base_addr iview;
     iv_stencil_layer_size := iv_stencil_layer_size iview;
     iv_stencil_PITCH := iv_stencil_PITCH iview |}.

(** The separate-stencil side band. *)
Definition set_iv_stencil (base_addr : Z) (layer_size : Z) (pitch : Z)
    (iview : tu_image_view) : tu_image_view :=
  {| iv_image := iv_image iview;
     iv_base_addr := iv_base_addr iview;
     iv_ubwc_addr := iv_ubwc_addr iview;
     iv_layer_size := iv_layer_size iview;
     iv_ubwc_layer_size := iv_ubwc_layer_size iview;
     iv_extent := iv_extent iview;
     iv_need_y2_align := iv_need_y2_align iview;
     iv_ubwc_enabled := iv_ubwc_enabled iview;
     iv_descriptor := iv_descriptor iview;
     iv_storage_descriptor := iv_storage_descriptor iview;
     iv_PITCH := iv_PITCH iview;
     iv_FLAG_BUFFER_PITCH := iv_FLAG_BUFFER_PITCH iview;
     iv_RB_MRT_BUF_INFO := iv_RB_MRT_BUF_INFO iview;
     iv_SP_FS_MRT_REG := iv_SP_FS_MRT_REG iview;
     iv_SP_PS_2D_SRC_INFO := iv_SP_PS_2D_SRC_INFO iview;
     iv_SP_PS_2D_SRC_SIZE := iv_SP_PS_2D_SRC_SIZE iview;
     iv_RB_2D_DST_INFO := iv_RB_2D_DST_INFO iview;
     iv_RB_BLIT_DST_INFO := iv_RB_BLIT_DST_INFO iview;
     iv_stencil_base_addr := base_addr;
     iv_stencil_layer_size := layer_size;
     iv_stencil_PITCH := pitch |}.

Section ImageView.
Context `{FormatDb, FdlLayout, TuPrivate, A6xxRegs}.

(** [image->bo->iova + image->bo_offset + offset], a [uint64_t]. *)
Definition image_addr (bo : tu_bo) (image : tu_image) (offset : Z) : Z :=
  u64 (iova bo + img_bo_offset image + offset).

(** The local [format] of [tu_image_view_init]: the view's format, replaced
    by the format of the selected plane when the aspect is not colour. *)
Definition view_format (pCreateInfo : VkImageViewCreateInfo) : VkFormat :=
  let format := vci_format pCreateInfo in
  let aspect_mask := sr_aspectMask (vci_subresourceRange pCreateInfo) in
  if negb (aspect_mask =? VK_IMAGE_ASPECT_COLOR_BIT) then
    tu6_plane_format format (tu6_plane_index format aspect_mask)
  else format.

(** The local [storage_depth]. *)
Definition view_storage_depth (image : tu_image)
    (pCreateInfo : VkImageViewCreateInfo) : Z :=
  let range := vci_subresourceRange pCreateInfo in
  match vci_viewType pCreateInfo with
  | VK_IMAGE_VIEW_TYPE_3D =>
      u_minify (ext_depth (img_extent image)) (sr_baseMipLevel range)
  | _ => tu_get_layerCount image range
  end.

(** The local [depth]: cubes are 2D arrays for storage images, so only the
    texture descriptor divides by 6. *)
Definition view_depth (image : tu_image)
    (pCreateInfo : VkImageViewCreateInfo) : Z :=
  let depth := view_storage_depth image pCreateInfo in
  match vci_viewType pCreateInfo with
  | VK_IMAGE_VIEW_TYPE_CUBE | VK_IMAGE_VIEW_TYPE_CUBE_ARRAY => depth / 6
  | _ => depth
  end.

(** The layout the view reads: [image->layout[tu6_plane_index(...)]]. *)
Definition view_layout (image : tu_image)
    (pCreateInfo : VkImageViewCreateInfo) : fdl_layout :=
  img_layout image !!!
    Z.to_nat (tu6_plane_index (img_vk_format image)
                (sr_aspectMask (vci_subresourceRange pCreateInfo))).

(** The base addresses of the three planes in the multi-planar branch. *)
Definition ycbcr_base_addr (bo : tu_bo) (image : tu_image)
    (range : VkImageSubresourceRange) (ubwc_enabled : bool) (i : nat) : Z :=
  let layout := img_layout image !!! i in
  if ubwc_enabled then
    image_addr bo image
      (fdl_ubwc_offset layout (sr_baseMipLevel range) (sr_baseArrayLayer range))
  else
    image_addr bo image
      (fdl_surface_offset layout (sr_baseMipLevel range)
         (sr_baseArrayLayer range)).

(** The hardware format and the texture format of the view: the local
    [fmt.fmt] after the D24S8 override, and [fmt_tex]. *)
Definition view_fmt (fmt : tu_native_format) (format : VkFormat)
    (ubwc_enabled : bool) : Z :=
  let is_d24s8 :=
    (format =? VK_FORMAT_D24_UNORM_S8_UINT)
    || (format =? VK_FORMAT_X8_D24_UNORM_PACK32) in
  if is_d24s8 && ubwc_enabled then FMT6_Z24_UNORM_S8_UINT_AS_R8G8B8A8
  else nf_fmt fmt.

Definition view_fmt_tex (fmt_fmt : Z) (format : VkFormat)
    (aspect_mask : VkImageAspectFlags) (limited_z24s8 : bool) : Z :=
  let is_d24s8 :=
    (format =? VK_FORMAT_D24_UNORM_S8_UINT)
    || (format =? VK_FORMAT_X8_D24_UNORM_PACK32) in
  if is_d24s8 then
    let fmt_tex :=
      if has_bits aspect_mask VK_IMAGE_ASPECT_DEPTH_BIT
      then FMT6_Z24_UNORM_S8_UINT else fmt_fmt in
    if aspect_mask =? VK_IMAGE_ASPECT_STENCIL_BIT then
      (if limited_z24s8 then FMT6_8_8_8_8_UINT else FMT6_Z24_UINT_S8_UINT)
    else fmt_tex
  else fmt_fmt.

(** Words 0 to 5 of the texture descriptor, after the [memset]:
    [iview->descriptor[0] = ...] to [iview->descriptor[5] = ...]. *)
Definition tex_const_head (image : tu_image)
    (pCreateInfo : VkImageViewCreateInfo) (limited_z24s8 : bool)
    (base_addr : Z) : list Z :=
  let range := vci_subresourceRange pCreateInfo in
  let aspect_mask := sr_aspectMask range in
  let baseMipLevel := sr_baseMipLevel range in
  let layout := view_layout image pCreateInfo in
  let width := u_minify (lay_width0 layout) baseMipLevel in
  let height := u_minify (lay_height0 layout) baseMipLevel in
  let depth := view_depth image pCreateInfo in
  let pitch := fdl_pitch layout baseMipLevel in
  let layer_size := fdl_layer_stride layout baseMipLevel in
  let format := view_format pCreateInfo in
  let fmt := tu6_format_texture format (lay_tile_mode layout) in
  (* note: freedreno layout assumes no TILE_ALL bit for non-UBWC *)
  let fmt_tile_mode := fdl_tile_mode layout baseMipLevel in
  let ubwc_enabled := fdl_ubwc_enabled layout baseMipLevel in
  let fmt_tex :=
    view_fmt_tex (view_fmt fmt format ubwc_enabled) format aspect_mask
      limited_z24s8 in
  let descriptor := replicate A6XX_TEX_CONST_DWORDS 0 in
  let descriptor :=
    <[0%nat :=
        Z.lor (Z.lor (Z.lor (Z.lor (Z.lor (Z.lor
          (A6XX_TEX_CONST_0_TILE_MODE fmt_tile_mode)
          (COND (vk_format_is_srgb format) A6XX_TEX_CONST_0_SRGB))
          (A6XX_TEX_CONST_0_FMT fmt_tex))
          (A6XX_TEX_CONST_0_SAMPLES (tu_msaa_samples (img_samples image))))
          (A6XX_TEX_CONST_0_SWAP (nf_swap fmt)))
          (tu6_texswiz (vci_components pCreateInfo)
             (vci_conversion pCreateInfo) format aspect_mask limited_z24s8))
          (A6XX_TEX_CONST_0_MIPLVLS (u32 (tu_get_levelCount image range - 1)))]>
      descriptor in
  let descriptor :=
    <[1%nat := Z.lor (A6XX_TEX_CONST_1_WIDTH width)
                     (A6XX_TEX_CONST_1_HEIGHT height)]> descriptor in
  let descriptor :=
    <[2%nat :=
        Z.lor (Z.lor
          (A6XX_TEX_CONST_2_PITCHALIGN (u32 (lay_pitchalign layout - 6)))
          (A6XX_TEX_CONST_2_PITCH pitch))
          (A6XX_TEX_CONST_2_TYPE (tu6_tex_type (vci_viewType pCreateInfo) false))]>
      descriptor in
  let descriptor :=
    <[3%nat := A6XX_TEX_CONST_3_ARRAY_PITCH layer_size]> descriptor in
  let descriptor := <[4%nat := u32 base_addr]> descriptor in
  <[5%nat := u32 (Z.lor (Z.shiftr base_addr 32)
                        (A6XX_TEX_CONST_5_DEPTH depth))]> descriptor.

(** The descriptor words of the multi-planar branch, from the chroma
    midpoint bits to [iview->descriptor[10] = base_addr[2] >> 32]. *)
Definition tex_const_ycbcr (bo : tu_bo) (image : tu_image)
    (pCreateInfo : VkImageViewCreateInfo) (ubwc_enabled : bool)
    (descriptor : list Z) : list Z :=
  let range := vci_subresourceRange pCreateInfo in
  let descriptor :=
    match vci_conversion pCreateInfo with
    | Some c =>
        let descriptor :=
          match conv_chroma_offsets c !!! 0%nat with
          | VK_CHROMA_LOCATION_MIDPOINT =>
              or_word 0 A6XX_TEX_CONST_0_CHROMA_MIDPOINT_X descriptor
          | _ => descriptor
          end in
        match conv_chroma_offsets c !!! 1%nat with
        | VK_CHROMA_LOCATION_MIDPOINT =>
            or_word 0 A6XX_TEX_CONST_0_CHROMA_MIDPOINT_Y descriptor
        | _ => descriptor
        end
    | None => descriptor
    end in
  let descriptor := or_word 3 A6XX_TEX_CONST_3_TILE_ALL descriptor in
  let descriptor :=
    if ubwc_enabled then or_word 3 A6XX_TEX_CONST_3_FLAG descriptor
    else descriptor in
  (* no separate ubwc base, image must have the expected layout *)
  let base_addr := ycbcr_base_addr bo image range ubwc_enabled in
  let descriptor := <[4%nat := u32 (base_addr 0%nat)]> descriptor in
  let descriptor :=
    or_word 5 (u32 (Z.shiftr (base_addr 0%nat) 32)) descriptor in
  let descriptor :=
    <[6%nat := A6XX_TEX_CONST_6_PLANE_PITCH
                 (fdl_pitch (img_layout image !!! 1%nat)
                    (sr_baseMipLevel range))]> descriptor in
  let descriptor := <[7%nat := u32 (base_addr 1%nat)]> descriptor in
  let descriptor :=
    <[8%nat := u32 (Z.shiftr (base_addr 1%nat) 32)]> descriptor in
  let descriptor := <[9%nat := u32 (base_addr 2%nat)]> descriptor in
  <[10%nat := u32 (Z.shiftr (base_addr 2%nat) 32)]> descriptor.

(** The UBWC words of a single-plane view, [if (ubwc_enabled) { ... }]. *)
Definition tex_const_ubwc (layout : fdl_layout) (width height : Z)
    (ubwc_addr ubwc_pitch : Z) (ubwc_enabled : bool) (descriptor : list Z)
    : list Z :=
  if ubwc_enabled then
    let '(block_width, block_height) := fdl6_get_ubwc_blockwidth layout in
    let descriptor :=
      or_word 3 (Z.lor A6XX_TEX_CONST_3_FLAG A6XX_TEX_CONST_3_TILE_ALL)
        descriptor in
    let descriptor := <[7%nat := u32 ubwc_addr]> descriptor in
    let descriptor := <[8%nat := u32 (Z.shiftr ubwc_addr 32)]> descriptor in
    let descriptor :=
      or_word 9
        (A6XX_TEX_CONST_9_FLAG_BUFFER_ARRAY_PITCH
           (Z.shiftr (lay_ubwc_layer_size layout) 2)) descriptor in
    or_word 10
      (Z.lor (Z.lor
         (A6XX_TEX_CONST_10_FLAG_BUFFER_PITCH ubwc_pitch)
         (A6XX_TEX_CONST_10_FLAG_BUFFER_LOGW
            (util_logbase2_ceil (DIV_ROUND_UP width block_width))))
         (A6XX_TEX_CONST_10_FLAG_BUFFER_LOGH
            (util_logbase2_ceil (DIV_ROUND_UP height block_height))))
      descriptor
  else descriptor.

(** [MIN_LAYERSZ] of a 3D view; [slices[level_count - 1]] past the end of
    the array is undefined in C and the zero slice here. *)
Definition tex_const_3d (image : tu_image) (layout : fdl_layout)
    (viewType : VkImageViewType) (descriptor : list Z) : list Z :=
  match viewType with
  | VK_IMAGE_VIEW_TYPE_3D =>
      or_word 3
        (A6XX_TEX_CONST_3_MIN_LAYERSZ
           (sl_size0 (lay_slices layout !!!
                        Z.to_nat (u32 (img_level_count image - 1)))))
        descriptor
  | _ => descriptor
  end.

(** The storage descriptor, [iview->storage_descriptor], after its
    [memset]. *)
Definition ibo_descriptor (layout : fdl_layout)
    (viewType : VkImageViewType) (fmt_fmt fmt_tile_mode width height pitch
     layer_size base_addr storage_depth ubwc_addr ubwc_pitch : Z)
    (ubwc_enabled : bool) : list Z :=
  let sd := replicate A6XX_TEX_CONST_DWORDS 0 in
  let sd :=
    <[0%nat := Z.lor (A6XX_IBO_0_FMT fmt_fmt)
                     (A6XX_IBO_0_TILE_MODE fmt_tile_mode)]> sd in
  let sd :=
    <[1%nat := Z.lor (A6XX_IBO_1_WIDTH width) (A6XX_IBO_1_HEIGHT height)]> sd in
  let sd :=
    <[2%nat := Z.lor (A6XX_IBO_2_PITCH pitch)
                     (A6XX_IBO_2_TYPE (tu6_tex_type viewType true))]> sd in
  let sd := <[3%nat := A6XX_IBO_3_ARRAY_PITCH layer_size]> sd in
  let sd := <[4%nat := u32 base_addr]> sd in
  let sd :=
    <[5%nat := u32 (Z.lor (Z.shiftr base_addr 32)
                          (A6XX_IBO_5_DEPTH storage_depth))]> sd in
  if ubwc_enabled then
    let sd := or_word 3 (Z.lor A6XX_IBO_3_FLAG A6XX_IBO_3_UNK27) sd in
    let sd := or_word 7 (u32 ubwc_addr) sd in
    let sd := or_word 8 (u32 (Z.shiftr ubwc_addr 32)) sd in
    let sd :=
      <[9%nat := A6XX_IBO_9_FLAG_BUFFER_ARRAY_PITCH
                   (Z.shiftr (lay_ubwc_layer_size layout) 2)]> sd in
    <[10%nat := A6XX_IBO_10_FLAG_BUFFER_PITCH ubwc_pitch]> sd
  else sd.

(** The assertion on the layer range that opens [tu_image_view_init]. *)
Definition view_range_assert (image : tu_image)
    (range : VkImageSubresourceRange) : bool :=
  match img_type image with
  | VK_IMAGE_TYPE_1D | VK_IMAGE_TYPE_2D =>
      u32 (sr_baseArrayLayer range + tu_get_layerCount image range)
      <=? img_layer_count image
  | VK_IMAGE_TYPE_3D =>
      u32 (sr_baseArrayLayer range + tu_get_layerCount image range)
      <=? tu_minify (ext_depth (img_extent image)) (sr_baseMipLevel range)
  end.

Definition tu_image_view_init (image : tu_image) (iview : tu_image_view)
    (pCreateInfo : VkImageViewCreateInfo) (limited_z24s8 : bool)
    : result tu_image_view :=
  let range := vci_subresourceRange pCreateInfo in
  let baseMipLevel := sr_baseMipLevel range in
  let baseArrayLayer := sr_baseArrayLayer range in
  assert (view_range_assert image range);;
  let layout := view_layout image pCreateInfo in
  let width := u_minify (lay_width0 layout) baseMipLevel in
  let height := u_minify (lay_height0 layout) baseMipLevel in
  let storage_depth := view_storage_depth image pCreateInfo in
  bo ← match img_bo image with Some bo => Ok bo | None => Abort end;
  let base_addr :=
    image_addr bo image (fdl_surface_offset layout baseMipLevel baseArrayLayer) in
  let ubwc_addr :=
    image_addr bo image (fdl_ubwc_offset layout baseMipLevel baseArrayLayer) in
  let pitch := fdl_pitch layout baseMipLevel in
  let ubwc_pitch := fdl_ubwc_pitch layout baseMipLevel in
  let layer_size := fdl_layer_stride layout baseMipLevel in
  let format := view_format pCreateInfo in
  let fmt := tu6_format_texture format (lay_tile_mode layout) in
  let fmt_tile_mode := fdl_tile_mode layout baseMipLevel in
  let ubwc_enabled := fdl_ubwc_enabled layout baseMipLevel in
  let fmt_fmt := view_fmt fmt format ubwc_enabled in
  let descriptor := tex_const_head image pCreateInfo limited_z24s8 base_addr in
  if (format =? VK_FORMAT_G8_B8R8_2PLANE_420_UNORM)
     || (format =? VK_FORMAT_G8_B8_R8_3PLANE_420_UNORM)
  then
    (* chroma offset re-uses MIPLVLS bits *)
    assert (tu_get_levelCount image range =? 1);;
    let descriptor :=
      tex_const_ycbcr bo image pCreateInfo ubwc_enabled descriptor in
    assert match vci_viewType pCreateInfo with
           | VK_IMAGE_VIEW_TYPE_3D => false
           | _ => true
           end;;
    assert (negb (has_bits (img_usage image) VK_IMAGE_USAGE_STORAGE_BIT));;
    Ok (set_iv_texture (vci_image pCreateInfo) descriptor iview)
  else
    let descriptor :=
      tex_const_ubwc layout width height ubwc_addr ubwc_pitch ubwc_enabled
        descriptor in
    let descriptor :=
      tex_const_3d image layout (vci_viewType pCreateInfo) descriptor in
    let srgb := vk_format_is_srgb format in
    let samples := tu_msaa_samples (img_samples image) in
    let iview := set_iv_texture (vci_image pCreateInfo) descriptor iview in
    let iview :=
      set_iv_source
        (A6XX_SP_PS_2D_SRC_INFO fmt_fmt fmt_tile_mode (nf_swap fmt)
           ubwc_enabled srgb samples
           ((1 <? img_samples image)
            && negb (vk_format_is_int format)
            && negb (vk_format_is_depth_or_stencil format))
           true true)
        (A6XX_SP_PS_2D_SRC_SIZE width height)
        (* note: these have same encoding for MRT and 2D *)
        (A6XX_RB_DEPTH_BUFFER_PITCH pitch)
        (A6XX_RB_DEPTH_FLAG_BUFFER_PITCH ubwc_pitch
           (Z.shiftr (lay_ubwc_layer_size layout) 2))
        base_addr ubwc_addr layer_size (lay_ubwc_layer_size layout) iview in
    (* Don't set fields that are only used for attachments/blit dest if
       COLOR is unsupported. *)
    if negb (has_bits (nf_supported fmt) FMT_COLOR) then Ok iview
    else
      let cfmt := tu6_format_color format (lay_tile_mode layout) in
      let cfmt_tile_mode := fmt_tile_mode in
      let cfmt_fmt := view_fmt cfmt format ubwc_enabled in
      let iview :=
        if has_bits (img_usage image) VK_IMAGE_USAGE_STORAGE_BIT then
          set_iv_storage_descriptor
            (ibo_descriptor layout (vci_viewType pCreateInfo) fmt_fmt
               fmt_tile_mode width height pitch layer_size base_addr
               storage_depth ubwc_addr ubwc_pitch ubwc_enabled)
            iview
        else iview in
      let iview :=
        set_iv_attachment
          {| ext2_width := width; ext2_height := height |}
          ((fmt_tile_mode =? TILE6_LINEAR)
           && negb (baseMipLevel =? u32 (img_level_count image - 1)))
          ubwc_enabled
          (A6XX_RB_MRT_BUF_INFO cfmt_tile_mode cfmt_fmt (nf_swap cfmt))
          (A6XX_SP_FS_MRT_REG cfmt_fmt (vk_format_is_sint format)
             (vk_format_is_uint format))
          (A6XX_RB_2D_DST_INFO cfmt_fmt cfmt_tile_mode (nf_swap cfmt)
             ubwc_enabled srgb)
          (A6XX_RB_BLIT_DST_INFO cfmt_tile_mode samples cfmt_fmt
             (nf_swap cfmt) ubwc_enabled)
          iview in
      if img_vk_format image =? VK_FORMAT_D32_SFLOAT_S8_UINT then
        let layout := img_layout image !!! 1%nat in
        Ok (set_iv_stencil
              (image_addr bo image
                 (fdl_surface_offset layout baseMipLevel baseArrayLayer))
              (fdl_layer_stride layout baseMipLevel)
              (A6XX_RB_STENCIL_BUFFER_PITCH (fdl_pitch layout baseMipLevel))
              iview)
      else Ok iview.

(** *** Vocabulary of the statements about views *)

(** The assertions a view of a multi-planar format meets on its way through
    [tu_image_view_init]. *)
Definition ycbcr_view_asserts (image : tu_image)
    (pCreateInfo : VkImageViewCreateInfo) : bool :=
  let range := vci_subresourceRange pCreateInfo in
  view_range_assert image range
  && (tu_get_levelCount image range =? 1)
  && match vci_viewType pCreateInfo with
     | VK_IMAGE_VIEW_TYPE_3D => false
     | _ => true
     end
  && negb (has_bits (img_usage image) VK_IMAGE_USAGE_STORAGE_BIT).

(** The assertions of [tu_image_view_init] on the path the view takes. *)
Definition view_init_asserts (image : tu_image)
    (pCreateInfo : VkImageViewCreateInfo) : bool :=
  let format := view_format pCreateInfo in
  if (format =? VK_FORMAT_G8_B8R8_2PLANE_420_UNORM)
     || (format =? VK_FORMAT_G8_B8_R8_3PLANE_420_UNORM)
  then ycbcr_view_asserts image pCreateInfo
  else view_range_assert image (vci_subresourceRange pCreateInfo).

(** The addresses whose high halves share descriptor word 5 with the depth
    field fit the 17 bits below it. *)
Definition view_addresses_fit (bo : tu_bo) (image : tu_image)
    (pCreateInfo : VkImageViewCreateInfo) : Prop :=
  let range := vci_subresourceRange pCreateInfo in
  image_addr bo image
    (fdl_surface_offset (view_layout image pCreateInfo)
       (sr_baseMipLevel range) (sr_baseArrayLayer range)) < 2 ^ 49
  ∧ ∀ ubwc_enabled,
      ycbcr_base_addr bo image range ubwc_enabled 0 < 2 ^ 49.

End ImageView.

(** ** Buffer views *)

Record tu_buffer := {
  buf_size : Z;
  buf_bo : tu_bo;
  buf_bo_offset : Z
}.

Record VkBufferViewCreateInfo := {
  bvci_buffer : handle;
  bvci_format : VkFormat;
  bvci_offset : Z;
  bvci_range : Z
}.

Record tu_buffer_view := {
  bv_descriptor : list Z;
  bv_buffer : handle
}.

Section BufferView.
Context `{FormatDb, TuPrivate}.

(** Modelled from the spec: [tu_buffer_iova] of [tu_private.h], the spec's
    "buffer address". *)
Definition tu_buffer_iova (buffer : tu_buffer) : Z :=
  u64 (iova (buf_bo buffer) + buf_bo_offset buffer).

Definition tu_buffer_view_init (buffer : tu_buffer) (view : tu_buffer_view)
    (pCreateInfo : VkBufferViewCreateInfo) : tu_buffer_view :=
  let vfmt := bvci_format pCreateInfo in
  let pfmt := vk_format_to_pipe_format vfmt in
  let fmt := tu6_format_texture vfmt TILE6_LINEAR in
  let range :=
    if bvci_range pCreateInfo =? VK_WHOLE_SIZE then
      u32 (buf_size buffer - bvci_offset pCreateInfo)
    else u32 (bvci_range pCreateInfo) in
  let elements := range / util_format_get_blocksize pfmt in
  let components :=
    {| cm_r := VK_COMPONENT_SWIZZLE_R; cm_g := VK_COMPONENT_SWIZZLE_G;
       cm_b := VK_COMPONENT_SWIZZLE_B; cm_a := VK_COMPONENT_SWIZZLE_A |} in
  let iova := u64 (tu_buffer_iova buffer + bvci_offset pCreateInfo) in
  let descriptor := replicate A6XX_TEX_CONST_DWORDS 0 in
  let descriptor :=
    <[0%nat :=
        Z.lor (Z.lor (Z.lor (Z.lor
          (A6XX_TEX_CONST_0_TILE_MODE TILE6_LINEAR)
          (A6XX_TEX_CONST_0_SWAP (nf_swap fmt)))
          (A6XX_TEX_CONST_0_FMT (nf_fmt fmt)))
          (A6XX_TEX_CONST_0_MIPLVLS 0))
          (tu6_texswiz components None vfmt VK_IMAGE_ASPECT_COLOR_BIT false)]>
      descriptor in
  (* the statement [COND(vk_format_is_srgb(vfmt), A6XX_TEX_CONST_0_SRGB);]
     follows the semicolon that ends the assignment: its value is dropped *)
  let _ := COND (vk_format_is_srgb vfmt) A6XX_TEX_CONST_0_SRGB in
  let descriptor :=
    <[1%nat := Z.lor (A6XX_TEX_CONST_1_WIDTH (Z.land elements (MASK 15)))
                     (A6XX_TEX_CONST_1_HEIGHT (Z.shiftr elements 15))]>
      descriptor in
  let descriptor :=
    <[2%nat := Z.lor A6XX_TEX_CONST_2_UNK4 A6XX_TEX_CONST_2_UNK31]>
      descriptor in
  let descriptor := <[4%nat := u32 iova]> descriptor in
  let descriptor := <[5%nat := u32 (Z.shiftr iova 32)]> descriptor in
  {| bv_descriptor := descriptor; bv_buffer := bvci_buffer pCreateInfo |}.

End BufferView.

(** ** Object lifetime

    The objects behind the Vulkan handles live in a store keyed by handle;
    [VK_NULL_HANDLE] is the null pointer.  [vk_object_free] removes the
    object from the store. *)

Record tu_heap := {
  heap_images : gmap handle tu_image;
  heap_image_views : gmap handle tu_image_view;
  heap_buffer_views : gmap handle tu_buffer_view;
  (** the live [VkDeviceMemory] objects *)
  heap_memory : gset handle
}.

Definition set_heap_images (m : gmap handle tu_image) (h : tu_heap) : tu_heap :=
  {| heap_images := m; heap_image_views := heap_image_views h;
     heap_buffer_views := heap_buffer_views h; heap_memory := heap_memory h |}.

Definition set_heap_image_views (m : gmap handle tu_image_view) (h : tu_heap)
    : tu_heap :=
  {| heap_images := heap_images h; heap_image_views := m;
     heap_buffer_views := heap_buffer_views h; heap_memory := heap_memory h |}.

Definition set_heap_buffer_views (m : gmap handle tu_buffer_view) (h : tu_heap)
    : tu_heap :=
  {| heap_images := heap_images h; heap_image_views := heap_image_views h;
     heap_buffer_views := m; heap_memory := heap_memory h |}.

(** [tu_FreeMemory] lives in [tu_device.c]. *)
Class TuDeviceMemory := {
  tu_FreeMemory : tu_heap → handle → tu_heap
}.

Section Destroy.
Context `{TuDeviceMemory}.

(** Destroying through a handle that names no live object is undefined. *)
Definition tu_DestroyImage (h : tu_heap) (_image : handle) : result tu_heap :=
  if _image =? VK_NULL_HANDLE then Ok h
  else
    match heap_images h !! _image with
    | None => Abort
    | Some image =>
        let h :=
          if negb (img_owned_memory image =? VK_NULL_HANDLE) then
            tu_FreeMemory h (img_owned_memory image)
          else h in
        Ok (set_heap_images (delete _image (heap_images h)) h)
    end.

Definition tu_DestroyImageView (h : tu_heap) (_iview : handle)
    : result tu_heap :=
  if _iview =? VK_NULL_HANDLE then Ok h
  else
    match heap_image_views h !! _iview with
    | None => Abort
    | Some _ =>
        Ok (set_heap_image_views (delete _iview (heap_image_views h)) h)
    end.

Definition tu_DestroyBufferView (h : tu_heap) (bufferView : handle)
    : result tu_heap :=
  if bufferView =? VK_NULL_HANDLE then Ok h
  else
    match heap_buffer_views h !! bufferView with
    | None => Abort
    | Some _ =>
        Ok (set_heap_buffer_views (delete bufferView (heap_buffer_views h)) h)
    end.

End Destroy.

(** ** Vocabulary of the statements about [tu_image_create] *)

Section ImageCreateStatements.
Context `{FormatDb, FdlLayout, TuPrivate}.

(** The call of the layout routine for plane [i] of an image under
    construction: the plane's format and extent, a zero-initialised layout
    carrying [tile_mode] and the plane's [ubwc_enabled], where [ubwc_enabled]
    is the value the tiling policy decided. *)
Definition plane_layout_request (pCreateInfo : VkImageCreateInfo)
    (tile_mode : Z) (ubwc_enabled : bool)
    (plane_layout : option fdl_explicit_layout) (i : nat)
    : option fdl_layout :=
  let vk_format := ci_format pCreateInfo in
  let '(width0, height0, ubwc_enabled) :=
    plane_adjust vk_format i
      (ext_width (ci_extent pCreateInfo))
      (ext_height (ci_extent pCreateInfo)) ubwc_enabled in
  plane_fdl6_layout pCreateInfo fdl_layout_zero tile_mode ubwc_enabled
    (tu6_plane_format vk_format (Z.of_nat i)) width0 height0 plane_layout.

(** The explicit layout built from an entry of [plane_layouts]. *)
Definition explicit_of (l : VkSubresourceLayout) : fdl_explicit_layout :=
  {| el_offset := u32 (srl_offset l); el_pitch := u32 (srl_rowPitch l) |}.

(** The total size of the planes before plane [k]: the value of
    [image->total_size] when plane [k] is laid out. *)
Definition planes_total (image : tu_image) (k : nat) : Z :=
  fold_left MAX2 (lay_size <$> take k (img_layout image)) 0.

(** The sizes of the planes before plane [k] added up: the total as the
    plane-independence property words it, [Σ plane<k sizes], to set beside
    [planes_total]. *)
Definition planes_sum (image : tu_image) (k : nat) : Z :=
  foldr Z.add 0 (lay_size <$> take k (img_layout image)).

(** The assertions of [tu_image_create]. *)
Definition create_asserts (device : tu_device)
    (pCreateInfo : VkImageCreateInfo) (modifier : Z) : bool :=
  create_info_asserts pCreateInfo
  && (negb (modifier =? DRM_FORMAT_MOD_QCOM_COMPRESSED)
      || (tu_image_tiling_policy device pCreateInfo modifier).2).

(** What the statements ask of the layout routine: it leaves the tile mode it
    was given, it does not switch UBWC on by itself, and it lays out a
    metadata region only with UBWC. *)
Definition fdl6_keeps_tile_mode : Prop :=
  ∀ layout format samples w h d mips layers is_3d explicit out,
    fdl6_layout layout format samples w h d mips layers is_3d explicit
    = Some out →
    lay_tile_mode out = lay_tile_mode layout.

Definition fdl6_ubwc_only_if_asked : Prop :=
  ∀ layout format samples w h d mips layers is_3d explicit out,
    fdl6_layout layout format samples w h d mips layers is_3d explicit
    = Some out →
    lay_ubwc out = true → lay_ubwc layout = true.

Definition fdl6_metadata_only_with_ubwc : Prop :=
  ∀ layout format samples w h d mips layers is_3d explicit out,
    fdl6_layout layout format samples w h d mips layers is_3d explicit
    = Some out →
    lay_ubwc out = false → lay_ubwc_layer_size out = 0.

(** The state of the loop over the planes before plane [i] is laid out: the
    layouts of the planes to come are still zero, and the policy's
    [ubwc_enabled] is in force for them. *)
Definition plane_inv (pCreateInfo : VkImageCreateInfo) (ubwc0 : bool)
    (i : nat) (st : tu_image * bool) : Prop :=
  let vk_format := ci_format pCreateInfo in
  let width0 := ext_width (ci_extent pCreateInfo) in
  let height0 := ext_height (ci_extent pCreateInfo) in
  img_vk_format st.1 = vk_format
  ∧ length (img_layout st.1) = 3%nat
  ∧ (∀ j, (i ≤ j)%nat → img_layout st.1 !!! j = fdl_layout_zero)
  ∧ (∀ j, (i ≤ j)%nat →
       plane_adjust vk_format j width0 height0 st.2
       = plane_adjust vk_format j width0 height0 ubwc0).

(** Plane [k] of [image] is the layout the routine computed for it, moved
    behind the planes before it when [k > 0]. *)
Definition plane_placed (pCreateInfo : VkImageCreateInfo) (tile_mode : Z)
    (ubwc0 : bool) (image : tu_image) (k : nat) : Prop :=
  ∃ raw,
    plane_layout_request pCreateInfo tile_mode ubwc0 None k = Some raw
    ∧ img_layout image !! k
      = Some (place_plane pCreateInfo None k (planes_total image k) raw).

Definition placement_inv (pCreateInfo : VkImageCreateInfo) (tile_mode : Z)
    (ubwc0 : bool) (i : nat) (st : tu_image * bool) : Prop :=
  plane_inv pCreateInfo ubwc0 i st
  ∧ img_total_size st.1 = planes_total st.1 i
  ∧ ∀ k, (k < i)%nat → plane_placed pCreateInfo tile_mode ubwc0 st.1 k.

End ImageCreateStatements.

(** ** Command-stream references *)

(** Modelled from the spec: [tu_cs_emit] and [tu_cs_emit_qw] of [tu_cs.h], the
    spec's "emit" of the emission helpers.  The stream is the list of the
    dwords emitted so far; [tu_cs_emit] takes a [uint32_t]; a 64-bit value
    goes out as its low dword followed by its high dword. *)
Definition tu_cs_emit (cs : list Z) (value : Z) : list Z := cs ++ [u32 value].
Definition tu_cs_emit_qw (cs : list Z) (value : Z) : list Z :=
  tu_cs_emit (tu_cs_emit cs value) (Z.shiftr value 32).

(** [layer_size * layer] is a product of two [uint32_t], added to a
    [uint64_t] address. *)
Definition tu_cs_image_ref (cs : list Z) (iview : tu_image_view) (layer : Z)
    : list Z :=
  let cs := tu_cs_emit cs (iv_PITCH iview) in
  let cs := tu_cs_emit cs (Z.shiftr (iv_layer_size iview) 6) in
  tu_cs_emit_qw cs
    (u64 (iv_base_addr iview + u32 (iv_layer_size iview * layer))).

Definition tu_cs_image_stencil_ref (cs : list Z) (iview : tu_image_view)
    (layer : Z) : list Z :=
  let cs := tu_cs_emit cs (iv_stencil_PITCH iview) in
  let cs := tu_cs_emit cs (Z.shiftr (iv_stencil_layer_size iview) 6) in
  tu_cs_emit_qw cs
    (u64 (iv_stencil_base_addr iview
          + u32 (iv_stencil_layer_size iview * layer))).

Definition tu_cs_image_ref_2d (cs : list Z) (iview : tu_image_view)
    (layer : Z) (src : bool) : list Z :=
  let cs :=
    tu_cs_emit_qw cs
      (u64 (iv_base_addr iview + u32 (iv_layer_size iview * layer))) in
  (* SP_PS_2D_SRC_PITCH has shifted pitch field *)
  tu_cs_emit cs (Z.shiftl (iv_PITCH iview) (if src then 9 else 0)).

Definition tu_cs_image_flag_ref (cs : list Z) (iview : tu_image_view)
    (layer : Z) : list Z :=
  let cs :=
    tu_cs_emit_qw cs
      (u64 (iv_ubwc_addr iview + u32 (iv_ubwc_layer_size iview * layer))) in
  tu_cs_emit cs (iv_FLAG_BUFFER_PITCH iview).

(** The 64-bit value held by two consecutive dwords, low dword first. *)
Definition qword (lo hi : Z) : Z := Z.lor lo (Z.shiftl hi 32).

(** ** The subresource layout query *)

Record VkImageSubresource := {
  isr_aspectMask : VkImageAspectFlags;
  isr_mipLevel : Z;
  isr_arrayLayer : Z
}.

Section SubresourceLayout.
Context `{FdlLayout}.

(** [tu_GetImageSubresourceLayout]: the layout stored through [pLayout].
    [layout->slices + mipLevel] past the end of the array is undefined in C
    and the zero slice here. *)
Definition tu_GetImageSubresourceLayout (image : tu_image)
    (pSubresource : VkImageSubresource) : result VkSubresourceLayout :=
  let layout :=
    img_layout image !!!
      Z.to_nat (tu6_plane_index (img_vk_format image)
                  (isr_aspectMask pSubresource)) in
  let slice := lay_slices layout !!! Z.to_nat (isr_mipLevel pSubresource) in
  let pLayout :=
    {| srl_offset :=
         fdl_surface_offset layout (isr_mipLevel pSubresource)
           (isr_arrayLayer pSubresource);
       srl_size := sl_size0 slice;
       srl_rowPitch := fdl_pitch layout (isr_mipLevel pSubresource);
       srl_arrayPitch := fdl_layer_stride layout (isr_mipLevel pSubresource);
       srl_depthPitch := sl_size0 slice |} in
  if fdl_ubwc_enabled layout (isr_mipLevel pSubresource) then
    (* UBWC starts at offset 0 *)
    let pLayout :=
      {| srl_offset := 0; srl_size := srl_size pLayout;
         srl_rowPitch := srl_rowPitch pLayout;
         srl_arrayPitch := srl_arrayPitch pLayout;
         srl_depthPitch := srl_depthPitch pLayout |} in
    (* UBWC scanout won't match what the kernel wants if we have
       levels/layers *)
    assert ((img_level_count image =? 1) && (img_layer_count image =? 1));;
    Ok pLayout
  else Ok pLayout.

End SubresourceLayout.

(** ** [tu_CreateImage] *)

(** What [tu_CreateImage] looks for in the [pNext] chain:
    a [VkImageDrmFormatModifierListCreateInfoEXT] with its modifiers, a
    [VkImageDrmFormatModifierExplicitCreateInfoEXT] with its modifier and
    [pPlaneLayouts], and the [scanout] flag of a [wsi_image_create_info]. *)
Record tu_image_pNext := {
  pn_mod_info : option (list Z);
  pn_drm_explicit_info : option (Z * option (list VkSubresourceLayout));
  pn_wsi_info : option bool
}.

Section CreateImage.
Context `{FormatDb, FdlLayout, TuPrivate}.

(** The loop over [pDrmFormatModifiers]. *)
Definition pick_modifier (modifiers : list Z) : Z :=
  fold_left
    (fun modifier m =>
       if m =? DRM_FORMAT_MOD_QCOM_COMPRESSED then
         DRM_FORMAT_MOD_QCOM_COMPRESSED
       else modifier)
    modifiers DRM_FORMAT_MOD_LINEAR.

(** The modifier and the plane layouts [tu_CreateImage] hands on. *)
Definition tu_CreateImage_args (pCreateInfo : VkImageCreateInfo)
    (pNext : tu_image_pNext)
    : result (Z * option (list VkSubresourceLayout)) :=
  match ci_tiling pCreateInfo with
  | VK_IMAGE_TILING_DRM_FORMAT_MODIFIER_EXT =>
      assert (bool_decide (is_Some (pn_mod_info pNext))
              || bool_decide (is_Some (pn_drm_explicit_info pNext)));;
      match pn_mod_info pNext, pn_drm_explicit_info pNext with
      | Some modifiers, _ => Ok (pick_modifier modifiers, None)
      | None, Some (modifier, pPlaneLayouts) =>
          assert ((modifier =? DRM_FORMAT_MOD_LINEAR)
                  || (modifier =? DRM_FORMAT_MOD_QCOM_COMPRESSED));;
          Ok (modifier, pPlaneLayouts)
      | None, None => Abort
      end
  | _ =>
      match pn_wsi_info pNext with
      | Some true => Ok (DRM_FORMAT_MOD_LINEAR, None)
      | _ => Ok (DRM_FORMAT_MOD_INVALID, None)
      end
  end.

(** [tu_CreateImage], built without [ANDROID]. *)
Definition tu_CreateImage (device : tu_device) (alloc_ok : bool)
    (pCreateInfo : VkImageCreateInfo) (pNext : tu_image_pNext)
    : result tu_image :=
  '(modifier, plane_layouts) ← tu_CreateImage_args pCreateInfo pNext;
  tu_image_create device alloc_ok pCreateInfo modifier plane_layouts.

End CreateImage.

(** ** View objects

    [vk_object_alloc] returns null ([None]) or a new object, whose handle
    and whose uninitialised contents are the allocator's. *)

Section CreateViews.
Context `{FormatDb, FdlLayout, TuPrivate, A6xxRegs}.

(** [tu_CreateImageView]: the store and the handle stored through [pView]. *)
Definition tu_CreateImageView (device : tu_device) (h : tu_heap)
    (alloc : option (handle * tu_image_view))
    (pCreateInfo : VkImageViewCreateInfo) : result (tu_heap * handle) :=
  match alloc with
  | None => Error VK_ERROR_OUT_OF_HOST_MEMORY
  | Some (pView, view) =>
      image ← match heap_images h !! vci_image pCreateInfo with
              | Some image => Ok image
              | None => Abort
              end;
      view ← tu_image_view_init image view pCreateInfo (limited_z24s8 device);
      Ok (set_heap_image_views (<[pView := view]> (heap_image_views h)) h,
          pView)
  end.

(** [tu_CreateBufferView]; [buffer] is the object behind
    [pCreateInfo->buffer], if any. *)
Definition tu_CreateBufferView (h : tu_heap)
    (alloc : option (handle * tu_buffer_view)) (buffer : option tu_buffer)
    (pCreateInfo : VkBufferViewCreateInfo) : result (tu_heap * handle) :=
  match alloc with
  | None => Error VK_ERROR_OUT_OF_HOST_MEMORY
  | Some (pView, view) =>
      buffer ← match buffer with Some b => Ok b | None => Abort end;
      let view := tu_buffer_view_init buffer view pCreateInfo in
      Ok (set_heap_buffer_views (<[pView := view]> (heap_buffer_views h)) h,
          pView)
  end.

End CreateViews.

(** ** Vocabulary of the further statements *)

(** The selector a component of a mapping picks from the swizzle
    [x; y; z; w]; [own] is the selector in the component's own position. *)
Definition swizzle_select (x y z w own : Z) (c : VkComponentSwizzle) : Z :=
  match c with
  | VK_COMPONENT_SWIZZLE_IDENTITY => own
  | VK_COMPONENT_SWIZZLE_ZERO => A6XX_TEX_ZERO
  | VK_COMPONENT_SWIZZLE_ONE => A6XX_TEX_ONE
  | VK_COMPONENT_SWIZZLE_R => x
  | VK_COMPONENT_SWIZZLE_G => y
  | VK_COMPONENT_SWIZZLE_B => z
  | VK_COMPONENT_SWIZZLE_A => w
  end.

(** The [components] of [tu_buffer_view_init]. *)
Definition rgba_mapping : VkComponentMapping :=
  {| cm_r := VK_COMPONENT_SWIZZLE_R; cm_g := VK_COMPONENT_SWIZZLE_G;
     cm_b := VK_COMPONENT_SWIZZLE_B; cm_a := VK_COMPONENT_SWIZZLE_A |}.

(** The return expression of [tu6_texswiz]. *)
Definition swiz_pack (swiz : list Z) : Z :=
  Z.lor (Z.lor (Z.lor (A6XX_TEX_CONST_0_SWIZ_X (swiz !!! 0%nat))
                      (A6XX_TEX_CONST_0_SWIZ_Y (swiz !!! 1%nat)))
               (A6XX_TEX_CONST_0_SWIZ_Z (swiz !!! 2%nat)))
        (A6XX_TEX_CONST_0_SWIZ_W (swiz !!! 3%nat)).

(** A member of [enum a6xx_tex_swiz]. *)
Definition valid_swiz (s : Z) : Prop := 0 ≤ s ≤ A6XX_TEX_ONE.

(** The chroma offset of a conversion is the midpoint in direction [i]. *)
Definition chroma_midpoint (conversion : option tu_sampler_ycbcr_conversion)
    (i : nat) : bool :=
  match conversion with
  | Some c =>
      match conv_chroma_offsets c !!! i with
      | VK_CHROMA_LOCATION_MIDPOINT => true
      | VK_CHROMA_LOCATION_COSITED_EVEN => false
      end
  | None => false
  end.

(** The formats that send [tu_image_view_init] down its multi-planar
    branch. *)
Definition is_ycbcr_420 (format : VkFormat) : bool :=
  (format =? VK_FORMAT_G8_B8R8_2PLANE_420_UNORM)
  || (format =? VK_FORMAT_G8_B8_R8_3PLANE_420_UNORM).

Section FurtherStatements.
Context `{FormatDb, FdlLayout, TuPrivate}.

(** The local [elements] of [tu_buffer_view_init]. *)
Definition buffer_view_elements (buffer : tu_buffer)
    (pCreateInfo : VkBufferViewCreateInfo) : Z :=
  (if bvci_range pCreateInfo =? VK_WHOLE_SIZE then
     u32 (buf_size buffer - bvci_offset pCreateInfo)
   else u32 (bvci_range pCreateInfo))
  / util_format_get_blocksize
      (vk_format_to_pipe_format (bvci_format pCreateInfo)).

(** The conditions under which [tu_image_create] falls back to the linear
    tile mode: linear tiling or the linear modifier, a subsampled format, a
    mutable format that is not depth or stencil, or a YCbCr 4:2:0 format. *)
Definition linear_forced (pCreateInfo : VkImageCreateInfo) (modifier : Z)
    : bool :=
  (match ci_tiling pCreateInfo with
   | VK_IMAGE_TILING_LINEAR => true
   | _ => false
   end
   || (modifier =? DRM_FORMAT_MOD_LINEAR)
   || vk_format_is_subsampled (ci_format pCreateInfo)
   || (has_bits (ci_flags pCreateInfo) VK_IMAGE_CREATE_MUTABLE_FORMAT_BIT
       && negb (vk_format_is_depth_or_stencil (ci_format pCreateInfo))))
  || ((ci_format pCreateInfo =? VK_FORMAT_G8_B8R8_2PLANE_420_UNORM)
      || (ci_format pCreateInfo =? VK_FORMAT_G8_B8_R8_3PLANE_420_UNORM)).

(** The further conditions under which it gives up UBWC. *)
Definition ubwc_excluded (device : tu_device)
    (pCreateInfo : VkImageCreateInfo) : bool :=
  has_bits (debug_flags device) TU_DEBUG_NOUBWC
  || vk_format_is_compressed (ci_format pCreateInfo)
  || (ci_format pCreateInfo =? VK_FORMAT_E5B9G9R9_UFLOAT_PACK32)
  || (ci_format pCreateInfo =? VK_FORMAT_S8_UINT)
  || (1 <? ext_depth (ci_extent pCreateInfo))
  || has_bits (ci_usage pCreateInfo) VK_IMAGE_USAGE_STORAGE_BIT
  || (limited_z24s8 device
      && (ci_format pCreateInfo =? VK_FORMAT_D24_UNORM_S8_UINT)
      && has_bits (ci_usage pCreateInfo)
           (Z.lor VK_IMAGE_USAGE_SAMPLED_BIT
                  VK_IMAGE_USAGE_INPUT_ATTACHMENT_BIT)).

(** The fields of an image other than its plane layouts and its total
    size. *)
Definition image_header (image : tu_image) :=
  (img_type image, img_vk_format image, img_tiling image, img_usage image,
   img_flags image, img_extent image, img_level_count image,
   img_layer_count image, img_samples image, img_queue_family_mask image,
   img_exclusive image, img_shareable image, img_owned_memory image,
   img_bo image, img_bo_offset image).

(** Plane [k] of [image] is the layout the routine computed for it, with or
    without an explicit layout, placed behind the planes before it. *)
Definition plane_built (pCreateInfo : VkImageCreateInfo)
    (plane_layouts : option (list VkSubresourceLayout)) (tile_mode : Z)
    (ubwc0 : bool) (image : tu_image) (k : nat) : Prop :=
  ∃ plane_layout raw,
    explicit_plane_layout pCreateInfo plane_layouts k = Ok plane_layout
    ∧ plane_layout_request pCreateInfo tile_mode ubwc0 plane_layout k
      = Some raw
    ∧ img_layout image !! k
      = Some (place_plane pCreateInfo plane_layouts k (planes_total image k)
                raw).

(** The layout routine accepts the request for plane [k]. *)
Definition plane_accepted (pCreateInfo : VkImageCreateInfo)
    (plane_layouts : option (list VkSubresourceLayout)) (tile_mode : Z)
    (ubwc0 : bool) (k : nat) : Prop :=
  ∃ plane_layout raw,
    explicit_plane_layout pCreateInfo plane_layouts k = Ok plane_layout
    ∧ plane_layout_request pCreateInfo tile_mode ubwc0 plane_layout k
      = Some raw.

(** The state of the loop over the planes before plane [i] is laid out, with
    or without explicit layouts. *)
Definition build_inv (pCreateInfo : VkImageCreateInfo)
    (plane_layouts : option (list VkSubresourceLayout)) (tile_mode : Z)
    (ubwc0 : bool) (i : nat) (st : tu_image * bool) : Prop :=
  plane_inv pCreateInfo ubwc0 i st
  ∧ image_header st.1 = image_header (tu_image_init pCreateInfo)
  ∧ img_total_size st.1 = planes_total st.1 i
  ∧ ∀ k, (k < i)%nat →
         plane_built pCreateInfo plane_layouts tile_mode ubwc0 st.1 k.

(** The accessor [fdl_ubwc_enabled] reports UBWC only for a layout that
    has it. *)
Definition fdl_ubwc_enabled_sound : Prop :=
  ∀ layout level, fdl_ubwc_enabled layout level = true →
                  lay_ubwc layout = true.

End FurtherStatements.

(** ** A reference instance of the collaborators

    A small format table, a linear layout routine and plain register packers,
    used to run the model on concrete inputs. *)

Module Sample.

Definition VK_FORMAT_R32G32B32A32_SFLOAT : VkFormat := 109.

#[export] Instance formats : FormatDb := {|
  vk_format_is_subsampled f :=
    (f =? VK_FORMAT_G8B8G8R8_422_UNORM) || (f =? VK_FORMAT_B8G8R8G8_422_UNORM);
  vk_format_is_depth_or_stencil f :=
    (VK_FORMAT_D16_UNORM <=? f) && (f <=? VK_FORMAT_D32_SFLOAT_S8_UINT);
  vk_format_is_compressed f :=
    (VK_FORMAT_BC1_RGB_UNORM_BLOCK <=? f) && (f <=? 184);
  vk_format_is_srgb f :=
    (f =? VK_FORMAT_R8G8B8A8_SRGB) || (f =? VK_FORMAT_BC1_RGB_SRGB_BLOCK);
  vk_format_is_int f := f =? VK_FORMAT_S8_UINT;
  vk_format_is_sint f := false;
  vk_format_is_uint f := f =? VK_FORMAT_S8_UINT;
  vk_format_to_pipe_format f := f;
  util_format_get_blocksize f :=
    if f =? VK_FORMAT_R32G32B32A32_SFLOAT then 16
    else if (f =? VK_FORMAT_R8_UNORM) || (f =? VK_FORMAT_S8_UINT) then 1
    else if f =? VK_FORMAT_R8G8_UNORM then 2
    else 4
|}.

(** The slices of a linear image of [levels] mip levels, the first one at
    [offset]. *)
Fixpoint linear_slices (cpp width height offset : Z) (levels : nat)
    : list fdl_slice * Z :=
  match levels with
  | O => ([], offset)
  | S n =>
      let size0 := cpp * width * height in
      let '(rest, total) :=
        linear_slices cpp (MAX2 1 (Z.shiftr width 1))
          (MAX2 1 (Z.shiftr height 1)) (offset + size0) n in
      ({| sl_offset := offset; sl_size0 := size0 |} :: rest, total)
  end.

(** A layout routine: rows are packed; with UBWC a 4096-byte metadata region
    comes first; an explicit pitch shorter than a row is refused. *)
Definition linear_layout (layout : fdl_layout) (format : pipe_format)
    (nr_samples width0 height0 depth0 mip_levels array_size : Z)
    (is_3d : bool) (explicit : option fdl_explicit_layout)
    : option fdl_layout :=
  let cpp := util_format_get_blocksize format in
  let meta := if lay_ubwc layout then 4096 else 0 in
  let base := from_option el_offset 0 explicit in
  if bool_decide (is_Some explicit)
     && (from_option el_pitch 0 explicit <? cpp * width0) then None
  else
    let '(slices, total) :=
      linear_slices cpp width0 height0 (base + meta) (Z.to_nat mip_levels) in
    Some
      {| lay_slices := slices;
         lay_ubwc_slices :=
           replicate (Z.to_nat mip_levels) {| sl_offset := base; sl_size0 := meta |};
         lay_pitch0 := cpp * width0; lay_ubwc_width0 := 0;
         lay_layer_size := total - base;
         lay_ubwc_layer_size := meta;
         lay_ubwc := lay_ubwc layout; lay_layer_first := true;
         lay_tile_mode := lay_tile_mode layout; lay_cpp := cpp;
         lay_width0 := width0; lay_height0 := height0; lay_depth0 := depth0;
         lay_nr_samples := nr_samples;
         lay_size := base + (total - base) * array_size;
         lay_base_align := 4096; lay_pitchalign := 6 |}.

#[export] Instance fdl : FdlLayout := {|
  fdl6_layout := linear_layout;
  fdl_surface_offset layout level layer :=
    u32 (sl_offset (lay_slices layout !!! Z.to_nat level)
         + lay_layer_size layout * layer);
  fdl_ubwc_offset layout level layer :=
    u32 (sl_offset (lay_ubwc_slices layout !!! Z.to_nat level)
         + lay_ubwc_layer_size layout * layer);
  fdl_pitch layout level := u_minify (lay_pitch0 layout) level;
  fdl_ubwc_pitch layout level := if lay_ubwc layout then 64 else 0;
  fdl_layer_stride layout level := lay_layer_size layout;
  fdl_tile_mode layout level := lay_tile_mode layout;
  fdl_ubwc_enabled layout level := lay_ubwc layout;
  fdl6_get_ubwc_blockwidth layout := (16, 4)
|}.

#[export] Instance driver : TuPrivate := {|
  TU_DEBUG_NOUBWC := 64;
  TU_MAX_QUEUE_FAMILIES := 1;
  FMT_COLOR := 4;
  FMT6_8_8_8_8_UINT := 50;
  FMT6_Z24_UNORM_S8_UINT := 145;
  FMT6_Z24_UINT_S8_UINT := 146;
  FMT6_Z24_UNORM_S8_UINT_AS_R8G8B8A8 := 160;
  tu6_format_texture f tile_mode :=
    {| nf_fmt := 48; nf_swap := 0; nf_tile_mode := tile_mode;
       nf_supported := 7 |};
  tu6_format_color f tile_mode :=
    {| nf_fmt := 48; nf_swap := 0; nf_tile_mode := tile_mode;
       nf_supported := 7 |};
  tu_get_layerCount image range :=
    if sr_layerCount range =? 2 ^ 32 - 1 then
      u32 (img_layer_count image - sr_baseArrayLayer range)
    else sr_layerCount range;
  tu_get_levelCount image range :=
    if sr_levelCount range =? 2 ^ 32 - 1 then
      u32 (img_level_count image - sr_baseMipLevel range)
    else sr_levelCount range;
  tu_minify n levels := if n =? 0 then 0 else MAX2 (Z.shiftr n levels) 1;
  tu_msaa_samples samples := Z.log2 samples;
  tu6_tex_type type storage :=
    match type with
    | VK_IMAGE_VIEW_TYPE_1D | VK_IMAGE_VIEW_TYPE_1D_ARRAY => 0
    | VK_IMAGE_VIEW_TYPE_3D => 3
    | VK_IMAGE_VIEW_TYPE_CUBE | VK_IMAGE_VIEW_TYPE_CUBE_ARRAY =>
        if storage then 1 else 2
    | _ => 1
    end
|}.

#[export] Instance regs : A6xxRegs := {|
  A6XX_SP_PS_2D_SRC_INFO color_format tile_mode color_swap flags srgb samples
      samples_average unk20 unk22 :=
    Z.lor (field 0 0xff color_format) (field 8 0x300 tile_mode);
  A6XX_SP_PS_2D_SRC_SIZE width height :=
    Z.lor (field 0 0x7fff width) (field 15 0x3fff8000 height);
  A6XX_RB_DEPTH_BUFFER_PITCH pitch := Z.shiftr pitch 6;
  A6XX_RB_DEPTH_FLAG_BUFFER_PITCH pitch array_pitch := Z.shiftr pitch 6;
  A6XX_RB_MRT_BUF_INFO color_tile_mode color_format color_swap :=
    Z.lor (field 0 0xff color_format) (field 8 0x300 color_tile_mode);
  A6XX_SP_FS_MRT_REG color_format color_sint color_uint :=
    field 0 0xff color_format;
  A6XX_RB_2D_DST_INFO color_format tile_mode color_swap flags srgb :=
    Z.lor (field 0 0xff color_format) (field 8 0x300 tile_mode);
  A6XX_RB_BLIT_DST_INFO tile_mode samples color_format color_swap flags :=
    Z.lor (field 0 0x3 tile_mode) (field 7 0x7f80 color_format);
  A6XX_RB_STENCIL_BUFFER_PITCH pitch := Z.shiftr pitch 6
|}.

#[export] Instance memory : TuDeviceMemory := {|
  tu_FreeMemory h mem :=
    {| heap_images := heap_images h;
       heap_image_views := heap_image_views h;
       heap_buffer_views := heap_buffer_views h;
       heap_memory := heap_memory h ∖ {[mem]} |}
|}.

(** A device without debug flags and without the D24S8 quirk. *)
Definition device : tu_device := {| debug_flags := 0; limited_z24s8 := false |}.

(** A 2D image of one mip level and one layer. *)
Definition image_info (format : VkFormat) (width height usage : Z)
    (tiling : VkImageTiling) : VkImageCreateInfo :=
  {| ci_sType := VK_STRUCTURE_TYPE_IMAGE_CREATE_INFO;
     ci_external_memory := false;
     ci_flags := 0;
     ci_imageType := VK_IMAGE_TYPE_2D;
     ci_format := format;
     ci_extent := {| ext_width := width; ext_height := height; ext_depth := 1 |};
     ci_mipLevels := 1;
     ci_arrayLayers := 1;
     ci_samples := 1;
     ci_tiling := tiling;
     ci_usage := usage;
     ci_sharingMode := VK_SHARING_MODE_EXCLUSIVE;
     ci_pQueueFamilyIndices := [] |}.

(** [vkBindImageMemory]: the image bound to a buffer object. *)
Definition bind_image (bo : tu_bo) (offset : Z) (image : tu_image) : tu_image :=
  {| img_type := img_type image; img_vk_format := img_vk_format image;
     img_tiling := img_tiling image; img_usage := img_usage image;
     img_flags := img_flags image; img_extent := img_extent image;
     img_level_count := img_level_count image;
     img_layer_count := img_layer_count image;
     img_samples := img_samples image; img_layout := img_layout image;
     img_total_size := img_total_size image;
     img_queue_family_mask := img_queue_family_mask image;
     img_exclusive := img_exclusive image;
     img_shareable := img_shareable image;
     img_owned_memory := img_owned_memory image;
     img_bo := Some bo; img_bo_offset := offset |}.

(** The image [tu_image_create] returns for a create info, without modifier
    and without explicit layouts. *)
Definition created (pCreateInfo : VkImageCreateInfo) : tu_image :=
  match tu_image_create device true pCreateInfo DRM_FORMAT_MOD_INVALID None with
  | Ok image => image
  | _ => tu_image_init pCreateInfo
  end.

(** A sampled storage image, 100 by 50 texels. *)
Definition storage_info : VkImageCreateInfo :=
  image_info VK_FORMAT_R8G8B8A8_UNORM 100 50
    (Z.lor VK_IMAGE_USAGE_SAMPLED_BIT VK_IMAGE_USAGE_STORAGE_BIT)
    VK_IMAGE_TILING_OPTIMAL.
Definition storage_image : tu_image := Eval vm_compute in created storage_info.

(** A sampled colour image with UBWC, 100 by 50 texels. *)
Definition color_info : VkImageCreateInfo :=
  image_info VK_FORMAT_R8G8B8A8_UNORM 100 50 VK_IMAGE_USAGE_SAMPLED_BIT
    VK_IMAGE_TILING_OPTIMAL.
Definition color_image : tu_image := Eval vm_compute in created color_info.

(** A three-plane YCbCr 4:2:0 image, 101 by 51 texels. *)
Definition ycbcr_info : VkImageCreateInfo :=
  image_info VK_FORMAT_G8_B8_R8_3PLANE_420_UNORM 101 51
    VK_IMAGE_USAGE_SAMPLED_BIT VK_IMAGE_TILING_OPTIMAL.
Definition ycbcr_image : tu_image := Eval vm_compute in created ycbcr_info.

(** A cube array of two cubes, 64 by 64 texels. *)
Definition cube_info : VkImageCreateInfo :=
  {| ci_sType := VK_STRUCTURE_TYPE_IMAGE_CREATE_INFO;
     ci_external_memory := false;
     ci_flags := 16;
     ci_imageType := VK_IMAGE_TYPE_2D;
     ci_format := VK_FORMAT_R8G8B8A8_UNORM;
     ci_extent := {| ext_width := 64; ext_height := 64; ext_depth := 1 |};
     ci_mipLevels := 1;
     ci_arrayLayers := 12;
     ci_samples := 1;
     ci_tiling := VK_IMAGE_TILING_OPTIMAL;
     ci_usage := VK_IMAGE_USAGE_SAMPLED_BIT;
     ci_sharingMode := VK_SHARING_MODE_EXCLUSIVE;
     ci_pQueueFamilyIndices := [] |}.
Definition cube_image : tu_image := Eval vm_compute in created cube_info.

(** A buffer object above 4 GiB. *)
Definition bo : tu_bo := {| iova := 0x500000000 |}.

(** A colour view of the first mip level, from layer 0 on. *)
Definition view_info (viewType : VkImageViewType) (format : VkFormat)
    (layerCount : Z) : VkImageViewCreateInfo :=
  {| vci_image := 11;
     vci_viewType := viewType;
     vci_format := format;
     vci_components := identity_mapping;
     vci_subresourceRange :=
       {| sr_aspectMask := VK_IMAGE_ASPECT_COLOR_BIT; sr_baseMipLevel := 0;
          sr_levelCount := 1; sr_baseArrayLayer := 0;
          sr_layerCount := layerCount |};
     vci_conversion := None |}.

(** A view object whose memory holds left-over values. *)
Definition iview_stale : tu_image_view :=
  {| iv_image := 1; iv_base_addr := 2; iv_ubwc_addr := 3; iv_layer_size := 4;
     iv_ubwc_layer_size := 5;
     iv_extent := {| ext2_width := 6; ext2_height := 7 |};
     iv_need_y2_align := true; iv_ubwc_enabled := true;
     iv_descriptor := [8]; iv_storage_descriptor := [9];
     iv_PITCH := 10; iv_FLAG_BUFFER_PITCH := 11; iv_RB_MRT_BUF_INFO := 12;
     iv_SP_FS_MRT_REG := 13; iv_SP_PS_2D_SRC_INFO := 14;
     iv_SP_PS_2D_SRC_SIZE := 15; iv_RB_2D_DST_INFO := 16;
     iv_RB_BLIT_DST_INFO := 17; iv_stencil_base_addr := 18;
     iv_stencil_layer_size := 19; iv_stencil_PITCH := 20 |}.

(** A sampled colour image with linear tiling, 100 by 50 texels. *)
Definition linear_info : VkImageCreateInfo :=
  image_info VK_FORMAT_R8G8B8A8_UNORM 100 50 VK_IMAGE_USAGE_SAMPLED_BIT
    VK_IMAGE_TILING_LINEAR.
Definition linear_image : tu_image := Eval vm_compute in created linear_info.

(** A depth image with a separate stencil plane, 64 by 64 texels. *)
Definition depth_stencil_info : VkImageCreateInfo :=
  image_info VK_FORMAT_D32_SFLOAT_S8_UINT 64 64 VK_IMAGE_USAGE_SAMPLED_BIT
    VK_IMAGE_TILING_OPTIMAL.
Definition depth_stencil_image : tu_image :=
  Eval vm_compute in created depth_stencil_info.

(** A colour image shared by queue family 0 and the external queues. *)
Definition shared_info : VkImageCreateInfo :=
  {| ci_sType := VK_STRUCTURE_TYPE_IMAGE_CREATE_INFO;
     ci_external_memory := true;
     ci_flags := 0;
     ci_imageType := VK_IMAGE_TYPE_2D;
     ci_format := VK_FORMAT_R8G8B8A8_UNORM;
     ci_extent := {| ext_width := 100; ext_height := 50; ext_depth := 1 |};
     ci_mipLevels := 1;
     ci_arrayLayers := 1;
     ci_samples := 1;
     ci_tiling := VK_IMAGE_TILING_OPTIMAL;
     ci_usage := VK_IMAGE_USAGE_SAMPLED_BIT;
     ci_sharingMode := VK_SHARING_MODE_CONCURRENT;
     ci_pQueueFamilyIndices := [0; VK_QUEUE_FAMILY_EXTERNAL] |}.
Definition shared_image : tu_image := Eval vm_compute in created shared_info.

(** A colour image whose tiling is given by a DRM format modifier. *)
Definition modifier_info : VkImageCreateInfo :=
  image_info VK_FORMAT_R8G8B8A8_UNORM 100 50 VK_IMAGE_USAGE_SAMPLED_BIT
    VK_IMAGE_TILING_DRM_FORMAT_MODIFIER_EXT.

(** A chain with a modifier list, and one with an explicit modifier and
    plane layouts. *)
Definition chain_list (modifiers : list Z) : tu_image_pNext :=
  {| pn_mod_info := Some modifiers; pn_drm_explicit_info := None;
     pn_wsi_info := None |}.

Definition chain_explicit (modifier : Z) (layouts : list VkSubresourceLayout)
    : tu_image_pNext :=
  {| pn_mod_info := None;
     pn_drm_explicit_info := Some (modifier, Some layouts);
     pn_wsi_info := None |}.

(** The image [tu_CreateImage] returns for [modifier_info] and a list that
    offers the linear and the invalid modifier. *)
Definition listed_image : tu_image :=
  Eval vm_compute in
    match tu_CreateImage device true modifier_info
            (chain_list [DRM_FORMAT_MOD_INVALID; DRM_FORMAT_MOD_LINEAR]) with
    | Ok image => image
    | _ => tu_image_init modifier_info
    end.

(** A plane layout whose row pitch is shorter than a row of 100 texels. *)
Definition short_pitch : VkSubresourceLayout :=
  {| srl_offset := 0; srl_size := 0; srl_rowPitch := 64; srl_arrayPitch := 0;
     srl_depthPitch := 0 |}.

(** A view of the first mip level and layer 0 under an aspect. *)
Definition aspect_view_info (format : VkFormat) (aspect : VkImageAspectFlags)
    : VkImageViewCreateInfo :=
  {| vci_image := 11;
     vci_viewType := VK_IMAGE_VIEW_TYPE_2D;
     vci_format := format;
     vci_components := identity_mapping;
     vci_subresourceRange :=
       {| sr_aspectMask := aspect; sr_baseMipLevel := 0;
          sr_levelCount := 1; sr_baseArrayLayer := 0; sr_layerCount := 1 |};
     vci_conversion := None |}.

(** Format tables in which no format supports colour rendering. *)
Definition driver_no_color : TuPrivate :=
  {| TU_DEBUG_NOUBWC := 64;
     TU_MAX_QUEUE_FAMILIES := 1;
     FMT_COLOR := 4;
     FMT6_8_8_8_8_UINT := 50;
     FMT6_Z24_UNORM_S8_UINT := 145;
     FMT6_Z24_UINT_S8_UINT := 146;
     FMT6_Z24_UNORM_S8_UINT_AS_R8G8B8A8 := 160;
     tu6_format_texture f tile_mode :=
       {| nf_fmt := 48; nf_swap := 0; nf_tile_mode := tile_mode;
          nf_supported := 3 |};
     tu6_format_color f tile_mode :=
       {| nf_fmt := 48; nf_swap := 0; nf_tile_mode := tile_mode;
          nf_supported := 3 |};
     tu_get_layerCount := @tu_get_layerCount driver;
     tu_get_levelCount := @tu_get_levelCount driver;
     tu_minify := @tu_minify driver;
     tu_msaa_samples := @tu_msaa_samples driver;
     tu6_tex_type := @tu6_tex_type driver |}.

(** A store that holds the sample colour image, bound to memory, under
    handle 11. *)
Definition heap_color : tu_heap :=
  {| heap_images := {[ 11 := bind_image bo 4096 color_image ]};
     heap_image_views := ∅;
     heap_buffer_views := ∅;
     heap_memory := ∅ |}.

(** A buffer of 2 MiB and a view of 1 MiB of it. *)
Definition buffer : tu_buffer :=
  {| buf_size := 2 ^ 21; buf_bo := bo; buf_bo_offset := 0 |}.

Definition buffer_view_info : VkBufferViewCreateInfo :=
  {| bvci_buffer := 7; bvci_format := VK_FORMAT_R8G8B8A8_UNORM;
     bvci_offset := 4096; bvci_range := 2 ^ 20 |}.

Definition buffer_view_stale : tu_buffer_view :=
  {| bv_descriptor := [1; 2]; bv_buffer := 3 |}.

(** A conversion whose chroma samples sit at the midpoint horizontally, and
    a view of a three-plane image under it. *)
Definition midpoint_conversion : tu_sampler_ycbcr_conversion :=
  {| conv_components := identity_mapping;
     conv_chroma_offsets :=
       [VK_CHROMA_LOCATION_MIDPOINT; VK_CHROMA_LOCATION_COSITED_EVEN] |}.

Definition ycbcr_view_info : VkImageViewCreateInfo :=
  {| vci_image := 11;
     vci_viewType := VK_IMAGE_VIEW_TYPE_2D;
     vci_format := VK_FORMAT_G8_B8_R8_3PLANE_420_UNORM;
     vci_components := identity_mapping;
     vci_subresourceRange :=
       {| sr_aspectMask := VK_IMAGE_ASPECT_COLOR_BIT; sr_baseMipLevel := 0;
          sr_levelCount := 1; sr_baseArrayLayer := 0; sr_layerCount := 1 |};
     vci_conversion := Some midpoint_conversion |}.

End Sample.

(** * Properties *)

(** ** Plane decomposition *)

Lemma tu6_plane_index_depth (format : VkFormat) :
  tu6_plane_index format VK_IMAGE_ASPECT_DEPTH_BIT = 0.
Proof. reflexivity. Qed.

Lemma tu6_plane_index_stencil (format : VkFormat) :
  tu6_plane_index format VK_IMAGE_ASPECT_STENCIL_BIT =
  if format =? VK_FORMAT_D32_SFLOAT_S8_UINT then 1 else 0.
Proof. reflexivity. Qed.

(** ** Swizzle composition *)

(** An iteration under [VK_COMPONENT_SWIZZLE_IDENTITY] stores the element it
    read. *)
Lemma compose_swizzle_step_identity (src_swiz : list Z)
    (vk_swiz : list VkComponentSwizzle) (swiz : list Z) (i : nat) :
  vk_swiz !!! i = VK_COMPONENT_SWIZZLE_IDENTITY →
  src_swiz !!! i = swiz !!! i →
  compose_swizzle_step src_swiz vk_swiz swiz i = swiz.
Proof.
  intros Hvk Hsrc. unfold compose_swizzle_step. rewrite Hvk, Hsrc.
  destruct (swiz !! i) as [x |] eqn:Hi.
  - rewrite (list_lookup_total_correct _ _ _ Hi). by apply list_insert_id.
  - apply list_insert_ge. by apply lookup_ge_None.
Qed.

(** The same for a swizzle array of any length. *)
Lemma compose_swizzle_identity_any (swiz : list Z) :
  compose_swizzle swiz identity_mapping = swiz.
Proof.
  unfold compose_swizzle. cbn [seq fold_left].
  rewrite !compose_swizzle_step_identity; try reflexivity.
  all: destruct swiz as [| x [| y [| z [| w swiz]]]]; reflexivity.
Qed.

(** C8.  Composing any four-element base swizzle with the identity component
    mapping leaves the swizzle unchanged. *)
Theorem compose_swizzle_identity (x y z w : Z) :
  compose_swizzle [x; y; z; w] identity_mapping = [x; y; z; w].
Proof.
  unfold compose_swizzle. cbn [seq fold_left].
  rewrite !compose_swizzle_step_identity; reflexivity.
Qed.

(** C2, as stated, fails: [VK_FORMAT_D24_UNORM_S8_UINT] is a combined
    depth+stencil format, and its stencil aspect resolves to plane 0. *)
Lemma tu6_plane_index_combined_not_always_1 :
  ¬ (∀ format : VkFormat,
       is_combined_depth_stencil format = true →
       tu6_plane_index format VK_IMAGE_ASPECT_STENCIL_BIT = 1
       ∧ tu6_plane_index format VK_IMAGE_ASPECT_DEPTH_BIT = 0).
Proof.
  intros Hall.
  destruct (Hall VK_FORMAT_D24_UNORM_S8_UINT eq_refl) as [Hstencil _].
  discriminate Hstencil.
Qed.

(** C2, amended.  The stencil aspect resolves to plane 1 exactly for the
    two-plane format [VK_FORMAT_D32_SFLOAT_S8_UINT] and to plane 0 for every
    other format, the packed [VK_FORMAT_D24_UNORM_S8_UINT] included; the depth
    aspect resolves to plane 0 for every format. *)
Theorem tu6_plane_index_depth_stencil (format : VkFormat) :
  (tu6_plane_index format VK_IMAGE_ASPECT_STENCIL_BIT = 1
   ↔ format = VK_FORMAT_D32_SFLOAT_S8_UINT)
  ∧ (tu6_plane_index format VK_IMAGE_ASPECT_STENCIL_BIT = 0
     ↔ format ≠ VK_FORMAT_D32_SFLOAT_S8_UINT)
  ∧ tu6_plane_index format VK_IMAGE_ASPECT_DEPTH_BIT = 0.
Proof.
  rewrite tu6_plane_index_stencil, tu6_plane_index_depth.
  destruct (Z.eqb_spec format VK_FORMAT_D32_SFLOAT_S8_UINT) as [-> | Hne].
  - repeat split; intros; congruence.
  - repeat split; intros; congruence.
Qed.

(** ** Object lifetime *)

Section DestroyProperties.
Context `{TuDeviceMemory}.

(** C9.  Destroying an image, an image view or a buffer view through a null
    handle returns with the store of live objects, device memory included,
    exactly as it was. *)
Theorem destroy_null_handle (h : tu_heap) :
  tu_DestroyImage h VK_NULL_HANDLE = Ok h
  ∧ tu_DestroyImageView h VK_NULL_HANDLE = Ok h
  ∧ tu_DestroyBufferView h VK_NULL_HANDLE = Ok h.
Proof.
  unfold tu_DestroyImage, tu_DestroyImageView, tu_DestroyBufferView.
  rewrite Z.eqb_refl. repeat split.
Qed.

(** A live image is removed from the store, after its owned memory. *)
Lemma tu_DestroyImage_live (h : tu_heap) (_image : handle) (image : tu_image) :
  _image ≠ VK_NULL_HANDLE →
  heap_images h !! _image = Some image →
  ∃ h', tu_DestroyImage h _image = Ok h' ∧ heap_images h' !! _image = None.
Proof.
  intros Hnull Hlive. unfold tu_DestroyImage.
  destruct (Z.eqb_spec _image VK_NULL_HANDLE) as [? | _]; [done |].
  rewrite Hlive. eexists. split; [reflexivity |].
  cbn. apply lookup_delete_eq.
Qed.

Lemma tu_DestroyImageView_live (h : tu_heap) (_iview : handle)
    (iview : tu_image_view) :
  _iview ≠ VK_NULL_HANDLE →
  heap_image_views h !! _iview = Some iview →
  ∃ h', tu_DestroyImageView h _iview = Ok h'
        ∧ heap_image_views h' !! _iview = None
        ∧ heap_images h' = heap_images h.
Proof.
  intros Hnull Hlive. unfold tu_DestroyImageView.
  destruct (Z.eqb_spec _iview VK_NULL_HANDLE) as [? | _]; [done |].
  rewrite Hlive. eexists. split; [reflexivity |].
  cbn. split; [apply lookup_delete_eq | reflexivity].
Qed.

End DestroyProperties.

(** ** Bit fields *)

Lemma field_land_disjoint (shift mask val bits : Z) :
  Z.land mask bits = 0 → Z.land (field shift mask val) bits = 0.
Proof.
  intros Hdisjoint. unfold field.
  by rewrite <- Z.land_assoc, Hdisjoint, Z.land_0_r.
Qed.

Lemma lor_land_disjoint (a b bits : Z) :
  Z.land a bits = 0 → Z.land b bits = 0 → Z.land (Z.lor a b) bits = 0.
Proof. intros Ha Hb. by rewrite Z.land_lor_distr_l, Ha, Hb. Qed.

(** The swizzle fields lie in bits 4 to 15. *)
Lemma tu6_texswiz_land comps conversion format aspect_mask limited (bits : Z) :
  Z.land 0xfff0 bits = 0 →
  Z.land (tu6_texswiz comps conversion format aspect_mask limited) bits = 0.
Proof.
  intros Hbits. unfold tu6_texswiz.
  assert (Hsub : ∀ mask, Z.land mask 0xfff0 = mask → Z.land mask bits = 0).
  { intros mask Hmask. by rewrite <- Hmask, <- Z.land_assoc, Hbits, Z.land_0_r. }
  cbv zeta. repeat apply lor_land_disjoint;
    apply field_land_disjoint, Hsub; reflexivity.
Qed.

(** ** Buffer views *)

Section BufferViewProperties.
Context `{FormatDb, TuPrivate}.

(** C1.  The code does not meet the claim: whatever the format of the buffer
    view, sRGB or not, the [SRGB] bit of descriptor word 0 is clear. *)
Theorem tu_buffer_view_init_srgb_clear (buffer : tu_buffer)
    (view : tu_buffer_view) (pCreateInfo : VkBufferViewCreateInfo) :
  Z.land (bv_descriptor (tu_buffer_view_init buffer view pCreateInfo) !!! 0%nat)
         A6XX_TEX_CONST_0_SRGB = 0.
Proof.
  unfold tu_buffer_view_init. cbn.
  repeat apply lor_land_disjoint;
    first [ apply field_land_disjoint; reflexivity
          | apply tu6_texswiz_land; reflexivity
          | reflexivity ].
Qed.

End BufferViewProperties.

(** ** Loops *)

Section Loops.
Context {S : Type} (body : nat → S → result S).

Lemma for_each_seq_S (start len : nat) (s : S) :
  for_each body (seq start (Datatypes.S len)) s
  = s' ← body start s; for_each body (seq (Datatypes.S start) len) s'.
Proof. reflexivity. Qed.

(** An invariant indexed by the loop counter holds when the loop returns. *)
Lemma for_each_seq_invariant (Inv : nat → S → Prop) (len : nat) :
  ∀ (start : nat) (s s' : S),
    (∀ i s1 s2, (start ≤ i < start + len)%nat →
       Inv i s1 → body i s1 = Ok s2 → Inv (Datatypes.S i) s2) →
    Inv start s →
    for_each body (seq start len) s = Ok s' →
    Inv (start + len)%nat s'.
Proof.
  induction len as [| len IH]; intros start s s' Hstep Hinv Hrun.
  - cbn in Hrun. injection Hrun as <-. by rewrite Nat.add_0_r.
  - rewrite for_each_seq_S in Hrun.
    destruct (body start s) as [s1 | e |] eqn:Hbody; try discriminate.
    cbn in Hrun.
    replace (start + Datatypes.S len)%nat with (Datatypes.S start + len)%nat
      by lia.
    apply (IH (Datatypes.S start) s1 s').
    + intros i s2 s3 Hi. apply Hstep. lia.
    + apply (Hstep start s s1); [lia | done | done].
    + done.
Qed.

(** A loop that returns an error had an iteration that returned it. *)
Lemma for_each_seq_error (Inv : nat → S → Prop) (len : nat) :
  ∀ (start : nat) (s : S) (e : VkResult),
    (∀ i s1 s2, (start ≤ i < start + len)%nat →
       Inv i s1 → body i s1 = Ok s2 → Inv (Datatypes.S i) s2) →
    Inv start s →
    for_each body (seq start len) s = Error e →
    ∃ i s1, (start ≤ i < start + len)%nat ∧ Inv i s1 ∧ body i s1 = Error e.
Proof.
  induction len as [| len IH]; intros start s e Hstep Hinv Hrun.
  - discriminate Hrun.
  - rewrite for_each_seq_S in Hrun.
    destruct (body start s) as [s1 | e' |] eqn:Hbody; try discriminate.
    + cbn in Hrun.
      destruct (IH (Datatypes.S start) s1 e) as (i & s2 & Hi & Hinv2 & Hi2).
      * intros i s2 s3 Hi. apply Hstep. lia.
      * apply (Hstep start s s1); [lia | done | done].
      * done.
      * exists i, s2. split; [lia | done].
    + cbn in Hrun. injection Hrun as ->.
      exists start, s. split; [lia | done].
Qed.

(** A loop one of whose iterations is bound to return [e], and none of whose
    earlier iterations aborts or returns another error, returns [e]. *)
Lemma for_each_seq_fails (Inv : nat → S → Prop) (e : VkResult) (k : nat)
    (len : nat) :
  ∀ (start : nat) (s : S),
    (start ≤ k < start + len)%nat →
    (∀ i s1 s2, (start ≤ i < k)%nat →
       Inv i s1 → body i s1 = Ok s2 → Inv (Datatypes.S i) s2) →
    (∀ i s1, (start ≤ i < k)%nat → Inv i s1 →
       body i s1 ≠ Abort ∧ ∀ e', body i s1 = Error e' → e' = e) →
    (∀ s1, Inv k s1 → body k s1 = Error e) →
    Inv start s →
    for_each body (seq start len) s = Error e.
Proof.
  induction len as [| len IH]; intros start s Hk Hstep Hsafe Hfail Hinv.
  - lia.
  - rewrite for_each_seq_S.
    destruct (decide (k = start)) as [-> | Hne].
    { by rewrite (Hfail s Hinv). }
    destruct (body start s) as [s1 | e' |] eqn:Hbody; cbn.
    + apply IH.
      * lia.
      * intros i s2 s3 Hi. apply Hstep. lia.
      * intros i s2 Hi. apply Hsafe. lia.
      * done.
      * apply (Hstep start s s1); [lia | done | done].
    + f_equal. apply (Hsafe start s); [lia | done | done].
    + destruct (Hsafe start s) as [Hna _]; [lia | done | done].
Qed.

End Loops.

(** ** Image creation *)

Section ImageCreateProperties.
Context `{FormatDb, FdlLayout, TuPrivate}.

(** *** Moving a plane *)

Lemma shift_levels_slices (offset : Z) (n : nat) :
  ∀ (layout : fdl_layout) (j : nat),
    lay_slices (fold_left (shift_level offset) (seq 0 n) layout) !! j
    = if decide (j < n)%nat then add_offset offset <$> lay_slices layout !! j
      else lay_slices layout !! j.
Proof.
  induction n as [| n IH]; intros layout j.
  - reflexivity.
  - rewrite seq_S, fold_left_app. cbn [fold_left Nat.add].
    unfold shift_level at 1.
    cbn [lay_slices set_lay_ubwc_slices set_lay_slices].
    destruct (decide (j = n)) as [-> | Hne].
    + rewrite list_lookup_alter_eq, IH.
      rewrite decide_False by lia. by rewrite decide_True by lia.
    + rewrite list_lookup_alter_ne by done. rewrite IH.
      repeat case_decide; try lia; reflexivity.
Qed.

Lemma shift_levels_ubwc_slices (offset : Z) (n : nat) :
  ∀ (layout : fdl_layout) (j : nat),
    lay_ubwc_slices (fold_left (shift_level offset) (seq 0 n) layout) !! j
    = if decide (j < n)%nat
      then add_offset offset <$> lay_ubwc_slices layout !! j
      else lay_ubwc_slices layout !! j.
Proof.
  induction n as [| n IH]; intros layout j.
  - reflexivity.
  - rewrite seq_S, fold_left_app. cbn [fold_left Nat.add].
    unfold shift_level at 1.
    cbn [lay_ubwc_slices set_lay_ubwc_slices set_lay_slices].
    destruct (decide (j = n)) as [-> | Hne].
    + rewrite list_lookup_alter_eq, IH.
      rewrite decide_False by lia. by rewrite decide_True by lia.
    + rewrite list_lookup_alter_ne by done. rewrite IH.
      repeat case_decide; try lia; reflexivity.
Qed.

(** The inner loop writes the slice tables only. *)
Lemma shift_levels_frame (offset : Z) (levels : list nat) :
  ∀ layout : fdl_layout,
    let layout' := fold_left (shift_level offset) levels layout in
    lay_ubwc layout' = lay_ubwc layout
    ∧ lay_tile_mode layout' = lay_tile_mode layout
    ∧ lay_ubwc_layer_size layout' = lay_ubwc_layer_size layout
    ∧ lay_size layout' = lay_size layout.
Proof.
  induction levels as [| i levels IH]; intros layout; [done |].
  cbn [fold_left]. destruct (IH (shift_level offset layout i)) as (-> & -> & -> & ->).
  done.
Qed.

Lemma shift_plane_frame (offset mipLevels : Z) (layout : fdl_layout) :
  lay_ubwc (shift_plane offset mipLevels layout) = lay_ubwc layout
  ∧ lay_tile_mode (shift_plane offset mipLevels layout) = lay_tile_mode layout
  ∧ lay_ubwc_layer_size (shift_plane offset mipLevels layout)
    = lay_ubwc_layer_size layout.
Proof.
  unfold shift_plane.
  destruct (shift_levels_frame offset (seq 0 (Z.to_nat mipLevels)) layout)
    as (Hu & Ht & Hs & _).
  cbn. by rewrite Hu, Ht, Hs.
Qed.

Lemma shift_plane_size (offset mipLevels : Z) (layout : fdl_layout) :
  lay_size (shift_plane offset mipLevels layout)
  = u32 (lay_size layout + offset).
Proof.
  unfold shift_plane.
  destruct (shift_levels_frame offset (seq 0 (Z.to_nat mipLevels)) layout)
    as (_ & _ & _ & Hsize).
  cbn. by rewrite Hsize.
Qed.

Lemma shift_plane_slices (offset mipLevels : Z) (layout : fdl_layout)
    (l : nat) (s : fdl_slice) :
  (Z.of_nat l < mipLevels) →
  lay_slices layout !! l = Some s →
  lay_slices (shift_plane offset mipLevels layout) !! l
  = Some (add_offset offset s).
Proof.
  intros Hl Hs. unfold shift_plane. cbn [lay_slices set_lay_size].
  rewrite shift_levels_slices, decide_True by lia. by rewrite Hs.
Qed.

Lemma shift_plane_ubwc_slices (offset mipLevels : Z) (layout : fdl_layout)
    (l : nat) (s : fdl_slice) :
  (Z.of_nat l < mipLevels) →
  lay_ubwc_slices layout !! l = Some s →
  lay_ubwc_slices (shift_plane offset mipLevels layout) !! l
  = Some (add_offset offset s).
Proof.
  intros Hl Hs. unfold shift_plane. cbn [lay_ubwc_slices set_lay_size].
  rewrite shift_levels_ubwc_slices, decide_True by lia. by rewrite Hs.
Qed.

Lemma place_plane_frame pCreateInfo plane_layouts i total (layout : fdl_layout) :
  let layout' := place_plane pCreateInfo plane_layouts i total layout in
  lay_ubwc layout' = lay_ubwc layout
  ∧ lay_tile_mode layout' = lay_tile_mode layout
  ∧ lay_ubwc_layer_size layout' = lay_ubwc_layer_size layout.
Proof.
  unfold place_plane.
  destruct (bool_decide (plane_layouts = None) && (0 <? i)%nat);
    [apply shift_plane_frame | done].
Qed.

(** *** The policy *)

(** The policy never pairs the linear tile mode with UBWC. *)
Lemma tu_image_tiling_policy_linear device pCreateInfo modifier :
  (tu_image_tiling_policy device pCreateInfo modifier).1 = TILE6_LINEAR →
  (tu_image_tiling_policy device pCreateInfo modifier).2 = false.
Proof.
  unfold tu_image_tiling_policy.
  repeat match goal with
         | |- context [if ?c then _ else _] => destruct c
         end; cbn; unfold TILE6_3, TILE6_LINEAR; intros; congruence.
Qed.

(** It disables UBWC for storage images. *)
Lemma tu_image_tiling_policy_storage device pCreateInfo modifier :
  has_bits (ci_usage pCreateInfo) VK_IMAGE_USAGE_STORAGE_BIT = true →
  (tu_image_tiling_policy device pCreateInfo modifier).2 = false.
Proof.
  intros Hstorage. unfold tu_image_tiling_policy. rewrite Hstorage.
  repeat match goal with
         | |- context [if ?c then _ else _] => destruct c
         end; reflexivity.
Qed.

Lemma plane_adjust_ubwc vk_format i width0 height0 ubwc_enabled :
  (plane_adjust vk_format i width0 height0 ubwc_enabled).2 = true →
  ubwc_enabled = true.
Proof.
  unfold plane_adjust.
  repeat match goal with
         | |- context [if ?c then _ else _] => destruct c
         end; cbn; congruence.
Qed.

Lemma plane_adjust_twice vk_format i j width0 height0 ubwc_enabled :
  (0 < j)%nat →
  plane_adjust vk_format j width0 height0
    (plane_adjust vk_format i width0 height0 ubwc_enabled).2
  = plane_adjust vk_format j width0 height0 ubwc_enabled.
Proof.
  intros Hj. unfold plane_adjust.
  replace (0 <? j)%nat with true by (symmetry; by apply Nat.ltb_lt).
  repeat match goal with
         | |- context [if ?c then _ else _] => destruct c
         end; reflexivity.
Qed.

(** *** The loop body *)

Lemma tu_image_create_plane_unfold pCreateInfo plane_layouts tile_mode i
    image ubwc_enabled :
  tu_image_create_plane pCreateInfo plane_layouts tile_mode i
    (image, ubwc_enabled)
  = let adj :=
      plane_adjust (img_vk_format image) i (ext_width (ci_extent pCreateInfo))
        (ext_height (ci_extent pCreateInfo)) ubwc_enabled in
    plane_layout ← explicit_plane_layout pCreateInfo plane_layouts i;
    match plane_fdl6_layout pCreateInfo (img_layout image !!! i) tile_mode
            adj.2 (tu6_plane_format (img_vk_format image) (Z.of_nat i))
            adj.1.1 adj.1.2 plane_layout with
    | None =>
        if bool_decide (is_Some plane_layouts) then
          Error VK_ERROR_INVALID_DRM_FORMAT_MODIFIER_PLANE_LAYOUT_EXT
        else Abort
    | Some raw =>
        let layout :=
          place_plane pCreateInfo plane_layouts i (img_total_size image) raw in
        Ok (set_img_plane i layout
              (MAX2 (img_total_size image) (lay_size layout)) image, adj.2)
    end.
Proof.
  unfold tu_image_create_plane.
  destruct (plane_adjust _ _ _ _ _) as [[width0 height0] ubwc']. cbn.
  destruct (explicit_plane_layout _ _ _) as [plane_layout | e |]; cbn; try done.
  destruct (plane_fdl6_layout _ _ _ _ _ _ _ _); [done |].
  by destruct (bool_decide _).
Qed.

(** Under the loop invariant the body calls the layout routine as
    [plane_layout_request] says. *)
Lemma tu_image_create_plane_inv pCreateInfo plane_layouts tile_mode ubwc0 i
    image ubwc_enabled :
  plane_inv pCreateInfo ubwc0 i (image, ubwc_enabled) →
  tu_image_create_plane pCreateInfo plane_layouts tile_mode i
    (image, ubwc_enabled)
  = plane_layout ← explicit_plane_layout pCreateInfo plane_layouts i;
    match plane_layout_request pCreateInfo tile_mode ubwc0 plane_layout i with
    | None =>
        if bool_decide (is_Some plane_layouts) then
          Error VK_ERROR_INVALID_DRM_FORMAT_MODIFIER_PLANE_LAYOUT_EXT
        else Abort
    | Some raw =>
        let layout :=
          place_plane pCreateInfo plane_layouts i (img_total_size image) raw in
        Ok (set_img_plane i layout
              (MAX2 (img_total_size image) (lay_size layout)) image,
            (plane_adjust (ci_format pCreateInfo) i
               (ext_width (ci_extent pCreateInfo))
               (ext_height (ci_extent pCreateInfo)) ubwc0).2)
    end.
Proof.
  intros (Hfmt & _ & Hzero & Hadj). cbn [fst snd] in *.
  rewrite tu_image_create_plane_unfold. cbv zeta.
  rewrite Hfmt, (Hzero i), (Hadj i) by lia.
  unfold plane_layout_request.
  by destruct (plane_adjust _ _ _ _ _) as [[width0 height0] ubwc'].
Qed.

Lemma plane_inv_init pCreateInfo ubwc0 :
  plane_inv pCreateInfo ubwc0 0 (tu_image_init pCreateInfo, ubwc0).
Proof.
  repeat split.
  intros j _. cbn.
  destruct j as [| [| [| j]]]; reflexivity.
Qed.

Lemma plane_inv_step pCreateInfo plane_layouts tile_mode ubwc0 i st st' :
  plane_inv pCreateInfo ubwc0 i st →
  tu_image_create_plane pCreateInfo plane_layouts tile_mode i st = Ok st' →
  plane_inv pCreateInfo ubwc0 (Datatypes.S i) st'.
Proof.
  destruct st as [image ubwc_enabled]. intros Hinv Hbody.
  rewrite (tu_image_create_plane_inv _ _ _ ubwc0) in Hbody by done.
  destruct Hinv as (Hfmt & Hlen & Hzero & Hadj). cbn [fst snd] in *.
  destruct (explicit_plane_layout _ _ _) as [plane_layout | |];
    cbn in Hbody; try discriminate.
  destruct (plane_layout_request _ _ _ _ _) as [raw |];
    [| destruct (bool_decide _); discriminate].
  injection Hbody as <-. unfold plane_inv.
  cbn [fst snd set_img_plane img_layout img_vk_format]. repeat split.
  - done.
  - by rewrite length_insert.
  - intros j Hj. rewrite list_lookup_total_insert_ne by lia. apply Hzero. lia.
  - intros j Hj. apply plane_adjust_twice. lia.
Qed.

(** *** The function *)

Lemma tu_image_create_unfold device alloc_ok pCreateInfo modifier plane_layouts :
  tu_image_create device alloc_ok pCreateInfo modifier plane_layouts
  = if create_info_asserts pCreateInfo then
      if alloc_ok then
        let policy := tu_image_tiling_policy device pCreateInfo modifier in
        if negb (modifier =? DRM_FORMAT_MOD_QCOM_COMPRESSED) || policy.2 then
          st ← for_each
                 (tu_image_create_plane pCreateInfo plane_layouts policy.1)
                 (seq 0 (Z.to_nat (tu6_plane_count (ci_format pCreateInfo))))
                 (tu_image_init pCreateInfo, policy.2);
          Ok st.1
        else Abort
      else Error VK_ERROR_OUT_OF_HOST_MEMORY
    else Abort.
Proof.
  unfold tu_image_create.
  destruct (create_info_asserts pCreateInfo); [| done].
  destruct alloc_ok; [| done]. cbn.
  destruct (tu_image_tiling_policy _ _ _) as [tile_mode ubwc0]. cbn.
  destruct (negb _ || ubwc0); [| done]. cbn.
  destruct (for_each _ _ _) as [[image ubwc'] | |]; done.
Qed.

Lemma tu6_plane_count_range (format : VkFormat) :
  (1 ≤ Z.to_nat (tu6_plane_count format) ≤ 3)%nat.
Proof.
  unfold tu6_plane_count.
  repeat match goal with
         | |- context [if ?c then _ else _] => destruct c
         end; cbn; lia.
Qed.

Lemma tu_image_create_Ok device alloc_ok pCreateInfo modifier plane_layouts
    image :
  tu_image_create device alloc_ok pCreateInfo modifier plane_layouts
  = Ok image →
  let policy := tu_image_tiling_policy device pCreateInfo modifier in
  create_asserts device pCreateInfo modifier = true
  ∧ alloc_ok = true
  ∧ ∃ ubwc',
      for_each (tu_image_create_plane pCreateInfo plane_layouts policy.1)
        (seq 0 (Z.to_nat (tu6_plane_count (ci_format pCreateInfo))))
        (tu_image_init pCreateInfo, policy.2)
      = Ok (image, ubwc').
Proof.
  rewrite tu_image_create_unfold. unfold create_asserts. cbv zeta.
  destruct (create_info_asserts pCreateInfo); [| done].
  destruct alloc_ok; [| done].
  destruct (negb _ || _); [| done].
  destruct (for_each _ _ _) as [[image' ubwc'] | |]; cbn; try done.
  intros [= ->]. eauto.
Qed.

Lemma tu_image_create_Error device alloc_ok pCreateInfo modifier plane_layouts :
  tu_image_create device alloc_ok pCreateInfo modifier plane_layouts
  = Error VK_ERROR_INVALID_DRM_FORMAT_MODIFIER_PLANE_LAYOUT_EXT
  ↔ alloc_ok = true
    ∧ create_asserts device pCreateInfo modifier = true
    ∧ let policy := tu_image_tiling_policy device pCreateInfo modifier in
      for_each (tu_image_create_plane pCreateInfo plane_layouts policy.1)
        (seq 0 (Z.to_nat (tu6_plane_count (ci_format pCreateInfo))))
        (tu_image_init pCreateInfo, policy.2)
      = Error VK_ERROR_INVALID_DRM_FORMAT_MODIFIER_PLANE_LAYOUT_EXT.
Proof.
  rewrite tu_image_create_unfold. unfold create_asserts. cbv zeta.
  destruct (create_info_asserts pCreateInfo);
    [| split; [| intros (_ & ? & _)]; discriminate].
  destruct alloc_ok; [| split; [| intros (? & _)]; discriminate].
  destruct (negb _ || _); [| split; [| intros (_ & ? & _)]; discriminate].
  destruct (for_each _ _ _) as [[image' ubwc'] | e |]; cbn.
  - split; [| intros (_ & _ & ?)]; discriminate.
  - split; [intros [= ->]; done | intros (_ & _ & [= ->]); done].
  - split; [| intros (_ & _ & ?)]; discriminate.
Qed.

(** *** Storage images *)

(** C4.  An image created with the STORAGE usage bit has UBWC off in every
    plane layout, given a layout routine that does not switch UBWC on by
    itself. *)
Theorem tu_image_create_storage_no_ubwc device alloc_ok pCreateInfo modifier
    plane_layouts image :
  fdl6_ubwc_only_if_asked →
  has_bits (ci_usage pCreateInfo) VK_IMAGE_USAGE_STORAGE_BIT = true →
  tu_image_create device alloc_ok pCreateInfo modifier plane_layouts
  = Ok image →
  Forall (λ layout, lay_ubwc layout = false) (img_layout image).
Proof.
  intros Hroutine Hstorage Hcreate.
  apply tu_image_create_Ok in Hcreate as (_ & _ & ubwc' & Hloop).
  rewrite (tu_image_tiling_policy_storage _ _ _ Hstorage) in Hloop.
  set (Inv := λ (_ : nat) (st : tu_image * bool),
         st.2 = false ∧ Forall (λ layout, lay_ubwc layout = false)
                          (img_layout st.1)).
  apply (for_each_seq_invariant _ Inv) in Hloop as [_ Hall]; [done | |].
  - intros i [image1 ubwc1] st2 _ [Hoff Hall]. cbn in Hoff, Hall. subst ubwc1.
    rewrite tu_image_create_plane_unfold. cbv zeta.
    destruct (explicit_plane_layout _ _ _) as [plane_layout | |];
      cbn; try discriminate.
    destruct (plane_fdl6_layout _ _ _ _ _ _ _ _) as [raw |] eqn:Hraw;
      [| destruct (bool_decide _); discriminate].
    intros [= <-].
    assert (Hadj : ∀ vk_format width0 height0,
              (plane_adjust vk_format i width0 height0 false).2 = false).
    { intros. apply not_true_is_false. intros Hon.
      by apply plane_adjust_ubwc in Hon. }
    split; [apply Hadj |]. cbn.
    apply Forall_insert; [done |].
    destruct (place_plane_frame pCreateInfo plane_layouts i
                (img_total_size image1) raw) as (-> & _).
    apply not_true_is_false. intros Hon.
    unfold plane_fdl6_layout in Hraw.
    pose proof (Hroutine _ _ _ _ _ _ _ _ _ _ _ Hraw Hon) as Hasked.
    cbn in Hasked. by rewrite Hadj in Hasked.
  - split; [done |]. cbn. by repeat constructor.
Qed.

(** *** The modifier query *)

Lemma tu_GetImageDrmFormatModifierPropertiesEXT_cases (image : tu_image) :
  let layout0 := img_layout image !!! 0%nat in
  tu_GetImageDrmFormatModifierPropertiesEXT image
    VK_STRUCTURE_TYPE_IMAGE_DRM_FORMAT_MODIFIER_PROPERTIES_EXT
  = Ok (VK_SUCCESS,
        if lay_tile_mode layout0 =? TILE6_LINEAR then DRM_FORMAT_MOD_LINEAR
        else if lay_ubwc_layer_size layout0 =? 0 then DRM_FORMAT_MOD_INVALID
        else DRM_FORMAT_MOD_QCOM_COMPRESSED).
Proof.
  intros layout0. unfold tu_GetImageDrmFormatModifierPropertiesEXT.
  fold layout0. rewrite Z.eqb_refl. unfold TILE6_LINEAR.
  by destruct (lay_tile_mode layout0 =? 0),
       (lay_ubwc_layer_size layout0 =? 0).
Qed.

(** A linear plane of a created image has no UBWC metadata region. *)
Lemma tu_image_create_linear_no_metadata device alloc_ok pCreateInfo modifier
    plane_layouts image :
  fdl6_keeps_tile_mode →
  fdl6_ubwc_only_if_asked →
  fdl6_metadata_only_with_ubwc →
  tu_image_create device alloc_ok pCreateInfo modifier plane_layouts
  = Ok image →
  Forall (λ layout, lay_tile_mode layout = TILE6_LINEAR →
                    lay_ubwc_layer_size layout = 0) (img_layout image).
Proof.
  intros Hkeeps Hasked Hmeta Hcreate.
  apply tu_image_create_Ok in Hcreate as (_ & _ & ubwc' & Hloop).
  pose proof (tu_image_tiling_policy_linear device pCreateInfo modifier)
    as Hpolicy.
  destruct (tu_image_tiling_policy _ _ _) as [tile_mode ubwc0].
  cbn [fst snd] in *.
  set (Inv := λ (_ : nat) (st : tu_image * bool),
         (tile_mode = TILE6_LINEAR → st.2 = false)
         ∧ Forall (λ layout, lay_tile_mode layout = TILE6_LINEAR →
                             lay_ubwc_layer_size layout = 0)
             (img_layout st.1)).
  apply (for_each_seq_invariant _ Inv) in Hloop as [_ Hall]; [done | |].
  - intros i [image1 ubwc1] st2 _ [Hoff Hall]. cbn [fst snd] in Hoff, Hall.
    rewrite tu_image_create_plane_unfold. cbv zeta.
    destruct (explicit_plane_layout _ _ _) as [plane_layout | |];
      cbn; try discriminate.
    destruct (plane_fdl6_layout _ _ _ _ _ _ _ _) as [raw |] eqn:Hraw;
      [| destruct (bool_decide _); discriminate].
    intros [= <-]. unfold plane_fdl6_layout in Hraw.
    assert (Hadj : tile_mode = TILE6_LINEAR →
              (plane_adjust (img_vk_format image1) i
                 (ext_width (ci_extent pCreateInfo))
                 (ext_height (ci_extent pCreateInfo)) ubwc1).2 = false).
    { intros Hlinear. apply not_true_is_false. intros Hon.
      apply plane_adjust_ubwc in Hon. rewrite (Hoff Hlinear) in Hon.
      discriminate. }
    split; [exact Hadj |]. cbn [fst set_img_plane img_layout].
    apply Forall_insert; [done |].
    destruct (place_plane_frame pCreateInfo plane_layouts i
                (img_total_size image1) raw) as (_ & -> & ->).
    intros Hlinear.
    pose proof (Hkeeps _ _ _ _ _ _ _ _ _ _ _ Hraw) as Htile.
    cbn in Htile. rewrite Htile in Hlinear.
    apply (Hmeta _ _ _ _ _ _ _ _ _ _ _ Hraw).
    apply not_true_is_false. intros Hon.
    pose proof (Hasked _ _ _ _ _ _ _ _ _ _ _ Hraw Hon) as Hreq.
    cbn in Hreq. rewrite (Hadj Hlinear) in Hreq. discriminate.
  - split; [exact Hpolicy |]. cbn. by repeat constructor.
Qed.

(** C6.  For an image [tu_image_create] produced, the modifier query returns
    COMPRESSED exactly when plane 0 has a non-zero UBWC metadata region,
    LINEAR exactly when the tile mode of plane 0 is linear, and INVALID in
    the remaining case, plane 0 tiled without UBWC; the layout routine is
    asked to keep the tile mode it is given and to lay out a metadata region
    only for UBWC it was asked for. *)
Theorem tu_GetImageDrmFormatModifierPropertiesEXT_created device alloc_ok
    pCreateInfo modifier plane_layouts image :
  fdl6_keeps_tile_mode →
  fdl6_ubwc_only_if_asked →
  fdl6_metadata_only_with_ubwc →
  tu_image_create device alloc_ok pCreateInfo modifier plane_layouts
  = Ok image →
  let layout0 := img_layout image !!! 0%nat in
  ∃ drmFormatModifier,
    tu_GetImageDrmFormatModifierPropertiesEXT image
      VK_STRUCTURE_TYPE_IMAGE_DRM_FORMAT_MODIFIER_PROPERTIES_EXT
    = Ok (VK_SUCCESS, drmFormatModifier)
    ∧ (drmFormatModifier = DRM_FORMAT_MOD_QCOM_COMPRESSED
       ↔ lay_ubwc_layer_size layout0 ≠ 0)
    ∧ (drmFormatModifier = DRM_FORMAT_MOD_LINEAR
       ↔ lay_tile_mode layout0 = TILE6_LINEAR)
    ∧ (drmFormatModifier = DRM_FORMAT_MOD_INVALID
       ↔ lay_tile_mode layout0 ≠ TILE6_LINEAR
         ∧ lay_ubwc_layer_size layout0 = 0).
Proof.
  intros Hkeeps Hasked Hmeta Hcreate layout0.
  pose proof (tu_image_create_linear_no_metadata _ _ _ _ _ _
                Hkeeps Hasked Hmeta Hcreate) as Hall.
  assert (Hlinear : lay_tile_mode layout0 = TILE6_LINEAR →
                    lay_ubwc_layer_size layout0 = 0).
  { subst layout0. destruct (img_layout image !! 0%nat) as [l |] eqn:Hl.
    - rewrite (list_lookup_total_correct _ _ _ Hl).
      by apply (Forall_lookup_1 _ _ _ _ Hall Hl).
    - rewrite list_lookup_total_alt, Hl. done. }
  eexists. split; [apply tu_GetImageDrmFormatModifierPropertiesEXT_cases |].
  fold layout0.
  destruct (Z.eqb_spec (lay_tile_mode layout0) TILE6_LINEAR) as [Ht | Ht].
  - specialize (Hlinear Ht).
    repeat split; try done; try (by intros [? ?]).
  - destruct (Z.eqb_spec (lay_ubwc_layer_size layout0) 0) as [Hs | Hs];
      repeat split; try done; try (by intros [? ?]).
Qed.

(** *** The invalid-layout error *)

(** Without explicit layouts the loop body never returns an error. *)
Lemma tu_image_create_plane_no_explicit pCreateInfo tile_mode i st e :
  tu_image_create_plane pCreateInfo None tile_mode i st ≠ Error e.
Proof.
  destruct st as [image ubwc_enabled].
  rewrite tu_image_create_plane_unfold. cbn.
  by destruct (plane_fdl6_layout _ _ _ _ _ _ _ _).
Qed.

Lemma tu_image_create_no_explicit device alloc_ok pCreateInfo modifier :
  tu_image_create device alloc_ok pCreateInfo modifier None
  ≠ Error VK_ERROR_INVALID_DRM_FORMAT_MODIFIER_PLANE_LAYOUT_EXT.
Proof.
  intros Herr. apply tu_image_create_Error in Herr as (_ & _ & Hloop).
  apply (for_each_seq_error _ (λ _ _, True)) in Hloop
    as (i & st & _ & _ & Hbody); [| done | done].
  by apply tu_image_create_plane_no_explicit in Hbody.
Qed.

(** C5.  [tu_image_create] returns the invalid-plane-layout error, and so no
    image, exactly when the object was allocated, the assertions hold,
    explicit plane layouts were supplied, and either the image is not
    single-mip, single-layer and of depth 1 or the layout routine refuses
    the explicit offset and pitch of one of the planes; without explicit
    layouts it never returns this error. *)
Theorem tu_image_create_invalid_layout device alloc_ok pCreateInfo modifier
    plane_layouts :
  let policy := tu_image_tiling_policy device pCreateInfo modifier in
  (tu_image_create device alloc_ok pCreateInfo modifier plane_layouts
   = Error VK_ERROR_INVALID_DRM_FORMAT_MODIFIER_PLANE_LAYOUT_EXT
   ↔ alloc_ok = true
     ∧ create_asserts device pCreateInfo modifier = true
     ∧ ∃ layouts,
         plane_layouts = Some layouts
         ∧ (simple_2d pCreateInfo = false
            ∨ ∃ i l,
                (i < Z.to_nat (tu6_plane_count (ci_format pCreateInfo)))%nat
                ∧ layouts !! i = Some l
                ∧ plane_layout_request pCreateInfo policy.1 policy.2
                    (Some (explicit_of l)) i = None))
  ∧ tu_image_create device alloc_ok pCreateInfo modifier None
    ≠ Error VK_ERROR_INVALID_DRM_FORMAT_MODIFIER_PLANE_LAYOUT_EXT.
Proof.
  intros policy. split; [| apply tu_image_create_no_explicit].
  rewrite tu_image_create_Error. fold policy. cbv zeta.
  set (count := Z.to_nat (tu6_plane_count (ci_format pCreateInfo))).
  set (body := tu_image_create_plane pCreateInfo plane_layouts policy.1).
  set (Inv := plane_inv pCreateInfo policy.2).
  assert (Hstep : ∀ i st st', Inv i st → body i st = Ok st' →
                              Inv (Datatypes.S i) st').
  { intros i st st'. apply plane_inv_step. }
  assert (Hbody : ∀ i st, Inv i st →
            body i st
            = plane_layout ← explicit_plane_layout pCreateInfo plane_layouts i;
              match plane_layout_request pCreateInfo policy.1 policy.2
                      plane_layout i with
              | None =>
                  if bool_decide (is_Some plane_layouts) then
                    Error VK_ERROR_INVALID_DRM_FORMAT_MODIFIER_PLANE_LAYOUT_EXT
                  else Abort
              | Some raw =>
                  let layout :=
                    place_plane pCreateInfo plane_layouts i
                      (img_total_size st.1) raw in
                  Ok (set_img_plane i layout
                        (MAX2 (img_total_size st.1) (lay_size layout)) st.1,
                      (plane_adjust (ci_format pCreateInfo) i
                         (ext_width (ci_extent pCreateInfo))
                         (ext_height (ci_extent pCreateInfo)) policy.2).2)
              end).
  { intros i [image ubwc_enabled] Hinv.
    by apply tu_image_create_plane_inv. }
  split.
  - intros (Halloc & Hasserts & Hloop). split; [done |]. split; [done |].
    apply (for_each_seq_error _ Inv) in Hloop
      as (i & st & Hi & Hinv & Herr);
      [| intros; by eapply Hstep | apply plane_inv_init].
    rewrite (Hbody i st Hinv) in Herr.
    unfold explicit_plane_layout in Herr.
    destruct plane_layouts as [layouts |].
    + exists layouts. split; [done |].
      destruct (simple_2d pCreateInfo); [| by left]. right.
      cbn [negb] in Herr.
      destruct (layouts !! i) as [l |] eqn:Hl; [| discriminate].
      exists i, l. split; [lia |]. split; [done |].
      cbn in Herr. fold (explicit_of l) in Herr.
      by destruct (plane_layout_request _ _ _ _ _).
    + cbn in Herr. by destruct (plane_layout_request _ _ _ _ _).
  - intros (Halloc & Hasserts & layouts & -> & Hwhy).
    split; [done |]. split; [done |].
    pose proof (tu6_plane_count_range (ci_format pCreateInfo)) as Hcount.
    fold count in Hcount.
    destruct Hwhy as [Hsimple | (k & l & Hk & Hl & Hrefused)].
    + apply (for_each_seq_fails _ Inv _ 0%nat);
        [lia | lia | lia | | apply plane_inv_init].
      intros st Hinv. rewrite (Hbody 0%nat st Hinv).
      unfold explicit_plane_layout. by rewrite Hsimple.
    + apply (for_each_seq_fails _ Inv _ k).
      * lia.
      * intros; by eapply Hstep.
      * intros i st Hi Hinv. rewrite (Hbody i st Hinv).
        unfold explicit_plane_layout.
        destruct (simple_2d pCreateInfo); cbn [negb]; [| split; [done |]].
        -- destruct (lookup_lt_is_Some_2 layouts i) as [l' ->].
           { apply lookup_lt_Some in Hl. lia. }
           cbn. destruct (plane_layout_request _ _ _ _ i); cbn;
             (split; [done |]); by intros e' [= <-].
        -- by intros e' [= <-].
      * intros st Hinv. rewrite (Hbody k st Hinv).
        unfold explicit_plane_layout.
        destruct (simple_2d pCreateInfo); cbn [negb]; [| done].
        rewrite Hl. cbn. fold (explicit_of l). by rewrite Hrefused.
      * apply plane_inv_init.
Qed.

(** *** Placement of the planes *)

Lemma planes_total_S (image : tu_image) (k : nat) (layout : fdl_layout) :
  img_layout image !! k = Some layout →
  planes_total image (Datatypes.S k)
  = MAX2 (planes_total image k) (lay_size layout).
Proof.
  intros Hk. unfold planes_total.
  by rewrite (take_S_r _ _ _ Hk), fmap_app, fold_left_app.
Qed.

Lemma planes_total_set_img_plane (image : tu_image) (i k : nat)
    (layout : fdl_layout) (total : Z) :
  (k ≤ i)%nat →
  planes_total (set_img_plane i layout total image) k = planes_total image k.
Proof.
  intros Hk. unfold planes_total. cbn [set_img_plane img_layout].
  by rewrite take_insert_ge.
Qed.

Lemma ALIGN_POT_u32 (x y : Z) : u32 (ALIGN_POT x y) = ALIGN_POT x y.
Proof. unfold ALIGN_POT, u32. apply Z.mod_mod. lia. Qed.

Lemma placement_inv_init pCreateInfo tile_mode ubwc0 :
  placement_inv pCreateInfo tile_mode ubwc0 0
    (tu_image_init pCreateInfo, ubwc0).
Proof.
  split; [apply plane_inv_init |]. split; [reflexivity |]. intros k Hk. lia.
Qed.

Lemma placement_inv_step pCreateInfo tile_mode ubwc0 i st st' :
  (i < 3)%nat →
  placement_inv pCreateInfo tile_mode ubwc0 i st →
  tu_image_create_plane pCreateInfo None tile_mode i st = Ok st' →
  placement_inv pCreateInfo tile_mode ubwc0 (Datatypes.S i) st'.
Proof.
  intros Hi (Hinv & Htotal & Hplaced) Hbody.
  split; [by eapply plane_inv_step |].
  destruct st as [image ubwc_enabled].
  rewrite (tu_image_create_plane_inv _ _ _ ubwc0) in Hbody by done.
  destruct Hinv as (_ & Hlen & _). cbn [fst snd] in *.
  cbn [explicit_plane_layout mbind result_bind] in Hbody.
  destruct (plane_layout_request _ _ _ _ _) as [raw |] eqn:Hraw;
    [| destruct (bool_decide _); discriminate].
  injection Hbody as <-. cbn [fst snd].
  set (layout := place_plane pCreateInfo None i (img_total_size image) raw).
  set (image' := set_img_plane i layout _ image).
  assert (Hi' : img_layout image' !! i = Some layout).
  { subst image'. cbn [set_img_plane img_layout].
    apply list_lookup_insert_eq. lia. }
  split.
  - rewrite (planes_total_S _ _ _ Hi').
    subst image'. rewrite planes_total_set_img_plane by lia.
    cbn [set_img_plane img_total_size]. by rewrite Htotal.
  - intros k Hk. destruct (decide (k = i)) as [-> | Hne].
    + exists raw. split; [done |]. rewrite Hi'. f_equal.
      subst image' layout. rewrite planes_total_set_img_plane by lia.
      by rewrite Htotal.
    + destruct (Hplaced k) as (raw_k & Hraw_k & Hlayout_k); [lia |].
      exists raw_k. split; [done |].
      subst image'. rewrite planes_total_set_img_plane by lia.
      cbn [set_img_plane img_layout].
      by rewrite list_lookup_insert_ne by lia.
Qed.

(** Every plane of an image created without explicit layouts is placed. *)
Lemma tu_image_create_placed device alloc_ok pCreateInfo modifier image :
  let policy := tu_image_tiling_policy device pCreateInfo modifier in
  tu_image_create device alloc_ok pCreateInfo modifier None = Ok image →
  ∀ k, (k < Z.to_nat (tu6_plane_count (ci_format pCreateInfo)))%nat →
       plane_placed pCreateInfo policy.1 policy.2 image k.
Proof.
  intros policy Hcreate.
  apply tu_image_create_Ok in Hcreate as (_ & _ & ubwc' & Hloop).
  fold policy in Hloop.
  pose proof (tu6_plane_count_range (ci_format pCreateInfo)) as Hcount.
  apply (for_each_seq_invariant _
           (placement_inv pCreateInfo policy.1 policy.2)) in Hloop.
  - by destruct Hloop as (_ & _ & Hplaced).
  - intros i st1 st2 Hi. apply placement_inv_step. lia.
  - apply placement_inv_init.
Qed.

(** C3, amended.  In an image created without explicit plane layouts, plane 0
    is stored as the layout routine computed it and is never moved, so its
    first slice is where the routine put it; every plane [k > 0] is moved
    behind the planes before it: every slice offset and every UBWC slice
    offset of its mip levels is shifted by [ALIGN_POT(total, 4096)], [total]
    being [image->total_size] when plane [k] is laid out, the running maximum
    of the sizes stored for the planes before [k]; the plane's size grows by
    the same amount, and a first slice the routine put at 0 ends up at that
    offset.  Offsets and sizes are [uint32_t]. *)
Theorem tu_image_create_plane_placement device alloc_ok pCreateInfo modifier
    image :
  let policy := tu_image_tiling_policy device pCreateInfo modifier in
  tu_image_create device alloc_ok pCreateInfo modifier None = Ok image →
  plane_layout_request pCreateInfo policy.1 policy.2 None 0
  = Some (img_layout image !!! 0%nat)
  ∧ ∀ k, (0 < k < Z.to_nat (tu6_plane_count (ci_format pCreateInfo)))%nat →
      ∃ raw,
        plane_layout_request pCreateInfo policy.1 policy.2 None k = Some raw
        ∧ let offset := ALIGN_POT (planes_total image k) 4096 in
          let layout := img_layout image !!! k in
          (∀ l s, Z.of_nat l < ci_mipLevels pCreateInfo →
                  lay_slices raw !! l = Some s →
                  lay_slices layout !! l = Some (add_offset offset s))
          ∧ (∀ l s, Z.of_nat l < ci_mipLevels pCreateInfo →
                    lay_ubwc_slices raw !! l = Some s →
                    lay_ubwc_slices layout !! l = Some (add_offset offset s))
          ∧ lay_size layout = u32 (lay_size raw + offset)
          ∧ (∀ s, lay_slices raw !! 0%nat = Some s → sl_offset s = 0 →
                  sl_offset (lay_slices layout !!! 0%nat) = offset).
Proof.
  intros policy Hcreate.
  pose proof (tu_image_create_placed _ _ _ _ _ Hcreate) as Hplaced.
  fold policy in Hplaced.
  pose proof (tu6_plane_count_range (ci_format pCreateInfo)) as Hcount.
  apply tu_image_create_Ok in Hcreate as (Hasserts & _).
  assert (Hlevels : 0 < ci_mipLevels pCreateInfo).
  { unfold create_asserts, create_info_asserts in Hasserts.
    repeat (apply andb_prop in Hasserts as [Hasserts ?]). lia. }
  split.
  - destruct (Hplaced 0%nat) as (raw0 & Hraw0 & Hlayout0); [lia |].
    rewrite (list_lookup_total_correct _ _ _ Hlayout0).
    unfold place_plane. by rewrite andb_false_r.
  - intros k Hk.
    destruct (Hplaced k) as (raw & Hraw & Hlayout); [lia |].
    exists raw. split; [done |]. cbv zeta.
    rewrite (list_lookup_total_correct _ _ _ Hlayout).
    unfold place_plane.
    replace (0 <? k)%nat with true by (symmetry; apply Nat.ltb_lt; lia).
    rewrite bool_decide_eq_true_2 by done. cbn [andb].
    split; [intros l s; apply shift_plane_slices |].
    split; [intros l s; apply shift_plane_ubwc_slices |].
    split; [apply shift_plane_size |].
    intros s Hs Hzero.
    erewrite list_lookup_total_correct;
      [| by apply shift_plane_slices; [lia | exact Hs]].
    cbn [add_offset sl_offset]. rewrite Hzero, Z.add_0_l.
    apply ALIGN_POT_u32.
Qed.

End ImageCreateProperties.

(** ** Image views *)

Lemma testbit_small (x n m : Z) :
  0 ≤ x < 2 ^ n → n ≤ m → Z.testbit x m = false.
Proof.
  intros Hx Hm. destruct (Z.eq_dec x 0) as [-> | Hne]; [apply Z.bits_0 |].
  apply Z.bits_above_log2; [lia |].
  assert (Z.log2 x < n); [| lia]. apply Z.log2_lt_pow2; lia.
Qed.

(** The mask of the depth field covers bits 17 to 29. *)
Lemma depth_mask_testbit (m : Z) :
  Z.testbit 0x3ffe0000 m = (17 <=? m) && (m <? 30).
Proof.
  change 0x3ffe0000 with (Z.shiftl (Z.ones 13) 17).
  destruct (Z.leb_spec 17 m) as [Hm | Hm]; cbn [andb].
  - rewrite Z.shiftl_spec by lia. rewrite Z.testbit_ones by lia.
    destruct (Z.leb_spec 0 (m - 17)), (Z.ltb_spec (m - 17) 13),
      (Z.ltb_spec m 30); cbn; lia.
  - destruct (Z.neg_nonneg_cases m) as [Hneg | Hpos].
    + by rewrite Z.testbit_neg_r.
    + by rewrite Z.shiftl_spec_low.
Qed.

(** Reading the depth field back from word 5, the high address bits being
    below it. *)
Lemma tex_const_5_depth_packed (hi extra depth : Z) :
  0 ≤ hi < 2 ^ 17 → 0 ≤ extra < 2 ^ 17 → 0 ≤ depth < 2 ^ 13 →
  tex_const_5_depth
    (Z.lor (u32 (Z.lor hi (A6XX_TEX_CONST_5_DEPTH depth))) extra)
  = depth.
Proof.
  intros Hhi Hextra Hdepth.
  unfold tex_const_5_depth, A6XX_TEX_CONST_5_DEPTH, field, u32.
  apply Z.bits_inj'. intros n Hn.
  rewrite Z.shiftr_spec, Z.land_spec, Z.lor_spec by lia.
  rewrite (testbit_small extra 17 (n + 17)) by lia. rewrite orb_false_r.
  rewrite depth_mask_testbit.
  destruct (Z.ltb_spec (n + 17) 30) as [Hlow | Hhigh].
  - rewrite Z.mod_pow2_bits_low by lia.
    rewrite Z.lor_spec, Z.land_spec, depth_mask_testbit.
    rewrite (testbit_small hi 17 (n + 17)) by lia.
    rewrite Z.shiftl_spec by lia.
    replace (n + 17 - 17) with n by lia.
    destruct (Z.leb_spec 17 (n + 17)), (Z.ltb_spec (n + 17) 30); try lia.
    cbn. by rewrite !andb_true_r.
  - rewrite andb_false_r, andb_false_r.
    symmetry. apply (testbit_small depth 13); lia.
Qed.

Lemma addr_high_half (addr : Z) :
  0 ≤ addr < 2 ^ 49 → 0 ≤ Z.shiftr addr 32 < 2 ^ 17.
Proof.
  intros Haddr. rewrite Z.shiftr_div_pow2 by lia.
  split; [apply Z.div_pos; lia |].
  apply Z.div_lt_upper_bound; lia.
Qed.

Lemma u32_small (x : Z) : 0 ≤ x < 2 ^ 32 → u32 x = x.
Proof. intros Hx. unfold u32. by apply Z.mod_small. Qed.

Lemma bind_Ok {A B} (m : result A) (k : A → result B) (b : B) :
  (x ← m; k x) = Ok b → ∃ a, m = Ok a ∧ k a = Ok b.
Proof. destruct m; cbn; [eauto | done | done]. Qed.

Lemma assert_Ok {B} (c : bool) (k : result B) (b : B) :
  (assert c;; k) = Ok b → c = true ∧ k = Ok b.
Proof. destruct c; cbn; [eauto | done]. Qed.

Section ImageViewProperties.
Context `{FormatDb, FdlLayout, TuPrivate, A6xxRegs}.

(** Evaluate the reads of a descriptor built by a fixed series of writes. *)
Ltac descriptor_words :=
  cbn [A6XX_TEX_CONST_DWORDS replicate insert list_insert alter list_alter
       lookup_total list_lookup_total or_word].

Lemma tex_const_ycbcr_word5 bo image pCreateInfo limited ubwc_enabled base_addr :
  tex_const_ycbcr bo image pCreateInfo ubwc_enabled
    (tex_const_head image pCreateInfo limited base_addr) !!! 5%nat
  = Z.lor
      (u32 (Z.lor (Z.shiftr base_addr 32)
                  (A6XX_TEX_CONST_5_DEPTH (view_depth image pCreateInfo))))
      (u32 (Z.shiftr
              (ycbcr_base_addr bo image (vci_subresourceRange pCreateInfo)
                 ubwc_enabled 0) 32)).
Proof.
  unfold tex_const_ycbcr, tex_const_head. cbv zeta.
  destruct (vci_conversion pCreateInfo) as [c |];
    [destruct (conv_chroma_offsets c !!! 0%nat),
       (conv_chroma_offsets c !!! 1%nat) |];
    destruct ubwc_enabled; descriptor_words; reflexivity.
Qed.

Lemma tex_const_single_word5 image pCreateInfo limited layout width height
    ubwc_addr ubwc_pitch ubwc_enabled viewType base_addr :
  tex_const_3d image layout viewType
    (tex_const_ubwc layout width height ubwc_addr ubwc_pitch ubwc_enabled
       (tex_const_head image pCreateInfo limited base_addr)) !!! 5%nat
  = u32 (Z.lor (Z.shiftr base_addr 32)
               (A6XX_TEX_CONST_5_DEPTH (view_depth image pCreateInfo))).
Proof.
  unfold tex_const_3d, tex_const_ubwc, tex_const_head. cbv zeta.
  destruct (fdl6_get_ubwc_blockwidth layout) as [block_width block_height].
  destruct ubwc_enabled, viewType; descriptor_words; reflexivity.
Qed.

(** Word 5 of the texture descriptor of an initialised view. *)
Lemma tu_image_view_init_word5 image iview pCreateInfo limited iview' :
  tu_image_view_init image iview pCreateInfo limited = Ok iview' →
  ∃ bo extra,
    img_bo image = Some bo
    ∧ (extra = 0
       ∨ ∃ ubwc_enabled,
           extra
           = u32 (Z.shiftr
                    (ycbcr_base_addr bo image
                       (vci_subresourceRange pCreateInfo) ubwc_enabled 0) 32))
    ∧ iv_descriptor iview' !!! 5%nat
      = Z.lor
          (u32 (Z.lor
                  (Z.shiftr
                     (image_addr bo image
                        (fdl_surface_offset (view_layout image pCreateInfo)
                           (sr_baseMipLevel (vci_subresourceRange pCreateInfo))
                           (sr_baseArrayLayer
                              (vci_subresourceRange pCreateInfo)))) 32)
                  (A6XX_TEX_CONST_5_DEPTH (view_depth image pCreateInfo))))
          extra.
Proof.
  unfold tu_image_view_init. cbv zeta. intros Hinit.
  apply assert_Ok in Hinit as [_ Hinit].
  apply bind_Ok in Hinit as (bo & Hbo & Hinit).
  destruct (img_bo image) as [bo' |]; [| discriminate].
  injection Hbo as ->. exists bo.
  destruct ((view_format pCreateInfo =? VK_FORMAT_G8_B8R8_2PLANE_420_UNORM)
            || (view_format pCreateInfo
                =? VK_FORMAT_G8_B8_R8_3PLANE_420_UNORM)).
  - apply assert_Ok in Hinit as [_ Hinit].
    apply assert_Ok in Hinit as [_ Hinit].
    apply assert_Ok in Hinit as [_ Hinit].
    injection Hinit as <-. eexists. split; [done |].
    split; [right; eexists; reflexivity |].
    cbn [iv_descriptor set_iv_texture]. apply tex_const_ycbcr_word5.
  - exists 0. split; [done |]. split; [by left |]. rewrite Z.lor_0_r.
    repeat match type of Hinit with
           | context [if ?c then _ else _] => destruct c
           end;
      injection Hinit as <-;
      cbn [iv_descriptor set_iv_texture set_iv_source
           set_iv_storage_descriptor set_iv_attachment set_iv_stencil];
      apply tex_const_single_word5.
Qed.

Lemma image_addr_nonneg bo image offset : 0 ≤ image_addr bo image offset.
Proof. unfold image_addr, u64. apply Z.mod_pos_bound. lia. Qed.

Lemma ycbcr_base_addr_nonneg bo image range ubwc_enabled i :
  0 ≤ ycbcr_base_addr bo image range ubwc_enabled i.
Proof.
  unfold ycbcr_base_addr. destruct ubwc_enabled; apply image_addr_nonneg.
Qed.

(** A view of an image bound to memory is initialised when the assertions
    on its path hold. *)
Lemma tu_image_view_init_returns image iview pCreateInfo limited bo :
  img_bo image = Some bo →
  view_init_asserts image pCreateInfo = true →
  ∃ iview', tu_image_view_init image iview pCreateInfo limited = Ok iview'.
Proof.
  intros Hbo. unfold view_init_asserts, ycbcr_view_asserts,
    tu_image_view_init. cbv zeta. rewrite Hbo.
  destruct ((view_format pCreateInfo =? VK_FORMAT_G8_B8R8_2PLANE_420_UNORM)
            || (view_format pCreateInfo
                =? VK_FORMAT_G8_B8_R8_3PLANE_420_UNORM)).
  - intros Hasserts.
    apply andb_prop in Hasserts as [Hasserts Hstorage].
    apply andb_prop in Hasserts as [Hasserts Htype].
    apply andb_prop in Hasserts as [Hrange Hlevels].
    rewrite Hrange. cbn [assert mbind result_bind].
    rewrite Hlevels, Htype, Hstorage. cbn [assert mbind result_bind]. eauto.
  - intros ->. cbn [assert mbind result_bind].
    repeat match goal with
           | |- context [if ?c then _ else _] => destruct c
           end; eauto.
Qed.

(** C7.  A view of an image bound to memory, within the assertions, is
    initialised with a texture descriptor whose depth field in word 5 is the
    view's layer count divided by 6 when the view type is CUBE or
    CUBE_ARRAY, and [storage_depth] for every other view type; the value
    fits the 13 bits of the field and the addresses of the view fit the 17
    bits below it. *)
Theorem tu_image_view_init_depth image iview pCreateInfo limited bo :
  img_bo image = Some bo →
  view_init_asserts image pCreateInfo = true →
  view_addresses_fit bo image pCreateInfo →
  0 ≤ view_depth image pCreateInfo < 2 ^ 13 →
  ∃ iview',
    tu_image_view_init image iview pCreateInfo limited = Ok iview'
    ∧ tex_const_5_depth (iv_descriptor iview' !!! 5%nat)
      = match vci_viewType pCreateInfo with
        | VK_IMAGE_VIEW_TYPE_CUBE | VK_IMAGE_VIEW_TYPE_CUBE_ARRAY =>
            tu_get_layerCount image (vci_subresourceRange pCreateInfo) / 6
        | _ => view_storage_depth image pCreateInfo
        end.
Proof.
  intros Hbo Hasserts [Hbase Hplane] Hdepth.
  destruct (tu_image_view_init_returns image iview pCreateInfo limited bo
              Hbo Hasserts) as [iview' Hinit].
  exists iview'. split; [done |].
  apply tu_image_view_init_word5 in Hinit
    as (bo' & extra & Hbo' & Hextra & ->).
  rewrite Hbo in Hbo'. injection Hbo' as <-.
  rewrite tex_const_5_depth_packed; [| | | done].
  - unfold view_depth, view_storage_depth.
    by destruct (vci_viewType pCreateInfo).
  - apply addr_high_half. split; [apply image_addr_nonneg | done].
  - destruct Hextra as [-> | [ubwc_enabled ->]]; [lia |].
    assert (0 ≤ Z.shiftr
                  (ycbcr_base_addr bo image
                     (vci_subresourceRange pCreateInfo) ubwc_enabled 0) 32
            < 2 ^ 17) as Hhigh.
    { apply addr_high_half.
      split; [apply ycbcr_base_addr_nonneg | apply Hplane]. }
    rewrite u32_small; lia.
Qed.

(** What a view of a multi-planar format is left with: the image and the
    texture descriptor are written, nothing else. *)
Lemma tu_image_view_init_ycbcr_result image iview pCreateInfo limited iview' :
  view_format pCreateInfo = VK_FORMAT_G8_B8R8_2PLANE_420_UNORM
  ∨ view_format pCreateInfo = VK_FORMAT_G8_B8_R8_3PLANE_420_UNORM →
  tu_image_view_init image iview pCreateInfo limited = Ok iview' →
  ∃ descriptor, iview' = set_iv_texture (vci_image pCreateInfo) descriptor iview.
Proof.
  intros Hformat. unfold tu_image_view_init. cbv zeta. intros Hinit.
  apply assert_Ok in Hinit as [_ Hinit].
  apply bind_Ok in Hinit as (bo & _ & Hinit).
  replace ((view_format pCreateInfo =? VK_FORMAT_G8_B8R8_2PLANE_420_UNORM)
           || (view_format pCreateInfo
               =? VK_FORMAT_G8_B8_R8_3PLANE_420_UNORM)) with true in Hinit
    by (by destruct Hformat as [-> | ->]).
  apply assert_Ok in Hinit as [_ Hinit].
  apply assert_Ok in Hinit as [_ Hinit].
  apply assert_Ok in Hinit as [_ Hinit].
  injection Hinit as <-. eauto.
Qed.

(** Such a view is initialised whenever the image is bound to memory and
    the assertions hold. *)
Lemma tu_image_view_init_ycbcr_returns image iview pCreateInfo limited bo :
  view_format pCreateInfo = VK_FORMAT_G8_B8R8_2PLANE_420_UNORM
  ∨ view_format pCreateInfo = VK_FORMAT_G8_B8_R8_3PLANE_420_UNORM →
  img_bo image = Some bo →
  ycbcr_view_asserts image pCreateInfo = true →
  ∃ iview', tu_image_view_init image iview pCreateInfo limited = Ok iview'.
Proof.
  intros Hformat Hbo Hasserts. unfold ycbcr_view_asserts in Hasserts.
  cbv zeta in Hasserts.
  apply andb_prop in Hasserts as [Hasserts Hstorage].
  apply andb_prop in Hasserts as [Hasserts Htype].
  apply andb_prop in Hasserts as [Hrange Hlevels].
  unfold tu_image_view_init. cbv zeta.
  rewrite Hrange, Hbo. cbn [assert mbind result_bind].
  replace ((view_format pCreateInfo =? VK_FORMAT_G8_B8R8_2PLANE_420_UNORM)
           || (view_format pCreateInfo
               =? VK_FORMAT_G8_B8_R8_3PLANE_420_UNORM)) with true
    by (by destruct Hformat as [-> | ->]).
  rewrite Hlevels, Htype, Hstorage. cbn [assert mbind result_bind]. eauto.
Qed.

(** C10.  A view whose format is a 2-plane or 3-plane YCbCr 4:2:0 format,
    of an image bound to memory and within the assertions, is initialised
    by writing the image and the texture descriptor only: the storage
    descriptor, the render-target, 2D and blit registers, the pitches, the
    cached addresses, sizes, extent and flags and the stencil side band keep
    the values they had. *)
Theorem tu_image_view_init_ycbcr_frame image iview pCreateInfo limited bo :
  view_format pCreateInfo = VK_FORMAT_G8_B8R8_2PLANE_420_UNORM
  ∨ view_format pCreateInfo = VK_FORMAT_G8_B8_R8_3PLANE_420_UNORM →
  img_bo image = Some bo →
  ycbcr_view_asserts image pCreateInfo = true →
  ∃ iview',
    tu_image_view_init image iview pCreateInfo limited = Ok iview'
    ∧ iv_image iview' = vci_image pCreateInfo
    ∧ iv_storage_descriptor iview' = iv_storage_descriptor iview
    ∧ iv_RB_MRT_BUF_INFO iview' = iv_RB_MRT_BUF_INFO iview
    ∧ iv_SP_FS_MRT_REG iview' = iv_SP_FS_MRT_REG iview
    ∧ iv_SP_PS_2D_SRC_INFO iview' = iv_SP_PS_2D_SRC_INFO iview
    ∧ iv_SP_PS_2D_SRC_SIZE iview' = iv_SP_PS_2D_SRC_SIZE iview
    ∧ iv_RB_2D_DST_INFO iview' = iv_RB_2D_DST_INFO iview
    ∧ iv_RB_BLIT_DST_INFO iview' = iv_RB_BLIT_DST_INFO iview
    ∧ iv_PITCH iview' = iv_PITCH iview
    ∧ iv_FLAG_BUFFER_PITCH iview' = iv_FLAG_BUFFER_PITCH iview
    ∧ iv_base_addr iview' = iv_base_addr iview
    ∧ iv_ubwc_addr iview' = iv_ubwc_addr iview
    ∧ iv_layer_size iview' = iv_layer_size iview
    ∧ iv_ubwc_layer_size iview' = iv_ubwc_layer_size iview
    ∧ iv_extent iview' = iv_extent iview
    ∧ iv_need_y2_align iview' = iv_need_y2_align iview
    ∧ iv_ubwc_enabled iview' = iv_ubwc_enabled iview
    ∧ iv_stencil_base_addr iview' = iv_stencil_base_addr iview
    ∧ iv_stencil_layer_size iview' = iv_stencil_layer_size iview
    ∧ iv_stencil_PITCH iview' = iv_stencil_PITCH iview.
Proof.
  intros Hformat Hbo Hasserts.
  destruct (tu_image_view_init_ycbcr_returns image iview pCreateInfo limited
              bo Hformat Hbo Hasserts) as [iview' Hinit].
  exists iview'. split; [done |].
  destruct (tu_image_view_init_ycbcr_result _ _ _ _ _ Hformat Hinit)
    as [descriptor ->].
  repeat split.
Qed.

(** The effective format of a view is multi-planar exactly when the view
    names such a format under the colour aspect. *)
Lemma view_format_ycbcr pCreateInfo :
  view_format pCreateInfo = VK_FORMAT_G8_B8R8_2PLANE_420_UNORM
  ∨ view_format pCreateInfo = VK_FORMAT_G8_B8_R8_3PLANE_420_UNORM
  ↔ (vci_format pCreateInfo = VK_FORMAT_G8_B8R8_2PLANE_420_UNORM
     ∨ vci_format pCreateInfo = VK_FORMAT_G8_B8_R8_3PLANE_420_UNORM)
    ∧ sr_aspectMask (vci_subresourceRange pCreateInfo)
      = VK_IMAGE_ASPECT_COLOR_BIT.
Proof.
  unfold view_format, tu6_plane_format. cbv zeta.
  destruct (Z.eqb_spec (sr_aspectMask (vci_subresourceRange pCreateInfo))
              VK_IMAGE_ASPECT_COLOR_BIT) as [Haspect | Haspect];
    cbn [negb].
  - split; [intros Hf; by split | by intros [Hf _]].
  - split; [| by intros [_ ?]].
    repeat match goal with
           | |- context [if ?c =? ?d then _ else _] =>
               destruct (Z.eqb_spec c d)
           end; intros [Hf | Hf]; try discriminate Hf; congruence.
Qed.

End ImageViewProperties.

(** * Further properties *)

(** ** Planes and swizzles, continued *)

Lemma tu6_plane_index_range (format : VkFormat)
    (aspect_mask : VkImageAspectFlags) :
  0 ≤ tu6_plane_index format aspect_mask < 3.
Proof.
  unfold tu6_plane_index.
  repeat match goal with
         | |- context [if ?c then _ else _] => destruct c
         end; lia.
Qed.

(** X1.  The format [tu6_plane_format] gives for a plane is never itself
    multi-planar: it has one plane, and it is its own plane format, whatever
    the plane asked for. *)
Theorem tu6_plane_format_single (format : VkFormat) (plane plane' : Z) :
  tu6_plane_count (tu6_plane_format format plane) = 1
  ∧ tu6_plane_format (tu6_plane_format format plane) plane'
    = tu6_plane_format format plane.
Proof.
  unfold tu6_plane_format.
  destruct (Z.eqb_spec format VK_FORMAT_G8_B8R8_2PLANE_420_UNORM) as [-> | H2];
    [by destruct (plane =? 0) |].
  destruct (Z.eqb_spec format VK_FORMAT_G8_B8_R8_3PLANE_420_UNORM) as [-> | H3];
    [done |].
  destruct (Z.eqb_spec format VK_FORMAT_D32_SFLOAT_S8_UINT) as [-> | Hd];
    [by destruct (plane =? 0) |].
  unfold tu6_plane_count.
  destruct (Z.eqb_spec format VK_FORMAT_G8_B8R8_2PLANE_420_UNORM); [done |].
  destruct (Z.eqb_spec format VK_FORMAT_G8_B8_R8_3PLANE_420_UNORM); [done |].
  destruct (Z.eqb_spec format VK_FORMAT_D32_SFLOAT_S8_UINT); done.
Qed.

(** An iteration of the loop stores the selector its component picks from
    the copy taken on entry. *)
Lemma compose_swizzle_step_select (x y z w : Z)
    (vk_swiz : list VkComponentSwizzle) (swiz : list Z) (i : nat) :
  compose_swizzle_step [x; y; z; w] vk_swiz swiz i
  = <[i := swizzle_select x y z w ([x; y; z; w] !!! i) (vk_swiz !!! i)]> swiz.
Proof. unfold compose_swizzle_step. by destruct (vk_swiz !!! i). Qed.

Lemma compose_swizzle_steps (x y z w : Z) (mapping : VkComponentMapping) :
  compose_swizzle [x; y; z; w] mapping
  = <[3%nat := swizzle_select x y z w w (cm_a mapping)]>
      (<[2%nat := swizzle_select x y z w z (cm_b mapping)]>
         (<[1%nat := swizzle_select x y z w y (cm_g mapping)]>
            (<[0%nat := swizzle_select x y z w x (cm_r mapping)]>
               [x; y; z; w]))).
Proof.
  unfold compose_swizzle. cbn [seq fold_left].
  change [[x; y; z; w] !!! 0%nat; [x; y; z; w] !!! 1%nat;
          [x; y; z; w] !!! 2%nat; [x; y; z; w] !!! 3%nat] with [x; y; z; w].
  by rewrite !compose_swizzle_step_select.
Qed.

(** X2.  [compose_swizzle] on a four-element swizzle: every output selector
    is picked from the swizzle as it was on entry, not from the elements the
    loop has already overwritten; IDENTITY keeps the selector in place, R, G,
    B and A pick elements 0 to 3, ZERO and ONE give the constant
    selectors. *)
Theorem compose_swizzle_select (x y z w : Z) (mapping : VkComponentMapping) :
  compose_swizzle [x; y; z; w] mapping
  = [swizzle_select x y z w x (cm_r mapping);
     swizzle_select x y z w y (cm_g mapping);
     swizzle_select x y z w z (cm_b mapping);
     swizzle_select x y z w w (cm_a mapping)].
Proof.
  unfold compose_swizzle. cbn [seq fold_left].
  change [[x; y; z; w] !!! 0%nat; [x; y; z; w] !!! 1%nat;
          [x; y; z; w] !!! 2%nat; [x; y; z; w] !!! 3%nat] with [x; y; z; w].
  rewrite !compose_swizzle_step_select. reflexivity.
Qed.

Lemma valid_swiz_enum :
  valid_swiz A6XX_TEX_X ∧ valid_swiz A6XX_TEX_Y ∧ valid_swiz A6XX_TEX_Z
  ∧ valid_swiz A6XX_TEX_W ∧ valid_swiz A6XX_TEX_ZERO ∧ valid_swiz A6XX_TEX_ONE.
Proof. unfold valid_swiz. repeat split; done. Qed.

(** The swizzle [tu6_texswiz] starts from depends on the format, the aspect
    and the D24S8 quirk only, and is made of valid selectors. *)
Lemma tu6_texswiz_seed (format : VkFormat) (aspect_mask : VkImageAspectFlags)
    (limited_z24s8 : bool) :
  ∃ x y z w,
    (valid_swiz x ∧ valid_swiz y ∧ valid_swiz z ∧ valid_swiz w)
    ∧ ∀ comps conversion,
        tu6_texswiz comps conversion format aspect_mask limited_z24s8
        = swiz_pack
            match conversion with
            | Some c =>
                compose_swizzle (compose_swizzle [x; y; z; w] comps)
                  (conv_components c)
            | None => compose_swizzle [x; y; z; w] comps
            end.
Proof.
  destruct valid_swiz_enum as (HX & HY & HZ & HW & H0 & H1).
  unfold tu6_texswiz, swiz_pack. cbv zeta.
  destruct (_ || _ || _ || _).
  { exists A6XX_TEX_Z, A6XX_TEX_X, A6XX_TEX_Y, A6XX_TEX_W.
    split; [done |]. intros comps [c |]; cbn [insert list_insert]; reflexivity. }
  destruct (_ || _).
  { exists A6XX_TEX_X, A6XX_TEX_Y, A6XX_TEX_Z, A6XX_TEX_ONE.
    split; [done |]. intros comps [c |]; cbn [insert list_insert]; reflexivity. }
  destruct (format =? VK_FORMAT_D24_UNORM_S8_UINT);
    [destruct (aspect_mask =? VK_IMAGE_ASPECT_STENCIL_BIT);
       [destruct limited_z24s8 |] |].
  - exists A6XX_TEX_W, A6XX_TEX_ZERO, A6XX_TEX_Z, A6XX_TEX_W.
    split; [done |]. intros comps [c |]; cbn [insert list_insert]; reflexivity.
  - exists A6XX_TEX_Y, A6XX_TEX_ZERO, A6XX_TEX_Z, A6XX_TEX_W.
    split; [done |]. intros comps [c |]; cbn [insert list_insert]; reflexivity.
  - exists A6XX_TEX_X, A6XX_TEX_Y, A6XX_TEX_Z, A6XX_TEX_W.
    split; [done |]. intros comps [c |]; cbn [insert list_insert]; reflexivity.
  - exists A6XX_TEX_X, A6XX_TEX_Y, A6XX_TEX_Z, A6XX_TEX_W.
    split; [done |]. intros comps [c |]; cbn [insert list_insert]; reflexivity.
Qed.

Lemma swizzle_select_valid x y z w own c :
  valid_swiz x → valid_swiz y → valid_swiz z → valid_swiz w → valid_swiz own →
  valid_swiz (swizzle_select x y z w own c).
Proof.
  unfold valid_swiz, A6XX_TEX_ONE. intros.
  destruct c; cbn; unfold A6XX_TEX_ZERO, A6XX_TEX_ONE; lia.
Qed.

(** A valid selector fits each of the four swizzle fields. *)
Lemma swiz_field_valid (shift mask s : Z) :
  valid_swiz s →
  (shift, mask) = (4, 0x70) ∨ (shift, mask) = (7, 0x380)
  ∨ (shift, mask) = (10, 0x1c00) ∨ (shift, mask) = (13, 0xe000) →
  field shift mask s = Z.shiftl s shift.
Proof.
  unfold valid_swiz, A6XX_TEX_ONE. intros Hs Hfield.
  assert (s = 0 ∨ s = 1 ∨ s = 2 ∨ s = 3 ∨ s = 4 ∨ s = 5) as Hcases by lia.
  destruct Hfield as [[= -> ->] | [[= -> ->] | [[= -> ->] | [= -> ->]]]];
    destruct Hcases as [-> | [-> | [-> | [-> | [-> | ->]]]]]; reflexivity.
Qed.

Lemma compose_swizzle_valid x y z w mapping :
  valid_swiz x → valid_swiz y → valid_swiz z → valid_swiz w →
  ∃ x' y' z' w',
    compose_swizzle [x; y; z; w] mapping = [x'; y'; z'; w']
    ∧ valid_swiz x' ∧ valid_swiz y' ∧ valid_swiz z' ∧ valid_swiz w'.
Proof.
  intros Hx Hy Hz Hw. rewrite compose_swizzle_steps.
  do 4 eexists. split; [reflexivity |].
  repeat split; apply swizzle_select_valid; done.
Qed.

(** X3.  The word [tu6_texswiz] returns packs four members of the swizzle
    enumeration, X to ONE, into the fields at bit 4, 7, 10 and 13: no field
    is truncated by its mask, none holds the unused encodings 6 and 7, and
    nothing is set outside bits 4 to 15; this for every component mapping,
    conversion, format and aspect. *)
Theorem tu6_texswiz_fields comps conversion format aspect_mask limited_z24s8 :
  ∃ x y z w,
    (valid_swiz x ∧ valid_swiz y ∧ valid_swiz z ∧ valid_swiz w)
    ∧ tu6_texswiz comps conversion format aspect_mask limited_z24s8
      = Z.lor (Z.lor (Z.lor (Z.shiftl x 4) (Z.shiftl y 7)) (Z.shiftl z 10))
              (Z.shiftl w 13).
Proof.
  destruct (tu6_texswiz_seed format aspect_mask limited_z24s8)
    as (x & y & z & w & (Hx & Hy & Hz & Hw) & ->).
  destruct (compose_swizzle_valid x y z w comps Hx Hy Hz Hw)
    as (x1 & y1 & z1 & w1 & Hcomps & Hx1 & Hy1 & Hz1 & Hw1).
  assert (∃ x' y' z' w',
            match conversion with
            | Some c =>
                compose_swizzle (compose_swizzle [x; y; z; w] comps)
                  (conv_components c)
            | None => compose_swizzle [x; y; z; w] comps
            end = [x'; y'; z'; w']
            ∧ valid_swiz x' ∧ valid_swiz y' ∧ valid_swiz z' ∧ valid_swiz w')
    as (x' & y' & z' & w' & -> & Hx' & Hy' & Hz' & Hw').
  { rewrite Hcomps. destruct conversion as [c |].
    - by apply compose_swizzle_valid.
    - by exists x1, y1, z1, w1. }
  exists x', y', z', w'. split; [done |].
  unfold swiz_pack, A6XX_TEX_CONST_0_SWIZ_X, A6XX_TEX_CONST_0_SWIZ_Y,
    A6XX_TEX_CONST_0_SWIZ_Z, A6XX_TEX_CONST_0_SWIZ_W.
  cbn [lookup_total list_lookup_total].
  rewrite !swiz_field_valid by (done || tauto). reflexivity.
Qed.

(** The explicit mapping R, G, B, A, the one [tu_buffer_view_init] passes,
    gives the same swizzle word as the identity mapping. *)
Lemma tu6_texswiz_rgba conversion format aspect_mask limited_z24s8 :
  tu6_texswiz rgba_mapping conversion format aspect_mask limited_z24s8
  = tu6_texswiz identity_mapping conversion format aspect_mask limited_z24s8.
Proof.
  destruct (tu6_texswiz_seed format aspect_mask limited_z24s8)
    as (x & y & z & w & _ & Hpack).
  rewrite !Hpack, !compose_swizzle_steps. reflexivity.
Qed.

(** ** Words and addresses *)

Lemma u32_range (x : Z) : 0 ≤ u32 x < 2 ^ 32.
Proof. unfold u32. apply Z.mod_pos_bound. lia. Qed.

Lemma u64_range (x : Z) : 0 ≤ u64 x < 2 ^ 64.
Proof. unfold u64. apply Z.mod_pos_bound. lia. Qed.

(** The two dwords of a 64-bit value hold the value. *)
Lemma qword_halves (a : Z) :
  0 ≤ a < 2 ^ 64 → qword (u32 a) (u32 (Z.shiftr a 32)) = a.
Proof.
  intros Ha. unfold qword, u32. apply Z.bits_inj'. intros n Hn.
  rewrite Z.lor_spec.
  destruct (Z.ltb_spec n 32) as [Hlow | Hhigh].
  - rewrite Z.mod_pow2_bits_low by lia.
    rewrite Z.shiftl_spec_low by lia. apply orb_false_r.
  - rewrite Z.mod_pow2_bits_high by lia.
    rewrite Z.shiftl_spec by lia. cbn [orb].
    destruct (Z.ltb_spec (n - 32) 32) as [Hin | Hout].
    + rewrite Z.mod_pow2_bits_low by lia.
      rewrite Z.shiftr_spec by lia. f_equal. lia.
    + rewrite Z.mod_pow2_bits_high by lia.
      symmetry. apply (testbit_small a 64); lia.
Qed.

(** The width and height fields of word 1 hold the low 30 bits of the
    element count. *)
Lemma tex_const_1_elements (e : Z) :
  Z.lor (A6XX_TEX_CONST_1_WIDTH (Z.land e (MASK 15)))
        (A6XX_TEX_CONST_1_HEIGHT (Z.shiftr e 15))
  = Z.land e (Z.ones 30).
Proof.
  unfold A6XX_TEX_CONST_1_WIDTH, A6XX_TEX_CONST_1_HEIGHT, field, MASK.
  apply Z.bits_inj'. intros n Hn.
  rewrite Z.lor_spec, !Z.land_spec, Z.shiftl_0_r.
  change (Z.shiftl 1 15 - 1) with (Z.ones 15).
  change 32767 with (Z.ones 15).
  change 1073709056 with (Z.shiftl (Z.ones 15) 15).
  rewrite !Z.land_spec.
  rewrite !Z.testbit_ones by lia.
  destruct (Z.ltb_spec n 15) as [Hlow | Hhigh].
  - rewrite !Z.shiftl_spec_low by lia.
    destruct (Z.leb_spec 0 n), (Z.ltb_spec n 30); try lia.
    cbn. by rewrite !andb_true_r, orb_false_r.
  - rewrite !Z.shiftl_spec by lia. rewrite Z.shiftr_spec by lia.
    rewrite Z.testbit_ones by lia.
    replace (n - 15 + 15) with n by lia.
    destruct (Z.leb_spec 0 n), (Z.leb_spec 0 (n - 15)),
      (Z.ltb_spec (n - 15) 15), (Z.ltb_spec n 30); try lia; cbn;
      rewrite ?andb_true_r, ?andb_false_r; reflexivity.
Qed.

(** The low 17 bits of word 5 are the high address bits, the depth field
    being above them. *)
Lemma land_ones_17_high (hi depth : Z) :
  0 ≤ hi < 2 ^ 17 →
  Z.land (u32 (Z.lor hi (field 17 0x3ffe0000 depth))) (Z.ones 17) = hi.
Proof.
  intros Hhi. unfold field, u32. apply Z.bits_inj'. intros n Hn.
  rewrite Z.land_spec, Z.testbit_ones by lia.
  destruct (Z.ltb_spec n 17) as [Hlow | Hhigh].
  - rewrite Z.mod_pow2_bits_low by lia.
    rewrite Z.lor_spec, Z.land_spec, depth_mask_testbit.
    destruct (Z.leb_spec 0 n), (Z.leb_spec 17 n); try lia.
    cbn. by rewrite andb_false_r, orb_false_r, andb_true_r.
  - rewrite !andb_false_r. symmetry. apply (testbit_small hi 17); lia.
Qed.

(** Words 4 and 5 of a descriptor give back an address below 2^49. *)
Lemma qword_descriptor (addr depth : Z) :
  0 ≤ addr < 2 ^ 49 →
  qword (u32 addr)
    (Z.land (u32 (Z.lor (Z.shiftr addr 32) (A6XX_TEX_CONST_5_DEPTH depth)))
       (Z.ones 17))
  = addr.
Proof.
  intros Haddr. unfold A6XX_TEX_CONST_5_DEPTH.
  rewrite land_ones_17_high by (by apply addr_high_half).
  rewrite <- (qword_halves addr) at 3 by lia.
  f_equal. symmetry. apply u32_small.
  pose proof (addr_high_half addr Haddr). lia.
Qed.

Section BufferViewWords.
Context `{FormatDb, TuPrivate}.

(** X4.  The descriptor of a buffer view: word 1 holds the element count
    modulo 2^30, split into the 15-bit width and height fields; words 4 and
    5 hold the whole 64-bit address of the buffer plus the view's offset,
    low dword first; word 3 and words 6 to 15 are zero after the [memset];
    the view records the handle of its buffer. *)
Theorem tu_buffer_view_init_words (buffer : tu_buffer)
    (view : tu_buffer_view) (pCreateInfo : VkBufferViewCreateInfo) :
  let descriptor :=
    bv_descriptor (tu_buffer_view_init buffer view pCreateInfo) in
  descriptor !!! 1%nat
  = Z.land (buffer_view_elements buffer pCreateInfo) (Z.ones 30)
  ∧ qword (descriptor !!! 4%nat) (descriptor !!! 5%nat)
    = u64 (tu_buffer_iova buffer + bvci_offset pCreateInfo)
  ∧ length descriptor = A6XX_TEX_CONST_DWORDS
  ∧ descriptor !!! 3%nat = 0
  ∧ (∀ i, (6 ≤ i < 16)%nat → descriptor !!! i = 0)
  ∧ bv_buffer (tu_buffer_view_init buffer view pCreateInfo)
    = bvci_buffer pCreateInfo.
Proof.
  unfold tu_buffer_view_init, buffer_view_elements. cbv zeta.
  cbn [bv_descriptor bv_buffer].
  cbn [A6XX_TEX_CONST_DWORDS replicate insert list_insert lookup_total
       list_lookup_total].
  split; [apply tex_const_1_elements |].
  split; [apply qword_halves, u64_range |].
  split; [reflexivity |]. split; [reflexivity |]. split; [| reflexivity].
  intros i Hi.
  do 6 (destruct i as [| i]; [lia |]).
  do 10 (destruct i as [| i]; [reflexivity |]).
  lia.
Qed.

End BufferViewWords.

(** ** Command-stream references *)

(** X5.  Each of the four reference helpers appends its dwords to the
    stream and leaves what was emitted before in place: [tu_cs_image_ref]
    and [tu_cs_image_stencil_ref] append the pitch, the layer size in units
    of 64 bytes and the address; [tu_cs_image_ref_2d] and
    [tu_cs_image_flag_ref] append the address and the pitch, shifted left by
    9 for a 2D source.  The address is the base address plus
    [layer_size * layer], the product taken in 32 bits and the sum in 64,
    and goes out low dword first. *)
Theorem tu_cs_image_ref_dwords (cs : list Z) (iview : tu_image_view)
    (layer : Z) (src : bool) :
  (∃ lo hi,
     tu_cs_image_ref cs iview layer
     = cs ++ [u32 (iv_PITCH iview); u32 (Z.shiftr (iv_layer_size iview) 6);
              lo; hi]
     ∧ qword lo hi
       = u64 (iv_base_addr iview + u32 (iv_layer_size iview * layer)))
  ∧ (∃ lo hi,
       tu_cs_image_stencil_ref cs iview layer
       = cs ++ [u32 (iv_stencil_PITCH iview);
                u32 (Z.shiftr (iv_stencil_layer_size iview) 6); lo; hi]
       ∧ qword lo hi
         = u64 (iv_stencil_base_addr iview
                + u32 (iv_stencil_layer_size iview * layer)))
  ∧ (∃ lo hi,
       tu_cs_image_ref_2d cs iview layer src
       = cs ++ [lo; hi;
                u32 (if src then iv_PITCH iview * 2 ^ 9 else iv_PITCH iview)]
       ∧ qword lo hi
         = u64 (iv_base_addr iview + u32 (iv_layer_size iview * layer)))
  ∧ ∃ lo hi,
      tu_cs_image_flag_ref cs iview layer
      = cs ++ [lo; hi; u32 (iv_FLAG_BUFFER_PITCH iview)]
      ∧ qword lo hi
        = u64 (iv_ubwc_addr iview + u32 (iv_ubwc_layer_size iview * layer)).
Proof.
  unfold tu_cs_image_ref, tu_cs_image_stencil_ref, tu_cs_image_ref_2d,
    tu_cs_image_flag_ref, tu_cs_emit_qw, tu_cs_emit.
  cbv zeta.
  split; [| split; [| split]]; do 2 eexists; rewrite <- !app_assoc;
    cbn [app]; (split; [| apply qword_halves, u64_range]); try reflexivity.
  destruct src; [by rewrite Z.shiftl_mul_pow2 by lia | by rewrite Z.shiftl_0_r].
Qed.

(** ** Image creation, continued *)

Section LoopReturns.
Context {S : Type} (body : nat → S → result S).

(** A loop whose every iteration returns under the invariant returns. *)
Lemma for_each_seq_returns (Inv : nat → S → Prop) (len : nat) :
  ∀ (start : nat) (s : S),
    (∀ i s1, (start ≤ i < start + len)%nat → Inv i s1 →
       ∃ s2, body i s1 = Ok s2 ∧ Inv (Datatypes.S i) s2) →
    Inv start s →
    ∃ s', for_each body (seq start len) s = Ok s'.
Proof.
  induction len as [| len IH]; intros start s Hstep Hinv.
  - by exists s.
  - rewrite for_each_seq_S.
    destruct (Hstep start s) as (s1 & -> & Hinv1); [lia | done |].
    cbn [mbind result_bind]. apply IH; [| done].
    intros i s2 Hi. apply Hstep. lia.
Qed.

End LoopReturns.

Section ImageCreateOutcomes.
Context `{FormatDb, FdlLayout, TuPrivate}.

(** *** The policy in closed form *)

Lemma tu_image_tiling_policy_closed device pCreateInfo modifier :
  tu_image_tiling_policy device pCreateInfo modifier
  = (if linear_forced pCreateInfo modifier then TILE6_LINEAR else TILE6_3,
     negb (linear_forced pCreateInfo modifier
           || ubwc_excluded device pCreateInfo)).
Proof.
  unfold tu_image_tiling_policy, linear_forced, ubwc_excluded. cbv zeta.
  set (linear := _ || (modifier =? DRM_FORMAT_MOD_LINEAR) || _ || _).
  set (ycbcr := (ci_format pCreateInfo =? VK_FORMAT_G8_B8R8_2PLANE_420_UNORM)
                || _).
  destruct linear, ycbcr; cbn [orb negb];
    repeat match goal with
           | |- context [if ?c then _ else _] => destruct c
           end; cbn [orb negb andb];
    rewrite ?orb_true_r, ?orb_false_r; reflexivity.
Qed.

(** *** What the loop builds *)

Lemma build_inv_init pCreateInfo plane_layouts tile_mode ubwc0 :
  build_inv pCreateInfo plane_layouts tile_mode ubwc0 0
    (tu_image_init pCreateInfo, ubwc0).
Proof.
  split; [apply plane_inv_init |]. split; [reflexivity |].
  split; [reflexivity |]. intros k Hk. lia.
Qed.

Lemma build_inv_step pCreateInfo plane_layouts tile_mode ubwc0 i st st' :
  (i < 3)%nat →
  build_inv pCreateInfo plane_layouts tile_mode ubwc0 i st →
  tu_image_create_plane pCreateInfo plane_layouts tile_mode i st = Ok st' →
  build_inv pCreateInfo plane_layouts tile_mode ubwc0 (Datatypes.S i) st'.
Proof.
  intros Hi (Hinv & Hheader & Htotal & Hbuilt) Hbody.
  split; [by eapply plane_inv_step |].
  destruct st as [image ubwc_enabled].
  rewrite (tu_image_create_plane_inv _ _ _ ubwc0) in Hbody by done.
  destruct Hinv as (_ & Hlen & _). cbn [fst snd] in *.
  destruct (explicit_plane_layout pCreateInfo plane_layouts i)
    as [plane_layout | |] eqn:Hexplicit; cbn in Hbody; try discriminate.
  destruct (plane_layout_request _ _ _ _ _) as [raw |] eqn:Hraw;
    [| destruct (bool_decide _); discriminate].
  injection Hbody as <-. cbn [fst snd].
  set (layout := place_plane pCreateInfo plane_layouts i
                   (img_total_size image) raw).
  set (image' := set_img_plane i layout _ image).
  assert (Hi' : img_layout image' !! i = Some layout).
  { subst image'. cbn [set_img_plane img_layout].
    apply list_lookup_insert_eq. lia. }
  split; [exact Hheader |]. split.
  - rewrite (planes_total_S _ _ _ Hi').
    subst image'. rewrite planes_total_set_img_plane by lia.
    cbn [set_img_plane img_total_size]. by rewrite Htotal.
  - intros k Hk. destruct (decide (k = i)) as [-> | Hne].
    + exists plane_layout, raw. split; [done |]. split; [done |].
      rewrite Hi'. f_equal.
      subst image' layout. rewrite planes_total_set_img_plane by lia.
      by rewrite Htotal.
    + destruct (Hbuilt k) as (pl_k & raw_k & Hpl_k & Hraw_k & Hlayout_k);
        [lia |].
      exists pl_k, raw_k. split; [done |]. split; [done |].
      subst image'. rewrite planes_total_set_img_plane by lia.
      cbn [set_img_plane img_layout].
      by rewrite list_lookup_insert_ne by lia.
Qed.

(** What [tu_image_create] returns: the header of the create info, three
    layouts of which those past the plane count are zero, and every plane
    built and placed. *)
Lemma tu_image_create_built device alloc_ok pCreateInfo modifier plane_layouts
    image :
  let policy := tu_image_tiling_policy device pCreateInfo modifier in
  let count := Z.to_nat (tu6_plane_count (ci_format pCreateInfo)) in
  tu_image_create device alloc_ok pCreateInfo modifier plane_layouts
  = Ok image →
  image_header image = image_header (tu_image_init pCreateInfo)
  ∧ length (img_layout image) = 3%nat
  ∧ (∀ j, (count ≤ j)%nat → img_layout image !!! j = fdl_layout_zero)
  ∧ img_total_size image = planes_total image count
  ∧ ∀ k, (k < count)%nat →
         plane_built pCreateInfo plane_layouts policy.1 policy.2 image k.
Proof.
  intros policy count Hcreate.
  apply tu_image_create_Ok in Hcreate as (_ & _ & ubwc' & Hloop).
  fold policy count in Hloop.
  pose proof (tu6_plane_count_range (ci_format pCreateInfo)) as Hcount.
  fold count in Hcount.
  apply (for_each_seq_invariant _
           (build_inv pCreateInfo plane_layouts policy.1 policy.2)) in Hloop.
  - destruct Hloop as ((_ & Hlen & Hzero & _) & Hheader & Htotal & Hbuilt).
    cbn [fst snd Nat.add] in *. done.
  - intros i st1 st2 Hi. apply build_inv_step. lia.
  - apply build_inv_init.
Qed.

(** The loop body returns no error but the invalid-layout one. *)
Lemma tu_image_create_plane_error pCreateInfo plane_layouts tile_mode i st e :
  tu_image_create_plane pCreateInfo plane_layouts tile_mode i st = Error e →
  e = VK_ERROR_INVALID_DRM_FORMAT_MODIFIER_PLANE_LAYOUT_EXT.
Proof.
  destruct st as [image ubwc_enabled].
  rewrite tu_image_create_plane_unfold. cbv zeta.
  unfold explicit_plane_layout.
  destruct plane_layouts as [layouts |]; cbn.
  - destruct (simple_2d pCreateInfo); cbn; [| by intros [= <-]].
    destruct (layouts !! i); cbn; [| done].
    destruct (plane_fdl6_layout _ _ _ _ _ _ _ _); [done | by intros [= <-]].
  - by destruct (plane_fdl6_layout _ _ _ _ _ _ _ _).
Qed.

(** X6.  [tu_image_create] returns an image exactly when the object was
    allocated, the assertions hold and the layout routine accepts the
    request for every plane of the format; the explicit layout of a plane,
    if any, must be there to be read. *)
Theorem tu_image_create_returns_iff device alloc_ok pCreateInfo modifier
    plane_layouts :
  let policy := tu_image_tiling_policy device pCreateInfo modifier in
  (∃ image,
     tu_image_create device alloc_ok pCreateInfo modifier plane_layouts
     = Ok image)
  ↔ alloc_ok = true
    ∧ create_asserts device pCreateInfo modifier = true
    ∧ ∀ k, (k < Z.to_nat (tu6_plane_count (ci_format pCreateInfo)))%nat →
           plane_accepted pCreateInfo plane_layouts policy.1 policy.2 k.
Proof.
  intros policy. split.
  - intros [image Hcreate].
    destruct (tu_image_create_built _ _ _ _ _ _ Hcreate)
      as (_ & _ & _ & _ & Hbuilt).
    apply tu_image_create_Ok in Hcreate as (Hasserts & Halloc & _).
    split; [done |]. split; [done |]. intros k Hk.
    destruct (Hbuilt k Hk) as (plane_layout & raw & Hexplicit & Hraw & _).
    by exists plane_layout, raw.
  - intros (-> & Hasserts & Haccepted).
    rewrite tu_image_create_unfold. cbv zeta. fold policy.
    unfold create_asserts in Hasserts. fold policy in Hasserts.
    apply andb_prop in Hasserts as [-> ->].
    pose proof (tu6_plane_count_range (ci_format pCreateInfo)) as Hcount.
    destruct (for_each_seq_returns
                (tu_image_create_plane pCreateInfo plane_layouts policy.1)
                (plane_inv pCreateInfo policy.2)
                (Z.to_nat (tu6_plane_count (ci_format pCreateInfo)))
                0%nat (tu_image_init pCreateInfo, policy.2))
      as [st ->]; [| apply plane_inv_init | by exists st.1].
    intros i [image ubwc_enabled] Hi Hinv.
    destruct (Haccepted i) as (plane_layout & raw & Hexplicit & Hraw);
      [lia |].
    assert (∃ st2,
              tu_image_create_plane pCreateInfo plane_layouts policy.1 i
                (image, ubwc_enabled) = Ok st2) as [st2 Hbody].
    { rewrite (tu_image_create_plane_inv _ _ _ policy.2) by done.
      rewrite Hexplicit. cbn [mbind result_bind]. rewrite Hraw. eauto. }
    exists st2. split; [done |]. by eapply plane_inv_step.
Qed.

(** X7.  [tu_image_create] returns the out-of-host-memory error exactly
    when the assertions on the create info hold and the allocation failed:
    the allocation follows those assertions, precedes the assertion on the
    modifier, and the loop over the planes never returns this error. *)
Theorem tu_image_create_out_of_host_memory device alloc_ok pCreateInfo modifier
    plane_layouts :
  tu_image_create device alloc_ok pCreateInfo modifier plane_layouts
  = Error VK_ERROR_OUT_OF_HOST_MEMORY
  ↔ create_info_asserts pCreateInfo = true ∧ alloc_ok = false.
Proof.
  rewrite tu_image_create_unfold. cbv zeta.
  destruct (create_info_asserts pCreateInfo); [| split; [| intros [? _]]; done].
  destruct alloc_ok; [| done].
  split; [| intros [_ ?]; done]. intros Herr. exfalso.
  destruct (negb _ || _); [| done].
  destruct (for_each _ _ _) as [st | e |] eqn:Hloop; cbn in Herr; try done.
  injection Herr as ->.
  apply (for_each_seq_error _ (λ _ _, True)) in Hloop
    as (i & st & _ & _ & Hbody); [| done | done].
  by apply tu_image_create_plane_error in Hbody.
Qed.

(** X8.  Asking for the compressed modifier when one of the conditions
    that rule UBWC out holds (a linear fallback, the NOUBWC debug flag, a
    compressed, E5B9G9R9 or S8 format, a 3D extent, storage usage, sampled
    D24S8 on a device with the quirk) fails the assertion "expect UBWC
    enabled if we asked for it". *)
Theorem tu_image_create_compressed_abort device pCreateInfo plane_layouts :
  create_info_asserts pCreateInfo = true →
  linear_forced pCreateInfo DRM_FORMAT_MOD_QCOM_COMPRESSED
  || ubwc_excluded device pCreateInfo = true →
  tu_image_create device true pCreateInfo DRM_FORMAT_MOD_QCOM_COMPRESSED
    plane_layouts = Abort.
Proof.
  intros Hasserts Hoff. rewrite tu_image_create_unfold. cbv zeta.
  rewrite Hasserts, tu_image_tiling_policy_closed. cbn [snd].
  by rewrite Hoff, Z.eqb_refl.
Qed.

(** *** The planes of a created image *)

(** A plane the routine was not asked to compress. *)
Lemma plane_built_ubwc_off pCreateInfo plane_layouts tile_mode image k :
  fdl6_ubwc_only_if_asked →
  plane_built pCreateInfo plane_layouts tile_mode false image k →
  lay_ubwc (img_layout image !!! k) = false.
Proof.
  intros Hroutine (plane_layout & raw & _ & Hraw & Hlayout).
  rewrite (list_lookup_total_correct _ _ _ Hlayout).
  destruct (place_plane_frame pCreateInfo plane_layouts k
              (planes_total image k) raw) as (-> & _).
  apply not_true_is_false. intros Hon.
  unfold plane_layout_request in Hraw.
  destruct (plane_adjust _ _ _ _ _) as [[width0 height0] ubwc'] eqn:Hadj.
  unfold plane_fdl6_layout in Hraw.
  pose proof (Hroutine _ _ _ _ _ _ _ _ _ _ _ Hraw Hon) as Hasked.
  cbn in Hasked. subst ubwc'.
  assert ((plane_adjust (ci_format pCreateInfo) k
             (ext_width (ci_extent pCreateInfo))
             (ext_height (ci_extent pCreateInfo)) false).2 = true) as Hsnd
    by (by rewrite Hadj).
  by apply plane_adjust_ubwc in Hsnd.
Qed.

Lemma plane_built_tile_mode pCreateInfo plane_layouts tile_mode ubwc0 image k :
  fdl6_keeps_tile_mode →
  plane_built pCreateInfo plane_layouts tile_mode ubwc0 image k →
  lay_tile_mode (img_layout image !!! k) = tile_mode.
Proof.
  intros Hroutine (plane_layout & raw & _ & Hraw & Hlayout).
  rewrite (list_lookup_total_correct _ _ _ Hlayout).
  destruct (place_plane_frame pCreateInfo plane_layouts k
              (planes_total image k) raw) as (_ & -> & _).
  unfold plane_layout_request in Hraw.
  destruct (plane_adjust _ _ _ _ _) as [[width0 height0] ubwc'].
  unfold plane_fdl6_layout in Hraw.
  by rewrite (Hroutine _ _ _ _ _ _ _ _ _ _ _ Hraw).
Qed.

(** A property of the planes laid out and of the zero layout holds for every
    element of [image->layout]. *)
Lemma tu_image_create_Forall (P : fdl_layout → Prop) device alloc_ok
    pCreateInfo modifier plane_layouts image :
  let policy := tu_image_tiling_policy device pCreateInfo modifier in
  tu_image_create device alloc_ok pCreateInfo modifier plane_layouts
  = Ok image →
  P fdl_layout_zero →
  (∀ k, plane_built pCreateInfo plane_layouts policy.1 policy.2 image k →
        P (img_layout image !!! k)) →
  Forall P (img_layout image).
Proof.
  intros policy Hcreate Hzero Hplane.
  destruct (tu_image_create_built _ _ _ _ _ _ Hcreate)
    as (_ & _ & Hrest & _ & Hbuilt).
  apply Forall_lookup. intros k layout Hk.
  rewrite <- (list_lookup_total_correct _ _ _ Hk).
  destruct (decide (k < Z.to_nat (tu6_plane_count (ci_format pCreateInfo)))%nat)
    as [Hlt | Hge].
  - apply Hplane, Hbuilt, Hlt.
  - rewrite Hrest by lia. exact Hzero.
Qed.

Lemma tu_image_create_lookup device alloc_ok pCreateInfo modifier
    plane_layouts image (P : fdl_layout → Prop) (k : Z) :
  tu_image_create device alloc_ok pCreateInfo modifier plane_layouts
  = Ok image →
  Forall P (img_layout image) →
  0 ≤ k < 3 →
  P (img_layout image !!! Z.to_nat k).
Proof.
  intros Hcreate Hall Hk.
  destruct (tu_image_create_built _ _ _ _ _ _ Hcreate) as (_ & Hlen & _).
  destruct (lookup_lt_is_Some_2 (img_layout image) (Z.to_nat k)) as [l Hl];
    [lia |].
  rewrite (list_lookup_total_correct _ _ _ Hl).
  by apply (Forall_lookup_1 _ _ _ _ Hall Hl).
Qed.

Lemma tu_image_create_linear_planes device alloc_ok pCreateInfo modifier
    plane_layouts image :
  fdl6_keeps_tile_mode →
  linear_forced pCreateInfo modifier = true →
  tu_image_create device alloc_ok pCreateInfo modifier plane_layouts
  = Ok image →
  Forall (λ layout, lay_tile_mode layout = TILE6_LINEAR) (img_layout image).
Proof.
  intros Hroutine Hlinear Hcreate.
  apply (tu_image_create_Forall _ _ _ _ _ _ _ Hcreate); [done |].
  rewrite tu_image_tiling_policy_closed. cbn [fst snd]. rewrite Hlinear.
  intros k. by apply plane_built_tile_mode.
Qed.

(** X9.  Whatever the reason the policy has for giving up UBWC, a linear
    fallback or one of the exclusions, no plane layout of the image has
    UBWC, given a layout routine that does not switch UBWC on by itself. *)
Theorem tu_image_create_ubwc_excluded device alloc_ok pCreateInfo modifier
    plane_layouts image :
  fdl6_ubwc_only_if_asked →
  linear_forced pCreateInfo modifier || ubwc_excluded device pCreateInfo
  = true →
  tu_image_create device alloc_ok pCreateInfo modifier plane_layouts
  = Ok image →
  Forall (λ layout, lay_ubwc layout = false) (img_layout image).
Proof.
  intros Hroutine Hoff Hcreate.
  apply (tu_image_create_Forall _ _ _ _ _ _ _ Hcreate); [done |].
  rewrite tu_image_tiling_policy_closed. cbn [fst snd]. rewrite Hoff.
  intros k. by apply plane_built_ubwc_off.
Qed.

(** X10.  The tile mode of a created image, given a layout routine that
    keeps the tile mode it is handed.  Under a linear fallback every plane
    layout is linear and the modifier query answers LINEAR; without one
    every plane of the format has tile mode [TILE6_3] and the query never
    answers LINEAR. *)
Theorem tu_image_create_tile_mode device alloc_ok pCreateInfo modifier
    plane_layouts image :
  fdl6_keeps_tile_mode →
  tu_image_create device alloc_ok pCreateInfo modifier plane_layouts
  = Ok image →
  (linear_forced pCreateInfo modifier = true →
   Forall (λ layout, lay_tile_mode layout = TILE6_LINEAR) (img_layout image)
   ∧ tu_GetImageDrmFormatModifierPropertiesEXT image
       VK_STRUCTURE_TYPE_IMAGE_DRM_FORMAT_MODIFIER_PROPERTIES_EXT
     = Ok (VK_SUCCESS, DRM_FORMAT_MOD_LINEAR))
  ∧ (linear_forced pCreateInfo modifier = false →
     (∀ k, (k < Z.to_nat (tu6_plane_count (ci_format pCreateInfo)))%nat →
           lay_tile_mode (img_layout image !!! k) = TILE6_3)
     ∧ ∃ drmFormatModifier,
         tu_GetImageDrmFormatModifierPropertiesEXT image
           VK_STRUCTURE_TYPE_IMAGE_DRM_FORMAT_MODIFIER_PROPERTIES_EXT
         = Ok (VK_SUCCESS, drmFormatModifier)
         ∧ drmFormatModifier ≠ DRM_FORMAT_MOD_LINEAR).
Proof.
  intros Hroutine Hcreate. split; intros Hlinear.
  - pose proof (tu_image_create_linear_planes _ _ _ _ _ _ Hroutine Hlinear
                  Hcreate) as Hall.
    split; [exact Hall |].
    rewrite tu_GetImageDrmFormatModifierPropertiesEXT_cases. cbv zeta.
    by rewrite (tu_image_create_lookup _ _ _ _ _ _ _ 0 Hcreate Hall).
  - destruct (tu_image_create_built _ _ _ _ _ _ Hcreate)
      as (_ & _ & _ & _ & Hbuilt).
    rewrite tu_image_tiling_policy_closed in Hbuilt. cbn [fst snd] in Hbuilt.
    rewrite Hlinear in Hbuilt.
    assert (Htiled : ∀ k,
              (k < Z.to_nat (tu6_plane_count (ci_format pCreateInfo)))%nat →
              lay_tile_mode (img_layout image !!! k) = TILE6_3).
    { intros k Hk. eapply plane_built_tile_mode; [done |]. by apply Hbuilt. }
    split; [exact Htiled |].
    eexists. split; [apply tu_GetImageDrmFormatModifierPropertiesEXT_cases |].
    cbv zeta. rewrite (Htiled 0%nat).
    + cbn. by destruct (lay_ubwc_layer_size _ =? 0).
    + pose proof (tu6_plane_count_range (ci_format pCreateInfo)). lia.
Qed.

(** X11.  The stencil plane of a [VK_FORMAT_D32_SFLOAT_S8_UINT] image,
    plane 1, never has UBWC, whatever the policy decided for the depth
    plane: "no UBWC for separate stencil". *)
Theorem tu_image_create_separate_stencil device alloc_ok pCreateInfo modifier
    plane_layouts image :
  fdl6_ubwc_only_if_asked →
  ci_format pCreateInfo = VK_FORMAT_D32_SFLOAT_S8_UINT →
  tu_image_create device alloc_ok pCreateInfo modifier plane_layouts
  = Ok image →
  lay_ubwc (img_layout image !!! 1%nat) = false.
Proof.
  intros Hroutine Hformat Hcreate.
  destruct (tu_image_create_built _ _ _ _ _ _ Hcreate)
    as (_ & _ & _ & _ & Hbuilt).
  destruct (Hbuilt 1%nat) as (plane_layout & raw & Hpl & Hraw & Hlayout).
  { rewrite Hformat. cbn. lia. }
  apply (plane_built_ubwc_off pCreateInfo plane_layouts
           (tu_image_tiling_policy device pCreateInfo modifier).1);
    [done |].
  exists plane_layout, raw. split; [done |]. split; [| done].
  rewrite <- Hraw. unfold plane_layout_request, plane_adjust.
  by rewrite Hformat.
Qed.

(** *** Sizes and offsets *)

Lemma fold_left_MAX2_le (l : list Z) :
  ∀ a x, (x = a ∨ x ∈ l) → x ≤ fold_left MAX2 l a.
Proof.
  induction l as [| y l IH]; intros a x Hx; cbn [fold_left].
  - destruct Hx as [-> | Hx]; [lia | by apply elem_of_nil in Hx].
  - destruct Hx as [-> | Hx].
    + transitivity (MAX2 a y); [| apply IH; by left].
      unfold MAX2. destruct (Z.ltb_spec y a); lia.
    + apply elem_of_cons in Hx as [-> | Hx]; [| apply IH; by right].
      transitivity (MAX2 a y); [| apply IH; by left].
      unfold MAX2. destruct (Z.ltb_spec y a); lia.
Qed.

(** X12.  The total size of a created image is not negative and covers
    every plane of the format: no plane layout is larger than
    [image->total_size]. *)
Theorem tu_image_create_total_size device alloc_ok pCreateInfo modifier
    plane_layouts image :
  tu_image_create device alloc_ok pCreateInfo modifier plane_layouts
  = Ok image →
  0 ≤ img_total_size image
  ∧ ∀ k, (k < Z.to_nat (tu6_plane_count (ci_format pCreateInfo)))%nat →
         lay_size (img_layout image !!! k) ≤ img_total_size image.
Proof.
  intros Hcreate.
  destruct (tu_image_create_built _ _ _ _ _ _ Hcreate)
    as (_ & Hlen & _ & -> & _).
  unfold planes_total. split; [apply fold_left_MAX2_le; by left |].
  intros k Hk. apply fold_left_MAX2_le. right.
  apply list_elem_of_fmap. exists (img_layout image !!! k). split; [done |].
  apply list_elem_of_lookup. exists k.
  rewrite lookup_take_lt by done.
  apply list_lookup_lookup_total_lt.
  pose proof (tu6_plane_count_range (ci_format pCreateInfo)). lia.
Qed.

(** Aligning to 4096 below the 32-bit wrap-around. *)
Lemma ALIGN_POT_4096 (x : Z) :
  0 ≤ x ≤ 2 ^ 32 - 4096 →
  ALIGN_POT x 4096 mod 4096 = 0 ∧ x ≤ ALIGN_POT x 4096 < x + 4096.
Proof.
  intros Hx.
  assert (ALIGN_POT x 4096 = 4096 * ((x + 4095) / 4096)) as ->.
  { unfold ALIGN_POT, u32.
    replace (x + 4096 - 1) with (x + 4095) by lia.
    rewrite (Z.mod_small (x + 4095)) by lia.
    change (4096 - 1) with (Z.ones 12).
    rewrite <- Z.ldiff_land, Z.ldiff_ones_r by lia.
    rewrite Z.shiftl_mul_pow2, Z.shiftr_div_pow2 by lia.
    change (2 ^ 12) with 4096.
    pose proof (Z.mul_div_le (x + 4095) 4096).
    pose proof (Z.div_pos (x + 4095) 4096).
    rewrite Z.mod_small; lia. }
  split.
  - rewrite Z.mul_comm. apply Z.mod_mul. lia.
  - pose proof (Z.mul_div_le (x + 4095) 4096).
    pose proof (Z.mul_succ_div_gt (x + 4095) 4096). lia.
Qed.

(** X13.  Without explicit layouts, and as long as the planes so far end
    4096 bytes or more below 2^32, plane [k > 0] starts on a 4096-byte
    boundary at or behind the end of the planes before it and less than 4096
    bytes behind it: each of its slices lies at the offset the routine gave
    it plus that start, with the size the routine gave it. *)
Theorem tu_image_create_planes_stacked device alloc_ok pCreateInfo modifier
    image (k : nat) :
  let policy := tu_image_tiling_policy device pCreateInfo modifier in
  tu_image_create device alloc_ok pCreateInfo modifier None = Ok image →
  (0 < k < Z.to_nat (tu6_plane_count (ci_format pCreateInfo)))%nat →
  planes_total image k ≤ 2 ^ 32 - 4096 →
  ∃ raw offset,
    plane_layout_request pCreateInfo policy.1 policy.2 None k = Some raw
    ∧ offset mod 4096 = 0
    ∧ planes_total image k ≤ offset < planes_total image k + 4096
    ∧ ∀ l s,
        Z.of_nat l < ci_mipLevels pCreateInfo →
        lay_slices raw !! l = Some s →
        0 ≤ sl_offset s → sl_offset s + offset < 2 ^ 32 →
        lay_slices (img_layout image !!! k) !! l
        = Some {| sl_offset := sl_offset s + offset;
                  sl_size0 := sl_size0 s |}.
Proof.
  intros policy Hcreate Hk Htotal.
  destruct (tu_image_create_placed _ _ _ _ _ Hcreate k) as (raw & Hraw & Hlayout);
    [lia |].
  fold policy in Hraw.
  assert (0 ≤ planes_total image k) as Hpos.
  { unfold planes_total. apply fold_left_MAX2_le. by left. }
  destruct (ALIGN_POT_4096 (planes_total image k)) as [Haligned Hrange];
    [lia |].
  exists raw, (ALIGN_POT (planes_total image k) 4096).
  split; [done |]. split; [done |]. split; [done |].
  intros l s Hl Hs Hoff Hfit.
  rewrite (list_lookup_total_correct _ _ _ Hlayout).
  unfold place_plane.
  replace (0 <? k)%nat with true by (symmetry; apply Nat.ltb_lt; lia).
  rewrite bool_decide_eq_true_2 by done. cbn [andb].
  rewrite (shift_plane_slices _ _ _ _ _ Hl Hs). unfold add_offset.
  by rewrite u32_small by lia.
Qed.

(** *** Sharing *)

Lemma queue_family_mask_fold (indices : list Z) (n : Z) :
  0 ≤ TU_MAX_QUEUE_FAMILIES ≤ 32 →
  Forall (λ index, index = VK_QUEUE_FAMILY_EXTERNAL ∨ 0 ≤ index < 32) indices →
  0 ≤ n < 32 →
  ∀ mask,
    Z.testbit
      (fold_left
         (λ mask index,
            if index =? VK_QUEUE_FAMILY_EXTERNAL then
              Z.lor mask (u32 (u32 (Z.shiftl 1 TU_MAX_QUEUE_FAMILIES) - 1))
            else Z.lor mask (u32 (Z.shiftl 1 index)))
         indices mask) n = true
    ↔ Z.testbit mask n = true
      ∨ n ∈ indices
      ∨ (VK_QUEUE_FAMILY_EXTERNAL ∈ indices ∧ n < TU_MAX_QUEUE_FAMILIES).
Proof.
  intros Hmax Hindices Hn.
  assert (Hall : Z.testbit
                   (u32 (u32 (Z.shiftl 1 TU_MAX_QUEUE_FAMILIES) - 1)) n = true
                 ↔ n < TU_MAX_QUEUE_FAMILIES).
  { assert (u32 (u32 (Z.shiftl 1 TU_MAX_QUEUE_FAMILIES) - 1)
            = Z.ones TU_MAX_QUEUE_FAMILIES) as ->.
    { rewrite Z.shiftl_1_l, Z.ones_equiv. unfold u32.
      destruct (Z.eq_dec TU_MAX_QUEUE_FAMILIES 32) as [-> | Hne]; [done |].
      assert (0 < 2 ^ TU_MAX_QUEUE_FAMILIES < 2 ^ 32).
      { split; [apply Z.pow_pos_nonneg; lia |].
        apply Z.pow_lt_mono_r; lia. }
      rewrite (Z.mod_small (2 ^ _)) by lia. rewrite Z.mod_small; lia. }
    rewrite Z.testbit_ones by lia.
    destruct (Z.leb_spec 0 n), (Z.ltb_spec n TU_MAX_QUEUE_FAMILIES);
      cbn; split; intros; try done; lia. }
  assert (Hone : ∀ index, 0 ≤ index < 32 →
            Z.testbit (u32 (Z.shiftl 1 index)) n = true ↔ n = index).
  { intros index Hindex. unfold u32.
    rewrite Z.mod_pow2_bits_low by lia.
    rewrite Z.shiftl_1_l, Z.pow2_bits_eqb by lia.
    destruct (Z.eqb_spec index n); split; intros; try done; lia. }
  induction Hindices as [| index indices Hindex Hrest IH]; intros mask;
    cbn [fold_left].
  - split; [by left |]. intros [? | [Hin | [Hin _]]]; [done | |];
      by apply elem_of_nil in Hin.
  - rewrite IH. rewrite !elem_of_cons.
    destruct (Z.eqb_spec index VK_QUEUE_FAMILY_EXTERNAL) as [-> | Hne].
    + rewrite Z.lor_spec, orb_true_iff, Hall.
      unfold VK_QUEUE_FAMILY_EXTERNAL at 2. split.
      * intros [[? | ?] | [? | [? ?]]]; auto 6.
      * intros [? | [[? | ?] | [_ ?]]]; auto 6; lia.
    + destruct Hindex as [? | Hindex]; [done |].
      rewrite Z.lor_spec, orb_true_iff, (Hone index Hindex). split.
      * intros [[? | ?] | [? | [? ?]]]; auto 6.
      * intros [? | [[? | ?] | [[? | ?] ?]]]; auto 6; congruence.
Qed.

(** X14.  The sharing fields of a created image.  An exclusive image has no
    queue-family mask.  In the mask of a concurrently shared image, bit [n]
    is set exactly when [n] is one of the queue family indices, or when
    [VK_QUEUE_FAMILY_EXTERNAL] is one of them and [n] is below
    [TU_MAX_QUEUE_FAMILIES]; indices are below 32. *)
Theorem tu_image_create_queue_family_mask device alloc_ok pCreateInfo modifier
    plane_layouts image (n : Z) :
  0 ≤ TU_MAX_QUEUE_FAMILIES ≤ 32 →
  Forall (λ index, index = VK_QUEUE_FAMILY_EXTERNAL ∨ 0 ≤ index < 32)
    (ci_pQueueFamilyIndices pCreateInfo) →
  0 ≤ n < 32 →
  tu_image_create device alloc_ok pCreateInfo modifier plane_layouts
  = Ok image →
  match ci_sharingMode pCreateInfo with
  | VK_SHARING_MODE_EXCLUSIVE =>
      img_exclusive image = true ∧ img_queue_family_mask image = 0
  | VK_SHARING_MODE_CONCURRENT =>
      img_exclusive image = false
      ∧ (Z.testbit (img_queue_family_mask image) n = true
         ↔ n ∈ ci_pQueueFamilyIndices pCreateInfo
           ∨ (VK_QUEUE_FAMILY_EXTERNAL ∈ ci_pQueueFamilyIndices pCreateInfo
              ∧ n < TU_MAX_QUEUE_FAMILIES))
  end.
Proof.
  intros Hmax Hindices Hn Hcreate.
  destruct (tu_image_create_built _ _ _ _ _ _ Hcreate) as (Hheader & _).
  unfold image_header in Hheader.
  injection Hheader as _ _ _ _ _ _ _ _ _ Hmask Hexclusive _ _ _ _.
  rewrite Hmask, Hexclusive. cbn [tu_image_init img_queue_family_mask
                                  img_exclusive].
  destruct (ci_sharingMode pCreateInfo); [done |].
  split; [done |]. unfold queue_family_mask_of.
  rewrite (queue_family_mask_fold _ n Hmax Hindices Hn 0), Z.bits_0.
  split; [intros [? | ?]; done | by right].
Qed.

(** ** [tu_CreateImage] *)

Lemma pick_modifier_fold (modifiers : list Z) :
  ∀ modifier,
    fold_left
      (λ modifier m,
         if m =? DRM_FORMAT_MOD_QCOM_COMPRESSED then
           DRM_FORMAT_MOD_QCOM_COMPRESSED
         else modifier)
      modifiers modifier
    = if bool_decide (DRM_FORMAT_MOD_QCOM_COMPRESSED ∈ modifiers) then
        DRM_FORMAT_MOD_QCOM_COMPRESSED
      else modifier.
Proof.
  induction modifiers as [| m modifiers IH]; intros modifier; cbn [fold_left].
  - rewrite bool_decide_eq_false_2; [done | apply not_elem_of_nil].
  - rewrite IH.
    destruct (Z.eqb_spec m DRM_FORMAT_MOD_QCOM_COMPRESSED) as [-> | Hne].
    + rewrite (bool_decide_eq_true_2 (_ ∈ _ :: _))
        by (apply elem_of_cons; by left).
      by destruct (bool_decide _).
    + destruct (decide (DRM_FORMAT_MOD_QCOM_COMPRESSED ∈ modifiers))
        as [Hin | Hout].
      * rewrite (bool_decide_eq_true_2 _ Hin).
        rewrite bool_decide_eq_true_2; [done | apply elem_of_cons; by right].
      * rewrite (bool_decide_eq_false_2 _ Hout).
        rewrite bool_decide_eq_false_2; [done |].
        intros [? | ?]%elem_of_cons; congruence.
Qed.

(** X15.  The loop over the modifier list picks COMPRESSED when the list
    holds it, wherever it stands and whatever else the list holds, and
    LINEAR otherwise, the empty list included. *)
Theorem pick_modifier_compressed (modifiers : list Z) :
  pick_modifier modifiers
  = if bool_decide (DRM_FORMAT_MOD_QCOM_COMPRESSED ∈ modifiers) then
      DRM_FORMAT_MOD_QCOM_COMPRESSED
    else DRM_FORMAT_MOD_LINEAR.
Proof. unfold pick_modifier. apply pick_modifier_fold. Qed.

(** X16.  [tu_CreateImage] returns the invalid-plane-layout error only for
    an image with DRM-format-modifier tiling whose chain holds no modifier
    list and holds an explicit-modifier structure with plane layouts; the
    modifier of that structure is LINEAR or COMPRESSED, and the error is the
    one [tu_image_create] returns for it. *)
Theorem tu_CreateImage_invalid_layout device alloc_ok pCreateInfo pNext :
  tu_CreateImage device alloc_ok pCreateInfo pNext
  = Error VK_ERROR_INVALID_DRM_FORMAT_MODIFIER_PLANE_LAYOUT_EXT →
  ci_tiling pCreateInfo = VK_IMAGE_TILING_DRM_FORMAT_MODIFIER_EXT
  ∧ pn_mod_info pNext = None
  ∧ ∃ modifier layouts,
      pn_drm_explicit_info pNext = Some (modifier, Some layouts)
      ∧ (modifier = DRM_FORMAT_MOD_LINEAR
         ∨ modifier = DRM_FORMAT_MOD_QCOM_COMPRESSED)
      ∧ tu_image_create device alloc_ok pCreateInfo modifier (Some layouts)
        = Error VK_ERROR_INVALID_DRM_FORMAT_MODIFIER_PLANE_LAYOUT_EXT.
Proof.
  unfold tu_CreateImage, tu_CreateImage_args. intros Herr.
  destruct (ci_tiling pCreateInfo).
  - destruct (pn_wsi_info pNext) as [[] |]; cbn in Herr;
      by apply tu_image_create_no_explicit in Herr.
  - destruct (pn_wsi_info pNext) as [[] |]; cbn in Herr;
      by apply tu_image_create_no_explicit in Herr.
  - split; [done |].
    destruct (pn_mod_info pNext) as [modifiers |].
    + cbn in Herr. by apply tu_image_create_no_explicit in Herr.
    + split; [done |].
      destruct (pn_drm_explicit_info pNext) as [[modifier pPlaneLayouts] |];
        [| done].
      cbn in Herr.
      destruct ((modifier =? DRM_FORMAT_MOD_LINEAR)
                || (modifier =? DRM_FORMAT_MOD_QCOM_COMPRESSED)) eqn:Hmod;
        [| done].
      cbn in Herr.
      destruct pPlaneLayouts as [layouts |];
        [| by apply tu_image_create_no_explicit in Herr].
      exists modifier, layouts. split; [done |]. split; [| done].
      apply orb_prop in Hmod as [Hmod | Hmod]; apply Z.eqb_eq in Hmod; auto.
Qed.

(** X17.  An image created through [tu_CreateImage] from a modifier list
    without COMPRESSED, or for WSI scanout without modifier tiling, is
    linear in every plane layout, and the modifier query answers LINEAR for
    it; the layout routine keeps the tile mode it is handed. *)
Theorem tu_CreateImage_linear device alloc_ok pCreateInfo pNext image :
  fdl6_keeps_tile_mode →
  (ci_tiling pCreateInfo = VK_IMAGE_TILING_DRM_FORMAT_MODIFIER_EXT
   ∧ ∃ modifiers,
       pn_mod_info pNext = Some modifiers
       ∧ DRM_FORMAT_MOD_QCOM_COMPRESSED ∉ modifiers)
  ∨ (ci_tiling pCreateInfo ≠ VK_IMAGE_TILING_DRM_FORMAT_MODIFIER_EXT
     ∧ pn_wsi_info pNext = Some true) →
  tu_CreateImage device alloc_ok pCreateInfo pNext = Ok image →
  Forall (λ layout, lay_tile_mode layout = TILE6_LINEAR) (img_layout image)
  ∧ tu_GetImageDrmFormatModifierPropertiesEXT image
      VK_STRUCTURE_TYPE_IMAGE_DRM_FORMAT_MODIFIER_PROPERTIES_EXT
    = Ok (VK_SUCCESS, DRM_FORMAT_MOD_LINEAR).
Proof.
  intros Hroutine Hwhy Hcreate.
  assert (tu_image_create device alloc_ok pCreateInfo DRM_FORMAT_MOD_LINEAR
            None = Ok image) as Hlinear.
  { rewrite <- Hcreate. unfold tu_CreateImage, tu_CreateImage_args.
    destruct Hwhy as [(-> & modifiers & -> & Hout) | (Htiling & ->)].
    - cbn. unfold pick_modifier. rewrite pick_modifier_fold.
      by rewrite bool_decide_eq_false_2.
    - by destruct (ci_tiling pCreateInfo). }
  assert (linear_forced pCreateInfo DRM_FORMAT_MOD_LINEAR = true) as Hforced.
  { unfold linear_forced. rewrite Z.eqb_refl.
    by destruct (ci_tiling pCreateInfo). }
  pose proof (tu_image_create_linear_planes _ _ _ _ _ _ Hroutine Hforced
                Hlinear) as Hall.
  split; [exact Hall |].
  rewrite tu_GetImageDrmFormatModifierPropertiesEXT_cases. cbv zeta.
  by rewrite (tu_image_create_lookup _ _ _ _ _ _ _ 0 Hlinear Hall).
Qed.

(** ** The subresource layout query, continued *)

(** X18.  On a level with UBWC, [tu_GetImageSubresourceLayout] fails its
    assertion exactly when the image has more than one mip level or more
    than one layer; when it returns, the offset it reports is 0, and size
    and depth pitch are the size of the level's slice. *)
Theorem tu_GetImageSubresourceLayout_ubwc (image : tu_image)
    (pSubresource : VkImageSubresource) :
  let layout :=
    img_layout image !!!
      Z.to_nat (tu6_plane_index (img_vk_format image)
                  (isr_aspectMask pSubresource)) in
  fdl_ubwc_enabled layout (isr_mipLevel pSubresource) = true →
  (tu_GetImageSubresourceLayout image pSubresource = Abort
   ↔ ¬ (img_level_count image = 1 ∧ img_layer_count image = 1))
  ∧ ∀ pLayout,
      tu_GetImageSubresourceLayout image pSubresource = Ok pLayout →
      srl_offset pLayout = 0
      ∧ srl_size pLayout
        = sl_size0 (lay_slices layout
                      !!! Z.to_nat (isr_mipLevel pSubresource))
      ∧ srl_depthPitch pLayout = srl_size pLayout.
Proof.
  intros layout Hubwc. unfold tu_GetImageSubresourceLayout. fold layout.
  rewrite Hubwc.
  destruct (Z.eqb_spec (img_level_count image) 1) as [Hlevels | Hlevels],
    (Z.eqb_spec (img_layer_count image) 1) as [Hlayers | Hlayers]; cbn.
  - split; [split; [done | intros Hnot; by destruct Hnot] |].
    intros pLayout [= <-]. done.
  - split; [split; [intros _ [_ ?]; done | done] | done].
  - split; [split; [intros _ [? _]; done | done] | done].
  - split; [split; [intros _ [? _]; done | done] | done].
Qed.

(** X19.  For an image [tu_image_create] produced under a condition that
    rules UBWC out, the query returns for every subresource, whatever the
    level and layer counts, and reports the surface offset, the pitch and
    the layer stride of the plane the aspect selects; the plane index is
    within [image->layout].  The layout routine does not switch UBWC on by
    itself and the accessor reports UBWC only for a layout that has it. *)
Theorem tu_GetImageSubresourceLayout_created device alloc_ok pCreateInfo
    modifier plane_layouts image (pSubresource : VkImageSubresource) :
  fdl6_ubwc_only_if_asked →
  fdl_ubwc_enabled_sound →
  linear_forced pCreateInfo modifier || ubwc_excluded device pCreateInfo
  = true →
  tu_image_create device alloc_ok pCreateInfo modifier plane_layouts
  = Ok image →
  let layout :=
    img_layout image !!!
      Z.to_nat (tu6_plane_index (img_vk_format image)
                  (isr_aspectMask pSubresource)) in
  ∃ pLayout,
    tu_GetImageSubresourceLayout image pSubresource = Ok pLayout
    ∧ srl_offset pLayout
      = fdl_surface_offset layout (isr_mipLevel pSubresource)
          (isr_arrayLayer pSubresource)
    ∧ srl_rowPitch pLayout = fdl_pitch layout (isr_mipLevel pSubresource)
    ∧ srl_arrayPitch pLayout
      = fdl_layer_stride layout (isr_mipLevel pSubresource).
Proof.
  intros Hroutine Haccessor Hoff Hcreate layout.
  assert (Forall (λ layout, lay_ubwc layout = false) (img_layout image))
    as Hall.
  { apply (tu_image_create_Forall _ _ _ _ _ _ _ Hcreate); [done |].
    rewrite tu_image_tiling_policy_closed. cbn [fst snd]. rewrite Hoff.
    intros k. by apply plane_built_ubwc_off. }
  assert (lay_ubwc layout = false) as Hplane.
  { apply (tu_image_create_lookup _ _ _ _ _ _ _ _ Hcreate Hall).
    apply tu6_plane_index_range. }
  assert (fdl_ubwc_enabled layout (isr_mipLevel pSubresource) = false)
    as Hubwc.
  { apply not_true_is_false. intros Hon.
    apply Haccessor in Hon. congruence. }
  unfold tu_GetImageSubresourceLayout. fold layout. rewrite Hubwc.
  eexists. split; [reflexivity |]. done.
Qed.

End ImageCreateOutcomes.

(** ** Image views, continued *)

Section ImageViewWords.
Context `{FormatDb, FdlLayout, TuPrivate, A6xxRegs}.

Ltac descriptor_words :=
  cbn [A6XX_TEX_CONST_DWORDS replicate insert list_insert alter list_alter
       lookup_total list_lookup_total or_word].

(** Clear the descriptor fields that do not meet the bits asked for. *)
Ltac land_fields :=
  unfold A6XX_TEX_CONST_0_TILE_MODE, A6XX_TEX_CONST_0_FMT,
    A6XX_TEX_CONST_0_SAMPLES, A6XX_TEX_CONST_0_SWAP, A6XX_TEX_CONST_0_MIPLVLS,
    A6XX_TEX_CONST_3_ARRAY_PITCH, A6XX_TEX_CONST_3_MIN_LAYERSZ;
  rewrite ?Z.land_lor_distr_l;
  repeat rewrite field_land_disjoint by reflexivity;
  repeat rewrite tu6_texswiz_land by reflexivity.

(** *** When a view is initialised *)

Lemma tu_image_view_init_no_error image iview pCreateInfo limited e :
  tu_image_view_init image iview pCreateInfo limited ≠ Error e.
Proof.
  unfold tu_image_view_init. cbv zeta.
  destruct (view_range_assert _ _); [| done]. cbn [assert mbind result_bind].
  destruct (img_bo image); [| done]. cbn [mbind result_bind].
  destruct (_ || _).
  - destruct (tu_get_levelCount _ _ =? 1); [| done].
    cbn [assert mbind result_bind].
    destruct (vci_viewType pCreateInfo); try done;
      cbn [assert mbind result_bind];
      by destruct (negb _).
  - repeat match goal with
           | |- context [if ?c then _ else _] => destruct c
           end; done.
Qed.

(** X20.  [tu_image_view_init] returns exactly when the image is bound to
    memory and the assertions on the view's path hold: the layer range, and
    for a multi-planar format one mip level, a view type other than 3D and
    no storage usage.  It has no error to return: every other call ends in
    a failed assertion or a read through the null [image->bo]. *)
Theorem tu_image_view_init_returns_iff image iview pCreateInfo limited :
  ((∃ iview', tu_image_view_init image iview pCreateInfo limited = Ok iview')
   ↔ is_Some (img_bo image) ∧ view_init_asserts image pCreateInfo = true)
  ∧ ∀ e, tu_image_view_init image iview pCreateInfo limited ≠ Error e.
Proof.
  split; [| apply tu_image_view_init_no_error].
  split.
  - intros [iview' Hinit]. revert Hinit.
    unfold tu_image_view_init, view_init_asserts, ycbcr_view_asserts.
    cbv zeta. intros Hinit.
    apply assert_Ok in Hinit as [Hrange Hinit].
    apply bind_Ok in Hinit as (bo & Hbo & Hinit).
    split; [by destruct (img_bo image) |].
    destruct (_ || _); [| done].
    apply assert_Ok in Hinit as [Hlevels Hinit].
    apply assert_Ok in Hinit as [Htype Hinit].
    apply assert_Ok in Hinit as [Hstorage _].
    by rewrite Hrange, Hlevels, Htype, Hstorage.
  - intros [[bo Hbo] Hasserts].
    by apply (tu_image_view_init_returns _ _ _ _ bo).
Qed.

(** *** What the view is left with *)

(** A single-plane view: the descriptor and the cached addresses, sizes and
    pitch. *)
Lemma tu_image_view_init_single image iview pCreateInfo limited iview' :
  is_ycbcr_420 (view_format pCreateInfo) = false →
  tu_image_view_init image iview pCreateInfo limited = Ok iview' →
  ∃ bo,
    img_bo image = Some bo
    ∧ let range := vci_subresourceRange pCreateInfo in
      let layout := view_layout image pCreateInfo in
      let base_addr :=
        image_addr bo image
          (fdl_surface_offset layout (sr_baseMipLevel range)
             (sr_baseArrayLayer range)) in
      let ubwc_addr :=
        image_addr bo image
          (fdl_ubwc_offset layout (sr_baseMipLevel range)
             (sr_baseArrayLayer range)) in
      iv_descriptor iview'
      = tex_const_3d image layout (vci_viewType pCreateInfo)
          (tex_const_ubwc layout
             (u_minify (lay_width0 layout) (sr_baseMipLevel range))
             (u_minify (lay_height0 layout) (sr_baseMipLevel range))
             ubwc_addr (fdl_ubwc_pitch layout (sr_baseMipLevel range))
             (fdl_ubwc_enabled layout (sr_baseMipLevel range))
             (tex_const_head image pCreateInfo limited base_addr))
      ∧ iv_image iview' = vci_image pCreateInfo
      ∧ iv_base_addr iview' = base_addr
      ∧ iv_ubwc_addr iview' = ubwc_addr
      ∧ iv_layer_size iview' = fdl_layer_stride layout (sr_baseMipLevel range)
      ∧ iv_ubwc_layer_size iview' = lay_ubwc_layer_size layout
      ∧ iv_PITCH iview'
        = A6XX_RB_DEPTH_BUFFER_PITCH (fdl_pitch layout (sr_baseMipLevel range)).
Proof.
  unfold is_ycbcr_420, tu_image_view_init. cbv zeta. intros Hformat Hinit.
  apply assert_Ok in Hinit as [_ Hinit].
  apply bind_Ok in Hinit as (bo & Hbo & Hinit).
  destruct (img_bo image) as [bo' |]; [| discriminate].
  injection Hbo as ->. exists bo. split; [done |].
  rewrite Hformat in Hinit.
  repeat match type of Hinit with
         | context [if ?c then _ else _] => destruct c
         end;
    injection Hinit as <-;
    cbn [iv_descriptor iv_image iv_base_addr iv_ubwc_addr iv_layer_size
         iv_ubwc_layer_size iv_PITCH set_iv_texture set_iv_source
         set_iv_storage_descriptor set_iv_attachment set_iv_stencil];
    repeat split.
Qed.

(** A view of a multi-planar format: the descriptor. *)
Lemma tu_image_view_init_ycbcr_descriptor image iview pCreateInfo limited
    iview' :
  is_ycbcr_420 (view_format pCreateInfo) = true →
  tu_image_view_init image iview pCreateInfo limited = Ok iview' →
  ∃ bo,
    img_bo image = Some bo
    ∧ let range := vci_subresourceRange pCreateInfo in
      let layout := view_layout image pCreateInfo in
      iv_descriptor iview'
      = tex_const_ycbcr bo image pCreateInfo
          (fdl_ubwc_enabled layout (sr_baseMipLevel range))
          (tex_const_head image pCreateInfo limited
             (image_addr bo image
                (fdl_surface_offset layout (sr_baseMipLevel range)
                   (sr_baseArrayLayer range)))).
Proof.
  unfold is_ycbcr_420, tu_image_view_init. cbv zeta. intros Hformat Hinit.
  apply assert_Ok in Hinit as [_ Hinit].
  apply bind_Ok in Hinit as (bo & Hbo & Hinit).
  destruct (img_bo image) as [bo' |]; [| discriminate].
  injection Hbo as ->. exists bo. split; [done |].
  rewrite Hformat in Hinit.
  apply assert_Ok in Hinit as [_ Hinit].
  apply assert_Ok in Hinit as [_ Hinit].
  apply assert_Ok in Hinit as [_ Hinit].
  by injection Hinit as <-.
Qed.

(** A single-plane view whose format supports colour: the fields behind the
    colour check. *)
Lemma tu_image_view_init_color image iview pCreateInfo limited iview' :
  is_ycbcr_420 (view_format pCreateInfo) = false →
  has_bits
    (nf_supported
       (tu6_format_texture (view_format pCreateInfo)
          (lay_tile_mode (view_layout image pCreateInfo)))) FMT_COLOR = true →
  tu_image_view_init image iview pCreateInfo limited = Ok iview' →
  ∃ bo,
    img_bo image = Some bo
    ∧ let range := vci_subresourceRange pCreateInfo in
      let level := sr_baseMipLevel range in
      let layer := sr_baseArrayLayer range in
      let layout := view_layout image pCreateInfo in
      let format := view_format pCreateInfo in
      let ubwc_enabled := fdl_ubwc_enabled layout level in
      iv_storage_descriptor iview'
      = (if has_bits (img_usage image) VK_IMAGE_USAGE_STORAGE_BIT then
           ibo_descriptor layout (vci_viewType pCreateInfo)
             (view_fmt (tu6_format_texture format (lay_tile_mode layout))
                format ubwc_enabled)
             (fdl_tile_mode layout level)
             (u_minify (lay_width0 layout) level)
             (u_minify (lay_height0 layout) level)
             (fdl_pitch layout level) (fdl_layer_stride layout level)
             (image_addr bo image (fdl_surface_offset layout level layer))
             (view_storage_depth image pCreateInfo)
             (image_addr bo image (fdl_ubwc_offset layout level layer))
             (fdl_ubwc_pitch layout level) ubwc_enabled
         else iv_storage_descriptor iview)
      ∧ (if img_vk_format image =? VK_FORMAT_D32_SFLOAT_S8_UINT then
           let stencil := img_layout image !!! 1%nat in
           iv_stencil_base_addr iview'
           = image_addr bo image (fdl_surface_offset stencil level layer)
           ∧ iv_stencil_layer_size iview' = fdl_layer_stride stencil level
           ∧ iv_stencil_PITCH iview'
             = A6XX_RB_STENCIL_BUFFER_PITCH (fdl_pitch stencil level)
         else
           iv_stencil_base_addr iview' = iv_stencil_base_addr iview
           ∧ iv_stencil_layer_size iview' = iv_stencil_layer_size iview
           ∧ iv_stencil_PITCH iview' = iv_stencil_PITCH iview)
      ∧ iv_ubwc_enabled iview' = ubwc_enabled.
Proof.
  unfold is_ycbcr_420, tu_image_view_init. cbv zeta.
  intros Hformat Hcolor Hinit.
  apply assert_Ok in Hinit as [_ Hinit].
  apply bind_Ok in Hinit as (bo & Hbo & Hinit).
  destruct (img_bo image) as [bo' |]; [| discriminate].
  injection Hbo as ->. exists bo. split; [done |].
  rewrite Hformat, Hcolor in Hinit. cbn [negb] in Hinit.
  destruct (has_bits (img_usage image) VK_IMAGE_USAGE_STORAGE_BIT),
    (img_vk_format image =? VK_FORMAT_D32_SFLOAT_S8_UINT);
    injection Hinit as <-; repeat split.
Qed.

(** A single-plane view is initialised under the layer-range assertion. *)
Lemma tu_image_view_init_single_returns image iview pCreateInfo limited bo :
  is_ycbcr_420 (view_format pCreateInfo) = false →
  img_bo image = Some bo →
  view_range_assert image (vci_subresourceRange pCreateInfo) = true →
  ∃ iview', tu_image_view_init image iview pCreateInfo limited = Ok iview'.
Proof.
  intros Hformat Hbo Hrange.
  apply (tu_image_view_init_returns _ _ _ _ bo); [done |].
  unfold view_init_asserts. unfold is_ycbcr_420 in Hformat.
  cbv zeta. by rewrite Hformat.
Qed.

(** *** The words of the descriptors *)

Lemma tex_const_single_bits image pCreateInfo limited layout width height
    ubwc_addr ubwc_pitch ubwc_enabled viewType base_addr :
  let descriptor :=
    tex_const_3d image layout viewType
      (tex_const_ubwc layout width height ubwc_addr ubwc_pitch ubwc_enabled
         (tex_const_head image pCreateInfo limited base_addr)) in
  Z.land (descriptor !!! 0%nat) A6XX_TEX_CONST_0_SRGB
  = COND (vk_format_is_srgb (view_format pCreateInfo)) A6XX_TEX_CONST_0_SRGB
  ∧ Z.land (descriptor !!! 3%nat) A6XX_TEX_CONST_3_FLAG
    = COND ubwc_enabled A6XX_TEX_CONST_3_FLAG
  ∧ Z.land (descriptor !!! 3%nat) A6XX_TEX_CONST_3_TILE_ALL
    = COND ubwc_enabled A6XX_TEX_CONST_3_TILE_ALL.
Proof.
  unfold tex_const_3d, tex_const_ubwc, tex_const_head. cbv zeta.
  destruct (fdl6_get_ubwc_blockwidth layout) as [block_width block_height].
  destruct ubwc_enabled, viewType; descriptor_words;
    (split; [| split]); land_fields;
    try reflexivity; by destruct (vk_format_is_srgb _).
Qed.

Lemma tex_const_ycbcr_bits bo image pCreateInfo limited ubwc_enabled base_addr :
  let descriptor :=
    tex_const_ycbcr bo image pCreateInfo ubwc_enabled
      (tex_const_head image pCreateInfo limited base_addr) in
  Z.land (descriptor !!! 0%nat) A6XX_TEX_CONST_0_SRGB
  = COND (vk_format_is_srgb (view_format pCreateInfo)) A6XX_TEX_CONST_0_SRGB
  ∧ Z.land (descriptor !!! 3%nat) A6XX_TEX_CONST_3_FLAG
    = COND ubwc_enabled A6XX_TEX_CONST_3_FLAG
  ∧ Z.land (descriptor !!! 3%nat) A6XX_TEX_CONST_3_TILE_ALL
    = A6XX_TEX_CONST_3_TILE_ALL.
Proof.
  unfold tex_const_ycbcr, tex_const_head. cbv zeta.
  destruct (vci_conversion pCreateInfo) as [c |];
    [destruct (conv_chroma_offsets c !!! 0%nat),
       (conv_chroma_offsets c !!! 1%nat) |];
    destruct ubwc_enabled; descriptor_words;
    (split; [| split]); land_fields;
    try reflexivity; by destruct (vk_format_is_srgb _).
Qed.

Lemma tex_const_single_addr image pCreateInfo limited layout width height
    ubwc_addr ubwc_pitch ubwc_enabled viewType base_addr :
  let descriptor :=
    tex_const_3d image layout viewType
      (tex_const_ubwc layout width height ubwc_addr ubwc_pitch ubwc_enabled
         (tex_const_head image pCreateInfo limited base_addr)) in
  descriptor !!! 4%nat = u32 base_addr
  ∧ descriptor !!! 5%nat
    = u32 (Z.lor (Z.shiftr base_addr 32)
                 (A6XX_TEX_CONST_5_DEPTH (view_depth image pCreateInfo)))
  ∧ (ubwc_enabled = true →
     descriptor !!! 7%nat = u32 ubwc_addr
     ∧ descriptor !!! 8%nat = u32 (Z.shiftr ubwc_addr 32)).
Proof.
  unfold tex_const_3d, tex_const_ubwc, tex_const_head. cbv zeta.
  destruct (fdl6_get_ubwc_blockwidth layout) as [block_width block_height].
  destruct ubwc_enabled, viewType; descriptor_words; repeat split; done.
Qed.

Lemma ibo_descriptor_words layout viewType fmt_fmt fmt_tile_mode width height
    pitch layer_size base_addr storage_depth ubwc_addr ubwc_pitch ubwc_enabled :
  let sd :=
    ibo_descriptor layout viewType fmt_fmt fmt_tile_mode width height pitch
      layer_size base_addr storage_depth ubwc_addr ubwc_pitch ubwc_enabled in
  length sd = A6XX_TEX_CONST_DWORDS
  ∧ sd !!! 4%nat = u32 base_addr
  ∧ sd !!! 5%nat
    = u32 (Z.lor (Z.shiftr base_addr 32) (A6XX_IBO_5_DEPTH storage_depth))
  ∧ Z.land (sd !!! 3%nat) A6XX_IBO_3_FLAG = COND ubwc_enabled A6XX_IBO_3_FLAG.
Proof.
  unfold ibo_descriptor. cbv zeta.
  destruct ubwc_enabled; descriptor_words; repeat split;
    unfold A6XX_IBO_3_ARRAY_PITCH; rewrite ?Z.land_lor_distr_l;
    rewrite field_land_disjoint by reflexivity; reflexivity.
Qed.

Lemma image_addr_range bo image offset :
  0 ≤ image_addr bo image offset < 2 ^ 64.
Proof. unfold image_addr, u64. apply Z.mod_pos_bound. lia. Qed.

(** X21.  The flag bits of the texture descriptor of an initialised view,
    single-plane or multi-planar.  The [SRGB] bit of word 0 is set exactly
    when the view's format is sRGB; the [FLAG] bit of word 3 exactly when
    UBWC is enabled on the view's level; the [TILE_ALL] bit of word 3
    exactly when UBWC is enabled or the format is a YCbCr 4:2:0 one.  No
    other field of the two words reaches these bits. *)
Theorem tu_image_view_init_flag_bits image iview pCreateInfo limited bo :
  img_bo image = Some bo →
  view_init_asserts image pCreateInfo = true →
  let format := view_format pCreateInfo in
  let ubwc_enabled :=
    fdl_ubwc_enabled (view_layout image pCreateInfo)
      (sr_baseMipLevel (vci_subresourceRange pCreateInfo)) in
  ∃ iview',
    tu_image_view_init image iview pCreateInfo limited = Ok iview'
    ∧ Z.land (iv_descriptor iview' !!! 0%nat) A6XX_TEX_CONST_0_SRGB
      = COND (vk_format_is_srgb format) A6XX_TEX_CONST_0_SRGB
    ∧ Z.land (iv_descriptor iview' !!! 3%nat) A6XX_TEX_CONST_3_FLAG
      = COND ubwc_enabled A6XX_TEX_CONST_3_FLAG
    ∧ Z.land (iv_descriptor iview' !!! 3%nat) A6XX_TEX_CONST_3_TILE_ALL
      = COND (ubwc_enabled || is_ycbcr_420 format) A6XX_TEX_CONST_3_TILE_ALL.
Proof.
  intros Hbo Hasserts format ubwc_enabled. subst format.
  destruct (tu_image_view_init_returns image iview pCreateInfo limited bo
              Hbo Hasserts) as [iview' Hinit].
  exists iview'. split; [done |].
  destruct (is_ycbcr_420 (view_format pCreateInfo)) eqn:Hformat.
  - apply tu_image_view_init_ycbcr_descriptor in Hinit as (bo' & _ & ->);
      [| done].
    rewrite orb_true_r. apply tex_const_ycbcr_bits.
  - apply tu_image_view_init_single in Hinit as (bo' & _ & -> & _); [| done].
    rewrite orb_false_r. apply tex_const_single_bits.
Qed.

Lemma tex_const_ycbcr_planes bo image pCreateInfo limited ubwc_enabled
    base_addr :
  tu_get_levelCount image (vci_subresourceRange pCreateInfo) = 1 →
  let range := vci_subresourceRange pCreateInfo in
  let descriptor :=
    tex_const_ycbcr bo image pCreateInfo ubwc_enabled
      (tex_const_head image pCreateInfo limited base_addr) in
  let plane := ycbcr_base_addr bo image range ubwc_enabled in
  Z.land (descriptor !!! 0%nat) 0x000f0000
  = Z.lor (COND (chroma_midpoint (vci_conversion pCreateInfo) 0)
             A6XX_TEX_CONST_0_CHROMA_MIDPOINT_X)
          (COND (chroma_midpoint (vci_conversion pCreateInfo) 1)
             A6XX_TEX_CONST_0_CHROMA_MIDPOINT_Y)
  ∧ descriptor !!! 4%nat = u32 (plane 0%nat)
  ∧ descriptor !!! 6%nat
    = A6XX_TEX_CONST_6_PLANE_PITCH
        (fdl_pitch (img_layout image !!! 1%nat) (sr_baseMipLevel range))
  ∧ qword (descriptor !!! 7%nat) (descriptor !!! 8%nat) = plane 1%nat
  ∧ qword (descriptor !!! 9%nat) (descriptor !!! 10%nat) = plane 2%nat.
Proof.
  intros Hlevels. unfold tex_const_ycbcr, tex_const_head, chroma_midpoint.
  cbv zeta. rewrite Hlevels.
  change (A6XX_TEX_CONST_0_MIPLVLS (u32 (1 - 1))) with 0.
  assert (Hplane : ∀ i,
            0 ≤ ycbcr_base_addr bo image (vci_subresourceRange pCreateInfo)
                  ubwc_enabled i < 2 ^ 64).
  { intros i. unfold ycbcr_base_addr.
    destruct ubwc_enabled; unfold image_addr, u64; apply Z.mod_pos_bound; lia. }
  destruct (vci_conversion pCreateInfo) as [c |];
    [destruct (conv_chroma_offsets c !!! 0%nat),
       (conv_chroma_offsets c !!! 1%nat) |];
    destruct ubwc_enabled; descriptor_words;
    (split; [| split; [done | split; [done | split]]]);
    try (apply qword_halves, Hplane);
    rewrite ?Z.lor_0_r; land_fields;
    by destruct (vk_format_is_srgb _).
Qed.

(** X22.  The texture descriptor of a view of a YCbCr 4:2:0 format, given
    the image bound to memory and the assertions of that branch.  The bits
    of the [MIPLVLS] field of word 0 hold the two chroma midpoint flags and
    nothing else, the mip count field being 0 under the assertion on the
    level count; word 4 is the low dword of the address of plane 0, word 6
    the pitch of plane 1, words 7 and 8 the address of plane 1 and words 9
    and 10 the address of plane 2, each the surface offset of its plane or,
    with UBWC, its UBWC offset. *)
Theorem tu_image_view_init_ycbcr_words image iview pCreateInfo limited bo :
  is_ycbcr_420 (view_format pCreateInfo) = true →
  img_bo image = Some bo →
  ycbcr_view_asserts image pCreateInfo = true →
  let range := vci_subresourceRange pCreateInfo in
  let plane :=
    ycbcr_base_addr bo image range
      (fdl_ubwc_enabled (view_layout image pCreateInfo)
         (sr_baseMipLevel range)) in
  ∃ iview',
    tu_image_view_init image iview pCreateInfo limited = Ok iview'
    ∧ let descriptor := iv_descriptor iview' in
      Z.land (descriptor !!! 0%nat) 0x000f0000
      = Z.lor (COND (chroma_midpoint (vci_conversion pCreateInfo) 0)
                 A6XX_TEX_CONST_0_CHROMA_MIDPOINT_X)
              (COND (chroma_midpoint (vci_conversion pCreateInfo) 1)
                 A6XX_TEX_CONST_0_CHROMA_MIDPOINT_Y)
      ∧ descriptor !!! 4%nat = u32 (plane 0%nat)
      ∧ descriptor !!! 6%nat
        = A6XX_TEX_CONST_6_PLANE_PITCH
            (fdl_pitch (img_layout image !!! 1%nat) (sr_baseMipLevel range))
      ∧ qword (descriptor !!! 7%nat) (descriptor !!! 8%nat) = plane 1%nat
      ∧ qword (descriptor !!! 9%nat) (descriptor !!! 10%nat) = plane 2%nat.
Proof.
  intros Hformat Hbo Hasserts range plane. subst range plane.
  assert (view_format pCreateInfo = VK_FORMAT_G8_B8R8_2PLANE_420_UNORM
          ∨ view_format pCreateInfo = VK_FORMAT_G8_B8_R8_3PLANE_420_UNORM)
    as Hwhich.
  { unfold is_ycbcr_420 in Hformat.
    apply orb_prop in Hformat as [Heq | Heq]; apply Z.eqb_eq in Heq; auto. }
  destruct (tu_image_view_init_ycbcr_returns image iview pCreateInfo limited
              bo Hwhich Hbo Hasserts) as [iview' Hinit].
  exists iview'. split; [done |].
  apply tu_image_view_init_ycbcr_descriptor in Hinit as (bo' & Hbo' & ->);
    [| done].
  rewrite Hbo in Hbo'. injection Hbo' as <-.
  apply tex_const_ycbcr_planes.
  unfold ycbcr_view_asserts in Hasserts. cbv zeta in Hasserts.
  apply andb_prop in Hasserts as [Hasserts _].
  apply andb_prop in Hasserts as [Hasserts _].
  apply andb_prop in Hasserts as [_ Hlevels].
  by apply Z.eqb_eq.
Qed.

(** X23.  A single-plane view and the command stream agree on addresses.
    Words 4 and 5 of the texture descriptor, the depth field masked off,
    hold the base address the view caches, as long as it is below 2^49;
    [tu_cs_image_ref] for layer 0 emits those two dwords behind the pitch
    and the layer size; with UBWC, words 7 and 8 hold the cached address of
    the UBWC metadata. *)
Theorem tu_image_view_init_addresses image iview pCreateInfo limited bo
    (cs : list Z) :
  is_ycbcr_420 (view_format pCreateInfo) = false →
  img_bo image = Some bo →
  view_range_assert image (vci_subresourceRange pCreateInfo) = true →
  image_addr bo image
    (fdl_surface_offset (view_layout image pCreateInfo)
       (sr_baseMipLevel (vci_subresourceRange pCreateInfo))
       (sr_baseArrayLayer (vci_subresourceRange pCreateInfo))) < 2 ^ 49 →
  ∃ iview',
    tu_image_view_init image iview pCreateInfo limited = Ok iview'
    ∧ let descriptor := iv_descriptor iview' in
      let lo := descriptor !!! 4%nat in
      let hi := Z.land (descriptor !!! 5%nat) (Z.ones 17) in
      qword lo hi = iv_base_addr iview'
      ∧ tu_cs_image_ref cs iview' 0
        = cs ++ [u32 (iv_PITCH iview');
                 u32 (Z.shiftr (iv_layer_size iview') 6); lo; hi]
      ∧ (fdl_ubwc_enabled (view_layout image pCreateInfo)
           (sr_baseMipLevel (vci_subresourceRange pCreateInfo)) = true →
         qword (descriptor !!! 7%nat) (descriptor !!! 8%nat)
         = iv_ubwc_addr iview').
Proof.
  intros Hformat Hbo Hasserts Hfit.
  destruct (tu_image_view_init_single_returns image iview pCreateInfo limited
              bo Hformat Hbo Hasserts) as [iview' Hinit].
  exists iview'. split; [done |].
  apply tu_image_view_init_single in Hinit
    as (bo' & Hbo' & Hdesc & _ & Hbase & Hubwc & _); [| done].
  rewrite Hbo in Hbo'. injection Hbo' as <-.
  cbv zeta in Hdesc, Hbase, Hubwc. cbv zeta.
  rewrite Hdesc.
  match goal with
  | |- context [tex_const_3d ?i ?l ?v
                  (tex_const_ubwc _ ?w ?h ?ua ?up ?ue
                     (tex_const_head _ ?p ?lim ?ba))] =>
      destruct (tex_const_single_addr i p lim l w h ua up ue v ba)
        as (Hword4 & Hword5 & Hflag)
  end.
  cbv zeta in Hword4, Hword5, Hflag. rewrite Hword4, Hword5.
  assert (0 ≤ iv_base_addr iview' < 2 ^ 49) as Hrange.
  { rewrite Hbase. split; [apply image_addr_nonneg | done]. }
  split; [| split].
  - rewrite <- Hbase. by apply qword_descriptor.
  - rewrite <- Hbase.
    unfold tu_cs_image_ref, tu_cs_emit_qw, tu_cs_emit. cbv zeta.
    rewrite <- !app_assoc. cbn [app]. rewrite Z.mul_0_r.
    change (u32 0) with 0. rewrite Z.add_0_r.
    assert (u64 (iv_base_addr iview') = iv_base_addr iview') as ->.
    { unfold u64. apply Z.mod_small. lia. }
    do 4 f_equal.
    unfold A6XX_TEX_CONST_5_DEPTH.
    rewrite land_ones_17_high by (by apply addr_high_half).
    f_equal. apply u32_small.
    pose proof (addr_high_half _ Hrange). lia.
  - intros Hon. destruct (Hflag Hon) as [-> ->]. rewrite Hubwc.
    apply qword_halves, image_addr_range.
Qed.

(** X24.  When the format of a single-plane view does not support colour
    rendering, [tu_image_view_init] stops behind the 2D-source registers:
    the storage descriptor, the extent, the [need_y2_align] and
    [ubwc_enabled] flags, the render-target, 2D-destination and blit
    registers and the stencil side band keep the values they had, even for
    an image with storage usage or with a separate stencil plane. *)
Theorem tu_image_view_init_no_color image iview pCreateInfo limited bo :
  is_ycbcr_420 (view_format pCreateInfo) = false →
  img_bo image = Some bo →
  view_range_assert image (vci_subresourceRange pCreateInfo) = true →
  has_bits
    (nf_supported
       (tu6_format_texture (view_format pCreateInfo)
          (lay_tile_mode (view_layout image pCreateInfo)))) FMT_COLOR = false →
  ∃ iview',
    tu_image_view_init image iview pCreateInfo limited = Ok iview'
    ∧ iv_storage_descriptor iview' = iv_storage_descriptor iview
    ∧ iv_extent iview' = iv_extent iview
    ∧ iv_need_y2_align iview' = iv_need_y2_align iview
    ∧ iv_ubwc_enabled iview' = iv_ubwc_enabled iview
    ∧ iv_RB_MRT_BUF_INFO iview' = iv_RB_MRT_BUF_INFO iview
    ∧ iv_SP_FS_MRT_REG iview' = iv_SP_FS_MRT_REG iview
    ∧ iv_RB_2D_DST_INFO iview' = iv_RB_2D_DST_INFO iview
    ∧ iv_RB_BLIT_DST_INFO iview' = iv_RB_BLIT_DST_INFO iview
    ∧ iv_stencil_base_addr iview' = iv_stencil_base_addr iview
    ∧ iv_stencil_layer_size iview' = iv_stencil_layer_size iview
    ∧ iv_stencil_PITCH iview' = iv_stencil_PITCH iview.
Proof.
  intros Hformat Hbo Hasserts Hcolor.
  destruct (tu_image_view_init_single_returns image iview pCreateInfo limited
              bo Hformat Hbo Hasserts) as [iview' Hinit].
  exists iview'. split; [done |]. revert Hinit.
  unfold is_ycbcr_420 in Hformat. unfold tu_image_view_init. cbv zeta.
  intros Hinit.
  apply assert_Ok in Hinit as [_ Hinit].
  apply bind_Ok in Hinit as (bo' & _ & Hinit).
  rewrite Hformat, Hcolor in Hinit. cbn [negb] in Hinit.
  injection Hinit as <-. repeat split.
Qed.

(** X25.  The storage descriptor of a single-plane view of a storage image
    whose format supports colour: it has the length of a descriptor; words 4
    and 5, the depth field masked off, hold the base address the view
    caches; the depth field of word 5 is [storage_depth], the layer count
    or the minified depth of a 3D view, with no division by 6 for cubes;
    the [FLAG] bit of word 3 is set exactly when the view has UBWC.  The
    address is below 2^49 and the depth fits the 13 bits of its field. *)
Theorem tu_image_view_init_storage image iview pCreateInfo limited bo :
  is_ycbcr_420 (view_format pCreateInfo) = false →
  img_bo image = Some bo →
  view_range_assert image (vci_subresourceRange pCreateInfo) = true →
  has_bits
    (nf_supported
       (tu6_format_texture (view_format pCreateInfo)
          (lay_tile_mode (view_layout image pCreateInfo)))) FMT_COLOR = true →
  has_bits (img_usage image) VK_IMAGE_USAGE_STORAGE_BIT = true →
  image_addr bo image
    (fdl_surface_offset (view_layout image pCreateInfo)
       (sr_baseMipLevel (vci_subresourceRange pCreateInfo))
       (sr_baseArrayLayer (vci_subresourceRange pCreateInfo))) < 2 ^ 49 →
  0 ≤ view_storage_depth image pCreateInfo < 2 ^ 13 →
  ∃ iview',
    tu_image_view_init image iview pCreateInfo limited = Ok iview'
    ∧ let sd := iv_storage_descriptor iview' in
      length sd = A6XX_TEX_CONST_DWORDS
      ∧ qword (sd !!! 4%nat) (Z.land (sd !!! 5%nat) (Z.ones 17))
        = iv_base_addr iview'
      ∧ tex_const_5_depth (sd !!! 5%nat)
        = match vci_viewType pCreateInfo with
          | VK_IMAGE_VIEW_TYPE_3D =>
              u_minify (ext_depth (img_extent image))
                (sr_baseMipLevel (vci_subresourceRange pCreateInfo))
          | _ => tu_get_layerCount image (vci_subresourceRange pCreateInfo)
          end
      ∧ Z.land (sd !!! 3%nat) A6XX_IBO_3_FLAG
        = COND (iv_ubwc_enabled iview') A6XX_IBO_3_FLAG.
Proof.
  intros Hformat Hbo Hasserts Hcolor Hstorage Hfit Hdepth.
  destruct (tu_image_view_init_single_returns image iview pCreateInfo limited
              bo Hformat Hbo Hasserts) as [iview' Hinit].
  exists iview'. split; [done |].
  pose proof (tu_image_view_init_single _ _ _ _ _ Hformat Hinit)
    as (bo1 & Hbo1 & _ & _ & Hbase & _).
  apply tu_image_view_init_color in Hinit
    as (bo2 & Hbo2 & Hsd & _ & Hubwc); [| done | done].
  rewrite Hbo in Hbo1, Hbo2. injection Hbo1 as <-. injection Hbo2 as <-.
  cbv zeta in Hbase, Hsd, Hubwc. rewrite Hstorage in Hsd. cbv zeta.
  rewrite Hsd, Hubwc.
  match goal with
  | |- context [ibo_descriptor ?l ?v ?f ?t ?w ?h ?p ?ls ?ba ?d ?ua ?up ?ue] =>
      destruct (ibo_descriptor_words l v f t w h p ls ba d ua up ue)
        as (Hlen & Hword4 & Hword5 & Hflag)
  end.
  cbv zeta in Hlen, Hword4, Hword5, Hflag.
  rewrite Hlen, Hword4, Hword5, Hflag, <- Hbase.
  assert (0 ≤ iv_base_addr iview' < 2 ^ 49) as Hrange.
  { rewrite Hbase. split; [apply image_addr_nonneg | done]. }
  split; [done |]. split; [by apply qword_descriptor |]. split; [| done].
  pose proof (tex_const_5_depth_packed (Z.shiftr (iv_base_addr iview') 32) 0
                (view_storage_depth image pCreateInfo)) as Hpacked.
  rewrite Z.lor_0_r in Hpacked.
  change A6XX_IBO_5_DEPTH with A6XX_TEX_CONST_5_DEPTH.
  rewrite Hpacked; [| by apply addr_high_half | lia | done].
  unfold view_storage_depth. by destruct (vci_viewType pCreateInfo).
Qed.

(** X26.  The stencil side band of a single-plane view whose format
    supports colour.  For an image of format
    [VK_FORMAT_D32_SFLOAT_S8_UINT] it holds the address, the layer stride
    and the pitch register of plane 1 at the view's level and layer,
    whichever aspect the view selects; for an image of any other format it
    keeps the values it had.  Without storage usage the storage descriptor
    keeps its value too. *)
Theorem tu_image_view_init_stencil image iview pCreateInfo limited bo :
  is_ycbcr_420 (view_format pCreateInfo) = false →
  img_bo image = Some bo →
  view_range_assert image (vci_subresourceRange pCreateInfo) = true →
  has_bits
    (nf_supported
       (tu6_format_texture (view_format pCreateInfo)
          (lay_tile_mode (view_layout image pCreateInfo)))) FMT_COLOR = true →
  ∃ iview',
    tu_image_view_init image iview pCreateInfo limited = Ok iview'
    ∧ let level := sr_baseMipLevel (vci_subresourceRange pCreateInfo) in
      let layer := sr_baseArrayLayer (vci_subresourceRange pCreateInfo) in
      let stencil := img_layout image !!! 1%nat in
      (img_vk_format image = VK_FORMAT_D32_SFLOAT_S8_UINT →
       iv_stencil_base_addr iview'
       = image_addr bo image (fdl_surface_offset stencil level layer)
       ∧ iv_stencil_layer_size iview' = fdl_layer_stride stencil level
       ∧ iv_stencil_PITCH iview'
         = A6XX_RB_STENCIL_BUFFER_PITCH (fdl_pitch stencil level))
      ∧ (img_vk_format image ≠ VK_FORMAT_D32_SFLOAT_S8_UINT →
         iv_stencil_base_addr iview' = iv_stencil_base_addr iview
         ∧ iv_stencil_layer_size iview' = iv_stencil_layer_size iview
         ∧ iv_stencil_PITCH iview' = iv_stencil_PITCH iview)
      ∧ (has_bits (img_usage image) VK_IMAGE_USAGE_STORAGE_BIT = false →
         iv_storage_descriptor iview' = iv_storage_descriptor iview).
Proof.
  intros Hformat Hbo Hasserts Hcolor.
  destruct (tu_image_view_init_single_returns image iview pCreateInfo limited
              bo Hformat Hbo Hasserts) as [iview' Hinit].
  exists iview'. split; [done |].
  apply tu_image_view_init_color in Hinit
    as (bo' & Hbo' & Hsd & Hstencil & _); [| done | done].
  rewrite Hbo in Hbo'. injection Hbo' as <-.
  cbv zeta in Hsd, Hstencil. cbv zeta.
  destruct (Z.eqb_spec (img_vk_format image) VK_FORMAT_D32_SFLOAT_S8_UINT)
    as [Hd32 | Hd32].
  - split; [done |]. split; [done |]. intros Hno. by rewrite Hno in Hsd.
  - split; [done |]. split; [done |]. intros Hno. by rewrite Hno in Hsd.
Qed.

End ImageViewWords.

(** ** Object lifetime, continued *)

Section ViewObjects.
Context `{FormatDb, FdlLayout, TuPrivate, A6xxRegs, TuDeviceMemory}.

(** X27.  [tu_CreateImageView] and [tu_CreateBufferView] return an error
    exactly when the allocation of the view object failed, and the error is
    the out-of-host-memory one: the allocation is checked before the create
    info is looked at, and initialising the view has no error to return. *)
Theorem tu_CreateImageView_error device h alloc pCreateInfo buffer
    alloc_buffer_view pBufferInfo e :
  (tu_CreateImageView device h alloc pCreateInfo = Error e
   ↔ alloc = None ∧ e = VK_ERROR_OUT_OF_HOST_MEMORY)
  ∧ (tu_CreateBufferView h alloc_buffer_view buffer pBufferInfo = Error e
     ↔ alloc_buffer_view = None ∧ e = VK_ERROR_OUT_OF_HOST_MEMORY).
Proof.
  unfold tu_CreateImageView, tu_CreateBufferView. split.
  - destruct alloc as [[pView view] |].
    + split; [| by intros [? _]]. intros Herr. exfalso.
      destruct (heap_images h !! vci_image pCreateInfo) as [image |];
        [| done].
      cbn in Herr.
      destruct (tu_image_view_init image view pCreateInfo
                  (limited_z24s8 device)) as [iview | e' |] eqn:Hinit;
        try done.
      by apply tu_image_view_init_no_error in Hinit.
    + split; [by intros [= <-] | by intros [_ ->]].
  - destruct alloc_buffer_view as [[pView view] |].
    + split; [| by intros [? _]]. by destruct buffer.
    + split; [by intros [= <-] | by intros [_ ->]].
Qed.

(** X28.  Creating a view of a live image, bound to memory and within the
    assertions, in a newly allocated object stores the initialised view
    under the new handle and hands that handle out; images, buffer views
    and device memory are as they were; destroying the view through the
    handle gives back the store as it was before the creation. *)
Theorem tu_CreateImageView_destroy device h pView stale pCreateInfo image bo :
  pView ≠ VK_NULL_HANDLE →
  heap_image_views h !! pView = None →
  heap_images h !! vci_image pCreateInfo = Some image →
  img_bo image = Some bo →
  view_init_asserts image pCreateInfo = true →
  ∃ h' iview,
    tu_CreateImageView device h (Some (pView, stale)) pCreateInfo
    = Ok (h', pView)
    ∧ tu_image_view_init image stale pCreateInfo (limited_z24s8 device)
      = Ok iview
    ∧ heap_image_views h' !! pView = Some iview
    ∧ heap_images h' = heap_images h
    ∧ heap_buffer_views h' = heap_buffer_views h
    ∧ heap_memory h' = heap_memory h
    ∧ tu_DestroyImageView h' pView = Ok h.
Proof.
  intros Hnull Hfresh Himage Hbo Hasserts.
  destruct (tu_image_view_init_returns image stale pCreateInfo
              (limited_z24s8 device) bo Hbo Hasserts) as [iview Hinit].
  exists (set_heap_image_views (<[pView := iview]> (heap_image_views h)) h),
    iview.
  split.
  { unfold tu_CreateImageView. rewrite Himage. cbn [mbind result_bind].
    by rewrite Hinit. }
  split; [done |]. split; [cbn; apply lookup_insert_eq |].
  repeat split.
  unfold tu_DestroyImageView.
  destruct (Z.eqb_spec pView VK_NULL_HANDLE) as [? | _]; [done |].
  cbn [heap_image_views set_heap_image_views].
  rewrite lookup_insert_eq. unfold set_heap_image_views. cbn.
  rewrite delete_insert_id by done. by destruct h.
Qed.

(** X29.  The same for buffer views: creating a view of a buffer in a newly
    allocated object stores the initialised view under the new handle and
    leaves images, image views and device memory alone, and destroying it
    gives back the store as it was. *)
Theorem tu_CreateBufferView_destroy h pView stale buffer pCreateInfo :
  pView ≠ VK_NULL_HANDLE →
  heap_buffer_views h !! pView = None →
  ∃ h',
    tu_CreateBufferView h (Some (pView, stale)) (Some buffer) pCreateInfo
    = Ok (h', pView)
    ∧ heap_buffer_views h' !! pView
      = Some (tu_buffer_view_init buffer stale pCreateInfo)
    ∧ heap_images h' = heap_images h
    ∧ heap_image_views h' = heap_image_views h
    ∧ heap_memory h' = heap_memory h
    ∧ tu_DestroyBufferView h' pView = Ok h.
Proof.
  intros Hnull Hfresh. eexists. split; [reflexivity |].
  split; [cbn; apply lookup_insert_eq |]. repeat split.
  unfold tu_DestroyBufferView.
  destruct (Z.eqb_spec pView VK_NULL_HANDLE) as [? | _]; [done |].
  cbn [heap_buffer_views set_heap_buffer_views].
  rewrite lookup_insert_eq. unfold set_heap_buffer_views. cbn.
  rewrite delete_insert_id by done. by destruct h.
Qed.

(** X30.  An image [tu_image_create] produced owns no device memory and is
    bound to none, so destroying it, once stored under a new handle, frees
    the image only: [tu_FreeMemory] is not called, whatever it would do,
    and the store is as it was before the image was stored. *)
Theorem tu_image_create_destroy device alloc_ok pCreateInfo modifier
    plane_layouts image h (pImage : handle) :
  tu_image_create device alloc_ok pCreateInfo modifier plane_layouts
  = Ok image →
  pImage ≠ VK_NULL_HANDLE →
  heap_images h !! pImage = None →
  img_owned_memory image = VK_NULL_HANDLE
  ∧ img_bo image = None
  ∧ tu_DestroyImage
      (set_heap_images (<[pImage := image]> (heap_images h)) h) pImage
    = Ok h.
Proof.
  intros Hcreate Hnull Hfresh.
  destruct (tu_image_create_built _ _ _ _ _ _ Hcreate) as (Hheader & _).
  unfold image_header in Hheader.
  injection Hheader as _ _ _ _ _ _ _ _ _ _ _ _ Hmem Hbound _.
  split; [done |]. split; [done |].
  unfold tu_DestroyImage.
  destruct (Z.eqb_spec pImage VK_NULL_HANDLE) as [? | _]; [done |].
  cbn [heap_images set_heap_images].
  rewrite lookup_insert_eq, Hmem. cbn [tu_image_init img_owned_memory].
  rewrite Z.eqb_refl. cbn [negb].
  unfold set_heap_images. cbn.
  rewrite delete_insert_id by done. by destruct h.
Qed.

End ViewObjects.

(** ** The reference instance at work *)

Import Sample.

(** The linear layout routine keeps the three promises asked of a layout
    routine. *)
Lemma linear_layout_keeps_tile_mode : fdl6_keeps_tile_mode.
Proof.
  intros layout format samples w h d mips layers is_3d explicit out Hout.
  cbn in Hout. unfold linear_layout in Hout.
  destruct (bool_decide _ && _); [discriminate |].
  destruct (linear_slices _ _ _ _ _) as [slices total].
  by injection Hout as <-.
Qed.

Lemma linear_layout_ubwc_only_if_asked : fdl6_ubwc_only_if_asked.
Proof.
  intros layout format samples w h d mips layers is_3d explicit out Hout.
  cbn in Hout. unfold linear_layout in Hout.
  destruct (bool_decide _ && _); [discriminate |].
  destruct (linear_slices _ _ _ _ _) as [slices total].
  by injection Hout as <-.
Qed.

Lemma linear_layout_metadata_only_with_ubwc : fdl6_metadata_only_with_ubwc.
Proof.
  intros layout format samples w h d mips layers is_3d explicit out Hout.
  cbn in Hout. unfold linear_layout in Hout.
  destruct (bool_decide _ && _); [discriminate |].
  destruct (linear_slices _ _ _ _ _) as [slices total].
  injection Hout as <-. cbn. by intros ->.
Qed.

(** The view of an sRGB buffer next to the view of its UNORM twin: the two
    descriptor words 0 are equal, and the [SRGB] bit is clear in both. *)
Example tu_buffer_view_init_srgb_sample :
  let buffer :=
    {| buf_size := 2 ^ 21; buf_bo := bo; buf_bo_offset := 0 |} in
  let view := {| bv_descriptor := []; bv_buffer := VK_NULL_HANDLE |} in
  let info format :=
    {| bvci_buffer := 7; bvci_format := format; bvci_offset := 4096;
       bvci_range := 2 ^ 20 |} in
  vk_format_is_srgb VK_FORMAT_R8G8B8A8_SRGB = true
  ∧ bv_descriptor
      (tu_buffer_view_init buffer view (info VK_FORMAT_R8G8B8A8_SRGB))
    !!! 0%nat = 0x0c006880
  ∧ bv_descriptor
      (tu_buffer_view_init buffer view (info VK_FORMAT_R8G8B8A8_UNORM))
    !!! 0%nat = 0x0c006880.
Proof. vm_compute. repeat split. Qed.

(** A view of 1 MiB of [R32G32B32A32_SFLOAT] texels at offset 4096: 65536
    elements, so the width field of word 1 is 0 and its height field 2. *)
Example tu_buffer_view_init_elements_sample :
  let buffer :=
    {| buf_size := 2 ^ 21; buf_bo := bo; buf_bo_offset := 0 |} in
  let view := {| bv_descriptor := []; bv_buffer := VK_NULL_HANDLE |} in
  let info :=
    {| bvci_buffer := 7; bvci_format := VK_FORMAT_R32G32B32A32_SFLOAT;
       bvci_offset := 4096; bvci_range := 2 ^ 20 |} in
  bv_descriptor (tu_buffer_view_init buffer view info) !!! 1%nat
  = Z.lor (A6XX_TEX_CONST_1_WIDTH 0) (A6XX_TEX_CONST_1_HEIGHT 2).
Proof. vm_compute. reflexivity. Qed.

(** C3, as stated, fails.  Plane 0 is what the layout routine computed, and
    a routine that starts a UBWC plane with its metadata ("UBWC starts at
    offset 0", says [tu_GetImageSubresourceLayout]) puts the first slice
    behind it: in the depth image with a separate stencil plane, plane 0 has
    UBWC and its first slice is at 4096.  And the total that places a plane
    is the running maximum of the sizes stored so far, not their sum: in the
    three-plane image the planes have the sizes 5151 and 9518, the third
    plane is at 12288, and the sum would put it at 16384. *)
Lemma tu_image_create_plane_placement_not_as_stated :
  ¬ (∀ pCreateInfo modifier image,
       1 < tu6_plane_count (ci_format pCreateInfo) →
       tu_image_create device true pCreateInfo modifier None = Ok image →
       sl_offset (lay_slices (img_layout image !!! 0%nat) !!! 0%nat) = 0)
  ∧ ¬ (∀ pCreateInfo modifier image k,
         tu_image_create device true pCreateInfo modifier None = Ok image →
         (0 < k < Z.to_nat (tu6_plane_count (ci_format pCreateInfo)))%nat →
         sl_offset (lay_slices (img_layout image !!! k) !!! 0%nat)
         = ALIGN_POT (planes_sum image k) 4096).
Proof.
  split.
  - intros Hall.
    assert (Hcreate :
              tu_image_create device true depth_stencil_info
                DRM_FORMAT_MOD_INVALID None = Ok depth_stencil_image)
      by (vm_compute; reflexivity).
    specialize (Hall depth_stencil_info DRM_FORMAT_MOD_INVALID
                  depth_stencil_image eq_refl Hcreate).
    vm_compute in Hall. discriminate Hall.
  - intros Hall.
    assert (Hcreate :
              tu_image_create device true ycbcr_info DRM_FORMAT_MOD_INVALID
                None = Ok ycbcr_image) by (vm_compute; reflexivity).
    specialize (Hall ycbcr_info DRM_FORMAT_MOD_INVALID ycbcr_image 2%nat
                  Hcreate).
    assert (Hk : (0 < 2 < Z.to_nat (tu6_plane_count (ci_format ycbcr_info)))%nat)
      by (vm_compute; lia).
    specialize (Hall Hk). vm_compute in Hall. discriminate Hall.
Qed.

(** The three-plane sample image: the chroma planes sit at 8192 and 12288,
    behind a luma plane of 5151 bytes and a first chroma plane that ends at
    9518. *)
Lemma tu_image_create_plane_placement_witness :
  let policy :=
    tu_image_tiling_policy device ycbcr_info DRM_FORMAT_MOD_INVALID in
  tu_image_create device true ycbcr_info DRM_FORMAT_MOD_INVALID None
  = Ok ycbcr_image
  ∧ plane_layout_request ycbcr_info policy.1 policy.2 None 0
    = Some (img_layout ycbcr_image !!! 0%nat)
  ∧ ∀ k, (0 < k < Z.to_nat (tu6_plane_count (ci_format ycbcr_info)))%nat →
      ∃ raw,
        plane_layout_request ycbcr_info policy.1 policy.2 None k = Some raw
        ∧ let offset := ALIGN_POT (planes_total ycbcr_image k) 4096 in
          let layout := img_layout ycbcr_image !!! k in
          (∀ l s, Z.of_nat l < ci_mipLevels ycbcr_info →
                  lay_slices raw !! l = Some s →
                  lay_slices layout !! l = Some (add_offset offset s))
          ∧ (∀ l s, Z.of_nat l < ci_mipLevels ycbcr_info →
                    lay_ubwc_slices raw !! l = Some s →
                    lay_ubwc_slices layout !! l = Some (add_offset offset s))
          ∧ lay_size layout = u32 (lay_size raw + offset)
          ∧ (∀ s, lay_slices raw !! 0%nat = Some s → sl_offset s = 0 →
                  sl_offset (lay_slices layout !!! 0%nat) = offset).
Proof.
  intros policy.
  assert (Hcreate :
            tu_image_create device true ycbcr_info DRM_FORMAT_MOD_INVALID None
            = Ok ycbcr_image) by (vm_compute; reflexivity).
  split; [exact Hcreate |].
  exact (tu_image_create_plane_placement device true ycbcr_info
           DRM_FORMAT_MOD_INVALID ycbcr_image Hcreate).
Defined.

(** The sample storage image has UBWC off. *)
Lemma tu_image_create_storage_no_ubwc_witness :
  fdl6_ubwc_only_if_asked
  ∧ has_bits (ci_usage storage_info) VK_IMAGE_USAGE_STORAGE_BIT = true
  ∧ tu_image_create device true storage_info DRM_FORMAT_MOD_INVALID None
    = Ok storage_image
  ∧ Forall (λ layout, lay_ubwc layout = false) (img_layout storage_image).
Proof.
  assert (Husage :
            has_bits (ci_usage storage_info) VK_IMAGE_USAGE_STORAGE_BIT = true)
    by reflexivity.
  assert (Hcreate :
            tu_image_create device true storage_info DRM_FORMAT_MOD_INVALID
              None = Ok storage_image) by (vm_compute; reflexivity).
  split; [exact linear_layout_ubwc_only_if_asked |].
  split; [exact Husage |]. split; [exact Hcreate |].
  exact (tu_image_create_storage_no_ubwc device true storage_info
           DRM_FORMAT_MOD_INVALID None storage_image
           linear_layout_ubwc_only_if_asked Husage Hcreate).
Defined.

(** The modifier of the sample colour image, tiled with UBWC. *)
Lemma tu_GetImageDrmFormatModifierPropertiesEXT_created_witness :
  fdl6_keeps_tile_mode
  ∧ fdl6_ubwc_only_if_asked
  ∧ fdl6_metadata_only_with_ubwc
  ∧ tu_image_create device true color_info DRM_FORMAT_MOD_INVALID None
    = Ok color_image
  ∧ let layout0 := img_layout color_image !!! 0%nat in
    ∃ drmFormatModifier,
      tu_GetImageDrmFormatModifierPropertiesEXT color_image
        VK_STRUCTURE_TYPE_IMAGE_DRM_FORMAT_MODIFIER_PROPERTIES_EXT
      = Ok (VK_SUCCESS, drmFormatModifier)
      ∧ (drmFormatModifier = DRM_FORMAT_MOD_QCOM_COMPRESSED
         ↔ lay_ubwc_layer_size layout0 ≠ 0)
      ∧ (drmFormatModifier = DRM_FORMAT_MOD_LINEAR
         ↔ lay_tile_mode layout0 = TILE6_LINEAR)
      ∧ (drmFormatModifier = DRM_FORMAT_MOD_INVALID
         ↔ lay_tile_mode layout0 ≠ TILE6_LINEAR
           ∧ lay_ubwc_layer_size layout0 = 0).
Proof.
  assert (Hcreate :
            tu_image_create device true color_info DRM_FORMAT_MOD_INVALID None
            = Ok color_image) by (vm_compute; reflexivity).
  split; [exact linear_layout_keeps_tile_mode |].
  split; [exact linear_layout_ubwc_only_if_asked |].
  split; [exact linear_layout_metadata_only_with_ubwc |].
  split; [exact Hcreate |].
  exact (tu_GetImageDrmFormatModifierPropertiesEXT_created device true
           color_info DRM_FORMAT_MOD_INVALID None color_image
           linear_layout_keeps_tile_mode linear_layout_ubwc_only_if_asked
           linear_layout_metadata_only_with_ubwc Hcreate).
Defined.

(** A CUBE view of 12 layers: the depth field of word 5 is 2. *)
Lemma tu_image_view_init_depth_witness :
  let image := bind_image bo 4096 cube_image in
  let pCreateInfo :=
    view_info VK_IMAGE_VIEW_TYPE_CUBE VK_FORMAT_R8G8B8A8_UNORM 12 in
  img_bo image = Some bo
  ∧ view_init_asserts image pCreateInfo = true
  ∧ view_addresses_fit bo image pCreateInfo
  ∧ 0 ≤ view_depth image pCreateInfo < 2 ^ 13
  ∧ tu_get_layerCount image (vci_subresourceRange pCreateInfo) = 12
  ∧ ∃ iview',
      tu_image_view_init image iview_stale pCreateInfo false = Ok iview'
      ∧ tex_const_5_depth (iv_descriptor iview' !!! 5%nat) = 2.
Proof.
  intros image pCreateInfo.
  assert (Hbo : img_bo image = Some bo) by reflexivity.
  assert (Hasserts : view_init_asserts image pCreateInfo = true)
    by (vm_compute; reflexivity).
  assert (Hfit : view_addresses_fit bo image pCreateInfo).
  { split; [vm_compute; reflexivity |].
    intros []; vm_compute; reflexivity. }
  assert (Hdepth : 0 ≤ view_depth image pCreateInfo < 2 ^ 13).
  { split; vm_compute; [discriminate | reflexivity]. }
  split; [exact Hbo |]. split; [exact Hasserts |]. split; [exact Hfit |].
  split; [exact Hdepth |]. split; [reflexivity |].
  exact (tu_image_view_init_depth image iview_stale pCreateInfo false bo
           Hbo Hasserts Hfit Hdepth).
Defined.

(** A view of the three-plane sample image over a stale view object: the
    left-over values outside the image and the texture descriptor stay. *)
Lemma tu_image_view_init_ycbcr_frame_witness :
  let image := bind_image bo 4096 ycbcr_image in
  let pCreateInfo :=
    view_info VK_IMAGE_VIEW_TYPE_2D VK_FORMAT_G8_B8_R8_3PLANE_420_UNORM 1 in
  (view_format pCreateInfo = VK_FORMAT_G8_B8R8_2PLANE_420_UNORM
   ∨ view_format pCreateInfo = VK_FORMAT_G8_B8_R8_3PLANE_420_UNORM)
  ∧ img_bo image = Some bo
  ∧ ycbcr_view_asserts image pCreateInfo = true
  ∧ ∃ iview',
      tu_image_view_init image iview_stale pCreateInfo false = Ok iview'
      ∧ iv_image iview' = 11
      ∧ iv_storage_descriptor iview' = [9]
      ∧ iv_RB_MRT_BUF_INFO iview' = 12
      ∧ iv_SP_FS_MRT_REG iview' = 13
      ∧ iv_SP_PS_2D_SRC_INFO iview' = 14
      ∧ iv_SP_PS_2D_SRC_SIZE iview' = 15
      ∧ iv_RB_2D_DST_INFO iview' = 16
      ∧ iv_RB_BLIT_DST_INFO iview' = 17
      ∧ iv_PITCH iview' = 10
      ∧ iv_FLAG_BUFFER_PITCH iview' = 11
      ∧ iv_base_addr iview' = 2
      ∧ iv_ubwc_addr iview' = 3
      ∧ iv_layer_size iview' = 4
      ∧ iv_ubwc_layer_size iview' = 5
      ∧ iv_extent iview' = {| ext2_width := 6; ext2_height := 7 |}
      ∧ iv_need_y2_align iview' = true
      ∧ iv_ubwc_enabled iview' = true
      ∧ iv_stencil_base_addr iview' = 18
      ∧ iv_stencil_layer_size iview' = 19
      ∧ iv_stencil_PITCH iview' = 20.
Proof.
  intros image pCreateInfo.
  assert (Hformat :
            view_format pCreateInfo = VK_FORMAT_G8_B8R8_2PLANE_420_UNORM
            ∨ view_format pCreateInfo = VK_FORMAT_G8_B8_R8_3PLANE_420_UNORM)
    by (right; reflexivity).
  assert (Hbo : img_bo image = Some bo) by reflexivity.
  assert (Hasserts : ycbcr_view_asserts image pCreateInfo = true)
    by (vm_compute; reflexivity).
  split; [exact Hformat |]. split; [exact Hbo |]. split; [exact Hasserts |].
  exact (tu_image_view_init_ycbcr_frame image iview_stale pCreateInfo false bo
           Hformat Hbo Hasserts).
Defined.

(** ** The further properties on the reference instance *)

(** The accessor of the reference instance reads the flag of the layout. *)
Lemma linear_layout_ubwc_enabled_sound : fdl_ubwc_enabled_sound.
Proof. intros layout level Hon. exact Hon. Qed.

(** Asking for the compressed modifier on the sample storage image. *)
Lemma tu_image_create_compressed_abort_witness :
  create_info_asserts storage_info = true
  ∧ linear_forced storage_info DRM_FORMAT_MOD_QCOM_COMPRESSED
    || ubwc_excluded device storage_info = true
  ∧ tu_image_create device true storage_info DRM_FORMAT_MOD_QCOM_COMPRESSED
      None = Abort.
Proof.
  assert (Hasserts : create_info_asserts storage_info = true)
    by (vm_compute; reflexivity).
  assert (Hoff : linear_forced storage_info DRM_FORMAT_MOD_QCOM_COMPRESSED
                 || ubwc_excluded device storage_info = true)
    by (vm_compute; reflexivity).
  split; [exact Hasserts |]. split; [exact Hoff |].
  exact (tu_image_create_compressed_abort device storage_info None Hasserts
           Hoff).
Defined.

(** The sample image with linear tiling has UBWC off in every plane. *)
Lemma tu_image_create_ubwc_excluded_witness :
  fdl6_ubwc_only_if_asked
  ∧ linear_forced linear_info DRM_FORMAT_MOD_INVALID
    || ubwc_excluded device linear_info = true
  ∧ tu_image_create device true linear_info DRM_FORMAT_MOD_INVALID None
    = Ok linear_image
  ∧ Forall (λ layout, lay_ubwc layout = false) (img_layout linear_image).
Proof.
  assert (Hoff : linear_forced linear_info DRM_FORMAT_MOD_INVALID
                 || ubwc_excluded device linear_info = true)
    by (vm_compute; reflexivity).
  assert (Hcreate :
            tu_image_create device true linear_info DRM_FORMAT_MOD_INVALID
              None = Ok linear_image) by (vm_compute; reflexivity).
  split; [exact linear_layout_ubwc_only_if_asked |].
  split; [exact Hoff |]. split; [exact Hcreate |].
  exact (tu_image_create_ubwc_excluded device true linear_info
           DRM_FORMAT_MOD_INVALID None linear_image
           linear_layout_ubwc_only_if_asked Hoff Hcreate).
Defined.

(** The sample colour image is under no linear fallback: its plane is
    tiled. *)
Lemma tu_image_create_tile_mode_witness :
  fdl6_keeps_tile_mode
  ∧ tu_image_create device true color_info DRM_FORMAT_MOD_INVALID None
    = Ok color_image
  ∧ linear_forced color_info DRM_FORMAT_MOD_INVALID = false
  ∧ (linear_forced color_info DRM_FORMAT_MOD_INVALID = true →
     Forall (λ layout, lay_tile_mode layout = TILE6_LINEAR)
       (img_layout color_image)
     ∧ tu_GetImageDrmFormatModifierPropertiesEXT color_image
         VK_STRUCTURE_TYPE_IMAGE_DRM_FORMAT_MODIFIER_PROPERTIES_EXT
       = Ok (VK_SUCCESS, DRM_FORMAT_MOD_LINEAR))
  ∧ (linear_forced color_info DRM_FORMAT_MOD_INVALID = false →
     (∀ k, (k < Z.to_nat (tu6_plane_count (ci_format color_info)))%nat →
           lay_tile_mode (img_layout color_image !!! k) = TILE6_3)
     ∧ ∃ drmFormatModifier,
         tu_GetImageDrmFormatModifierPropertiesEXT color_image
           VK_STRUCTURE_TYPE_IMAGE_DRM_FORMAT_MODIFIER_PROPERTIES_EXT
         = Ok (VK_SUCCESS, drmFormatModifier)
         ∧ drmFormatModifier ≠ DRM_FORMAT_MOD_LINEAR).
Proof.
  assert (Hcreate :
            tu_image_create device true color_info DRM_FORMAT_MOD_INVALID None
            = Ok color_image) by (vm_compute; reflexivity).
  split; [exact linear_layout_keeps_tile_mode |].
  split; [exact Hcreate |]. split; [vm_compute; reflexivity |].
  exact (tu_image_create_tile_mode device true color_info
           DRM_FORMAT_MOD_INVALID None color_image
           linear_layout_keeps_tile_mode Hcreate).
Defined.

(** The stencil plane of the sample depth image, next to a depth plane that
    has UBWC. *)
Lemma tu_image_create_separate_stencil_witness :
  fdl6_ubwc_only_if_asked
  ∧ ci_format depth_stencil_info = VK_FORMAT_D32_SFLOAT_S8_UINT
  ∧ tu_image_create device true depth_stencil_info DRM_FORMAT_MOD_INVALID
      None = Ok depth_stencil_image
  ∧ lay_ubwc (img_layout depth_stencil_image !!! 0%nat) = true
  ∧ lay_ubwc (img_layout depth_stencil_image !!! 1%nat) = false.
Proof.
  assert (Hformat :
            ci_format depth_stencil_info = VK_FORMAT_D32_SFLOAT_S8_UINT)
    by reflexivity.
  assert (Hcreate :
            tu_image_create device true depth_stencil_info
              DRM_FORMAT_MOD_INVALID None = Ok depth_stencil_image)
    by (vm_compute; reflexivity).
  split; [exact linear_layout_ubwc_only_if_asked |].
  split; [exact Hformat |]. split; [exact Hcreate |].
  split; [reflexivity |].
  exact (tu_image_create_separate_stencil device true depth_stencil_info
           DRM_FORMAT_MOD_INVALID None depth_stencil_image
           linear_layout_ubwc_only_if_asked Hformat Hcreate).
Defined.

(** The three planes of the sample YCbCr image within its 13614 bytes. *)
Lemma tu_image_create_total_size_witness :
  tu_image_create device true ycbcr_info DRM_FORMAT_MOD_INVALID None
  = Ok ycbcr_image
  ∧ img_total_size ycbcr_image = 13614
  ∧ 0 ≤ img_total_size ycbcr_image
  ∧ ∀ k, (k < Z.to_nat (tu6_plane_count (ci_format ycbcr_info)))%nat →
         lay_size (img_layout ycbcr_image !!! k) ≤ img_total_size ycbcr_image.
Proof.
  assert (Hcreate :
            tu_image_create device true ycbcr_info DRM_FORMAT_MOD_INVALID None
            = Ok ycbcr_image) by (vm_compute; reflexivity).
  split; [exact Hcreate |]. split; [reflexivity |].
  exact (tu_image_create_total_size device true ycbcr_info
           DRM_FORMAT_MOD_INVALID None ycbcr_image Hcreate).
Defined.

(** Plane 1 of the sample YCbCr image, behind a luma plane of 5151 bytes. *)
Lemma tu_image_create_planes_stacked_witness :
  let policy :=
    tu_image_tiling_policy device ycbcr_info DRM_FORMAT_MOD_INVALID in
  tu_image_create device true ycbcr_info DRM_FORMAT_MOD_INVALID None
  = Ok ycbcr_image
  ∧ (0 < 1 < Z.to_nat (tu6_plane_count (ci_format ycbcr_info)))%nat
  ∧ planes_total ycbcr_image 1 = 5151
  ∧ planes_total ycbcr_image 1 ≤ 2 ^ 32 - 4096
  ∧ ∃ raw offset,
      plane_layout_request ycbcr_info policy.1 policy.2 None 1 = Some raw
      ∧ offset mod 4096 = 0
      ∧ planes_total ycbcr_image 1 ≤ offset < planes_total ycbcr_image 1 + 4096
      ∧ ∀ l s,
          Z.of_nat l < ci_mipLevels ycbcr_info →
          lay_slices raw !! l = Some s →
          0 ≤ sl_offset s → sl_offset s + offset < 2 ^ 32 →
          lay_slices (img_layout ycbcr_image !!! 1%nat) !! l
          = Some {| sl_offset := sl_offset s + offset;
                    sl_size0 := sl_size0 s |}.
Proof.
  intros policy.
  assert (Hcreate :
            tu_image_create device true ycbcr_info DRM_FORMAT_MOD_INVALID None
            = Ok ycbcr_image) by (vm_compute; reflexivity).
  assert (Hk : (0 < 1 < Z.to_nat (tu6_plane_count (ci_format ycbcr_info)))%nat)
    by (vm_compute; lia).
  assert (Htotal : planes_total ycbcr_image 1 ≤ 2 ^ 32 - 4096)
    by (vm_compute; discriminate).
  split; [exact Hcreate |]. split; [exact Hk |]. split; [reflexivity |].
  split; [exact Htotal |].
  exact (tu_image_create_planes_stacked device true ycbcr_info
           DRM_FORMAT_MOD_INVALID ycbcr_image 1 Hcreate Hk Htotal).
Defined.

(** The sample shared image names queue family 0 and the external queues:
    bit 0 of its mask is set. *)
Lemma tu_image_create_queue_family_mask_witness :
  0 ≤ TU_MAX_QUEUE_FAMILIES ≤ 32
  ∧ Forall (λ index, index = VK_QUEUE_FAMILY_EXTERNAL ∨ 0 ≤ index < 32)
      (ci_pQueueFamilyIndices shared_info)
  ∧ 0 ≤ 0 < 32
  ∧ tu_image_create device true shared_info DRM_FORMAT_MOD_INVALID None
    = Ok shared_image
  ∧ img_exclusive shared_image = false
  ∧ (Z.testbit (img_queue_family_mask shared_image) 0 = true
     ↔ 0 ∈ ci_pQueueFamilyIndices shared_info
       ∨ (VK_QUEUE_FAMILY_EXTERNAL ∈ ci_pQueueFamilyIndices shared_info
          ∧ 0 < TU_MAX_QUEUE_FAMILIES)).
Proof.
  assert (Hmax : 0 ≤ TU_MAX_QUEUE_FAMILIES ≤ 32) by (cbn; lia).
  assert (Hindices :
            Forall (λ index, index = VK_QUEUE_FAMILY_EXTERNAL ∨ 0 ≤ index < 32)
              (ci_pQueueFamilyIndices shared_info)).
  { cbn. constructor; [right; lia |].
    constructor; [left; reflexivity | constructor]. }
  assert (Hn : 0 ≤ 0 < 32) by lia.
  assert (Hcreate :
            tu_image_create device true shared_info DRM_FORMAT_MOD_INVALID
              None = Ok shared_image) by (vm_compute; reflexivity).
  split; [exact Hmax |]. split; [exact Hindices |]. split; [exact Hn |].
  split; [exact Hcreate |].
  exact (tu_image_create_queue_family_mask device true shared_info
           DRM_FORMAT_MOD_INVALID None shared_image 0 Hmax Hindices Hn
           Hcreate).
Defined.

(** An explicit layout with a row pitch of 64 bytes for rows of 400. *)
Lemma tu_CreateImage_invalid_layout_witness :
  tu_CreateImage device true modifier_info
    (chain_explicit DRM_FORMAT_MOD_LINEAR [short_pitch])
  = Error VK_ERROR_INVALID_DRM_FORMAT_MODIFIER_PLANE_LAYOUT_EXT
  ∧ ci_tiling modifier_info = VK_IMAGE_TILING_DRM_FORMAT_MODIFIER_EXT
  ∧ pn_mod_info (chain_explicit DRM_FORMAT_MOD_LINEAR [short_pitch]) = None
  ∧ ∃ modifier layouts,
      pn_drm_explicit_info (chain_explicit DRM_FORMAT_MOD_LINEAR [short_pitch])
      = Some (modifier, Some layouts)
      ∧ (modifier = DRM_FORMAT_MOD_LINEAR
         ∨ modifier = DRM_FORMAT_MOD_QCOM_COMPRESSED)
      ∧ tu_image_create device true modifier_info modifier (Some layouts)
        = Error VK_ERROR_INVALID_DRM_FORMAT_MODIFIER_PLANE_LAYOUT_EXT.
Proof.
  assert (Herr :
            tu_CreateImage device true modifier_info
              (chain_explicit DRM_FORMAT_MOD_LINEAR [short_pitch])
            = Error VK_ERROR_INVALID_DRM_FORMAT_MODIFIER_PLANE_LAYOUT_EXT)
    by (vm_compute; reflexivity).
  split; [exact Herr |].
  exact (tu_CreateImage_invalid_layout device true modifier_info
           (chain_explicit DRM_FORMAT_MOD_LINEAR [short_pitch]) Herr).
Defined.

(** A modifier list that offers the invalid and the linear modifier. *)
Lemma tu_CreateImage_linear_witness :
  let pNext := chain_list [DRM_FORMAT_MOD_INVALID; DRM_FORMAT_MOD_LINEAR] in
  fdl6_keeps_tile_mode
  ∧ ((ci_tiling modifier_info = VK_IMAGE_TILING_DRM_FORMAT_MODIFIER_EXT
      ∧ ∃ modifiers,
          pn_mod_info pNext = Some modifiers
          ∧ DRM_FORMAT_MOD_QCOM_COMPRESSED ∉ modifiers)
     ∨ (ci_tiling modifier_info ≠ VK_IMAGE_TILING_DRM_FORMAT_MODIFIER_EXT
        ∧ pn_wsi_info pNext = Some true))
  ∧ tu_CreateImage device true modifier_info pNext = Ok listed_image
  ∧ Forall (λ layout, lay_tile_mode layout = TILE6_LINEAR)
      (img_layout listed_image)
  ∧ tu_GetImageDrmFormatModifierPropertiesEXT listed_image
      VK_STRUCTURE_TYPE_IMAGE_DRM_FORMAT_MODIFIER_PROPERTIES_EXT
    = Ok (VK_SUCCESS, DRM_FORMAT_MOD_LINEAR).
Proof.
  intros pNext.
  assert (Hwhy :
            (ci_tiling modifier_info = VK_IMAGE_TILING_DRM_FORMAT_MODIFIER_EXT
             ∧ ∃ modifiers,
                 pn_mod_info pNext = Some modifiers
                 ∧ DRM_FORMAT_MOD_QCOM_COMPRESSED ∉ modifiers)
            ∨ (ci_tiling modifier_info
               ≠ VK_IMAGE_TILING_DRM_FORMAT_MODIFIER_EXT
               ∧ pn_wsi_info pNext = Some true)).
  { left. split; [reflexivity |]. eexists. split; [reflexivity |].
    intros Hin. apply elem_of_cons in Hin as [Hin | Hin]; [discriminate |].
    apply elem_of_cons in Hin as [Hin | Hin]; [discriminate |].
    by apply elem_of_nil in Hin. }
  assert (Hcreate :
            tu_CreateImage device true modifier_info pNext = Ok listed_image)
    by (vm_compute; reflexivity).
  split; [exact linear_layout_keeps_tile_mode |].
  split; [exact Hwhy |]. split; [exact Hcreate |].
  exact (tu_CreateImage_linear device true modifier_info pNext listed_image
           linear_layout_keeps_tile_mode Hwhy Hcreate).
Defined.

(** The sample colour image has UBWC, one level and one layer: the query
    returns and reports offset 0. *)
Lemma tu_GetImageSubresourceLayout_ubwc_witness :
  let pSubresource :=
    {| isr_aspectMask := VK_IMAGE_ASPECT_COLOR_BIT; isr_mipLevel := 0;
       isr_arrayLayer := 0 |} in
  let layout :=
    img_layout color_image !!!
      Z.to_nat (tu6_plane_index (img_vk_format color_image)
                  (isr_aspectMask pSubresource)) in
  fdl_ubwc_enabled layout (isr_mipLevel pSubresource) = true
  ∧ (∃ pLayout,
       tu_GetImageSubresourceLayout color_image pSubresource = Ok pLayout)
  ∧ (tu_GetImageSubresourceLayout color_image pSubresource = Abort
     ↔ ¬ (img_level_count color_image = 1 ∧ img_layer_count color_image = 1))
  ∧ ∀ pLayout,
      tu_GetImageSubresourceLayout color_image pSubresource = Ok pLayout →
      srl_offset pLayout = 0
      ∧ srl_size pLayout
        = sl_size0 (lay_slices layout
                      !!! Z.to_nat (isr_mipLevel pSubresource))
      ∧ srl_depthPitch pLayout = srl_size pLayout.
Proof.
  intros pSubresource layout.
  assert (Hubwc : fdl_ubwc_enabled layout (isr_mipLevel pSubresource) = true)
    by reflexivity.
  split; [exact Hubwc |]. split; [eexists; vm_compute; reflexivity |].
  exact (tu_GetImageSubresourceLayout_ubwc color_image pSubresource Hubwc).
Defined.

(** The query on the sample image with linear tiling. *)
Lemma tu_GetImageSubresourceLayout_created_witness :
  let pSubresource :=
    {| isr_aspectMask := VK_IMAGE_ASPECT_COLOR_BIT; isr_mipLevel := 0;
       isr_arrayLayer := 0 |} in
  let layout :=
    img_layout linear_image !!!
      Z.to_nat (tu6_plane_index (img_vk_format linear_image)
                  (isr_aspectMask pSubresource)) in
  fdl6_ubwc_only_if_asked
  ∧ fdl_ubwc_enabled_sound
  ∧ linear_forced linear_info DRM_FORMAT_MOD_INVALID
    || ubwc_excluded device linear_info = true
  ∧ tu_image_create device true linear_info DRM_FORMAT_MOD_INVALID None
    = Ok linear_image
  ∧ ∃ pLayout,
      tu_GetImageSubresourceLayout linear_image pSubresource = Ok pLayout
      ∧ srl_offset pLayout
        = fdl_surface_offset layout (isr_mipLevel pSubresource)
            (isr_arrayLayer pSubresource)
      ∧ srl_rowPitch pLayout = fdl_pitch layout (isr_mipLevel pSubresource)
      ∧ srl_arrayPitch pLayout
        = fdl_layer_stride layout (isr_mipLevel pSubresource).
Proof.
  intros pSubresource layout.
  assert (Hoff : linear_forced linear_info DRM_FORMAT_MOD_INVALID
                 || ubwc_excluded device linear_info = true)
    by (vm_compute; reflexivity).
  assert (Hcreate :
            tu_image_create device true linear_info DRM_FORMAT_MOD_INVALID
              None = Ok linear_image) by (vm_compute; reflexivity).
  split; [exact linear_layout_ubwc_only_if_asked |].
  split; [exact linear_layout_ubwc_enabled_sound |].
  split; [exact Hoff |]. split; [exact Hcreate |].
  exact (tu_GetImageSubresourceLayout_created device true linear_info
           DRM_FORMAT_MOD_INVALID None linear_image pSubresource
           linear_layout_ubwc_only_if_asked linear_layout_ubwc_enabled_sound
           Hoff Hcreate).
Defined.

(** A view of the sample colour image, UNORM with UBWC: no [SRGB] bit, the
    [FLAG] and [TILE_ALL] bits set. *)
Lemma tu_image_view_init_flag_bits_witness :
  let image := bind_image bo 4096 color_image in
  let pCreateInfo :=
    view_info VK_IMAGE_VIEW_TYPE_2D VK_FORMAT_R8G8B8A8_UNORM 1 in
  img_bo image = Some bo
  ∧ view_init_asserts image pCreateInfo = true
  ∧ ∃ iview',
      tu_image_view_init image iview_stale pCreateInfo false = Ok iview'
      ∧ Z.land (iv_descriptor iview' !!! 0%nat) A6XX_TEX_CONST_0_SRGB = 0
      ∧ Z.land (iv_descriptor iview' !!! 3%nat) A6XX_TEX_CONST_3_FLAG
        = A6XX_TEX_CONST_3_FLAG
      ∧ Z.land (iv_descriptor iview' !!! 3%nat) A6XX_TEX_CONST_3_TILE_ALL
        = A6XX_TEX_CONST_3_TILE_ALL.
Proof.
  intros image pCreateInfo.
  assert (Hbo : img_bo image = Some bo) by reflexivity.
  assert (Hasserts : view_init_asserts image pCreateInfo = true)
    by (vm_compute; reflexivity).
  split; [exact Hbo |]. split; [exact Hasserts |].
  exact (tu_image_view_init_flag_bits image iview_stale pCreateInfo false bo
           Hbo Hasserts).
Defined.

(** A view of the sample YCbCr image under a conversion with a horizontal
    midpoint: the X midpoint bit alone in the [MIPLVLS] bits, and the planes
    at 0x500001000, 0x500003000 and 0x500004000. *)
Lemma tu_image_view_init_ycbcr_words_witness :
  let image := bind_image bo 4096 ycbcr_image in
  is_ycbcr_420 (view_format ycbcr_view_info) = true
  ∧ img_bo image = Some bo
  ∧ ycbcr_view_asserts image ycbcr_view_info = true
  ∧ ∃ iview',
      tu_image_view_init image iview_stale ycbcr_view_info false = Ok iview'
      ∧ let descriptor := iv_descriptor iview' in
        Z.land (descriptor !!! 0%nat) 0x000f0000
        = A6XX_TEX_CONST_0_CHROMA_MIDPOINT_X
        ∧ descriptor !!! 4%nat = 0x00001000
        ∧ descriptor !!! 6%nat = A6XX_TEX_CONST_6_PLANE_PITCH 51
        ∧ qword (descriptor !!! 7%nat) (descriptor !!! 8%nat) = 0x500003000
        ∧ qword (descriptor !!! 9%nat) (descriptor !!! 10%nat) = 0x500004000.
Proof.
  intros image.
  assert (Hformat : is_ycbcr_420 (view_format ycbcr_view_info) = true)
    by reflexivity.
  assert (Hbo : img_bo image = Some bo) by reflexivity.
  assert (Hasserts : ycbcr_view_asserts image ycbcr_view_info = true)
    by (vm_compute; reflexivity).
  split; [exact Hformat |]. split; [exact Hbo |]. split; [exact Hasserts |].
  exact (tu_image_view_init_ycbcr_words image iview_stale ycbcr_view_info
           false bo Hformat Hbo Hasserts).
Defined.

(** The addresses of a view of the sample colour image, bound at
    0x500001000. *)
Lemma tu_image_view_init_addresses_witness :
  let image := bind_image bo 4096 color_image in
  let pCreateInfo :=
    view_info VK_IMAGE_VIEW_TYPE_2D VK_FORMAT_R8G8B8A8_UNORM 1 in
  is_ycbcr_420 (view_format pCreateInfo) = false
  ∧ img_bo image = Some bo
  ∧ view_range_assert image (vci_subresourceRange pCreateInfo) = true
  ∧ image_addr bo image
      (fdl_surface_offset (view_layout image pCreateInfo)
         (sr_baseMipLevel (vci_subresourceRange pCreateInfo))
         (sr_baseArrayLayer (vci_subresourceRange pCreateInfo))) < 2 ^ 49
  ∧ ∃ iview',
      tu_image_view_init image iview_stale pCreateInfo false = Ok iview'
      ∧ let descriptor := iv_descriptor iview' in
        let lo := descriptor !!! 4%nat in
        let hi := Z.land (descriptor !!! 5%nat) (Z.ones 17) in
        qword lo hi = iv_base_addr iview'
        ∧ tu_cs_image_ref [] iview' 0
          = [] ++ [u32 (iv_PITCH iview');
                   u32 (Z.shiftr (iv_layer_size iview') 6); lo; hi]
        ∧ (fdl_ubwc_enabled (view_layout image pCreateInfo)
             (sr_baseMipLevel (vci_subresourceRange pCreateInfo)) = true →
           qword (descriptor !!! 7%nat) (descriptor !!! 8%nat)
           = iv_ubwc_addr iview').
Proof.
  intros image pCreateInfo.
  assert (Hformat : is_ycbcr_420 (view_format pCreateInfo) = false)
    by reflexivity.
  assert (Hbo : img_bo image = Some bo) by reflexivity.
  assert (Hasserts :
            view_range_assert image (vci_subresourceRange pCreateInfo) = true)
    by (vm_compute; reflexivity).
  assert (Hfit :
            image_addr bo image
              (fdl_surface_offset (view_layout image pCreateInfo)
                 (sr_baseMipLevel (vci_subresourceRange pCreateInfo))
                 (sr_baseArrayLayer (vci_subresourceRange pCreateInfo)))
            < 2 ^ 49) by (vm_compute; reflexivity).
  split; [exact Hformat |]. split; [exact Hbo |]. split; [exact Hasserts |].
  split; [exact Hfit |].
  exact (tu_image_view_init_addresses image iview_stale pCreateInfo false bo
           [] Hformat Hbo Hasserts Hfit).
Defined.

(** A view of the sample storage image: the depth field of the storage
    descriptor is the layer count. *)
Lemma tu_image_view_init_storage_witness :
  let image := bind_image bo 4096 storage_image in
  let pCreateInfo :=
    view_info VK_IMAGE_VIEW_TYPE_2D VK_FORMAT_R8G8B8A8_UNORM 1 in
  is_ycbcr_420 (view_format pCreateInfo) = false
  ∧ img_bo image = Some bo
  ∧ view_range_assert image (vci_subresourceRange pCreateInfo) = true
  ∧ has_bits
      (nf_supported
         (tu6_format_texture (view_format pCreateInfo)
            (lay_tile_mode (view_layout image pCreateInfo)))) FMT_COLOR = true
  ∧ has_bits (img_usage image) VK_IMAGE_USAGE_STORAGE_BIT = true
  ∧ image_addr bo image
      (fdl_surface_offset (view_layout image pCreateInfo)
         (sr_baseMipLevel (vci_subresourceRange pCreateInfo))
         (sr_baseArrayLayer (vci_subresourceRange pCreateInfo))) < 2 ^ 49
  ∧ 0 ≤ view_storage_depth image pCreateInfo < 2 ^ 13
  ∧ ∃ iview',
      tu_image_view_init image iview_stale pCreateInfo false = Ok iview'
      ∧ let sd := iv_storage_descriptor iview' in
        length sd = A6XX_TEX_CONST_DWORDS
        ∧ qword (sd !!! 4%nat) (Z.land (sd !!! 5%nat) (Z.ones 17))
          = iv_base_addr iview'
        ∧ tex_const_5_depth (sd !!! 5%nat)
          = tu_get_layerCount image (vci_subresourceRange pCreateInfo)
        ∧ Z.land (sd !!! 3%nat) A6XX_IBO_3_FLAG
          = COND (iv_ubwc_enabled iview') A6XX_IBO_3_FLAG.
Proof.
  intros image pCreateInfo.
  assert (Hformat : is_ycbcr_420 (view_format pCreateInfo) = false)
    by reflexivity.
  assert (Hbo : img_bo image = Some bo) by reflexivity.
  assert (Hasserts :
            view_range_assert image (vci_subresourceRange pCreateInfo) = true)
    by (vm_compute; reflexivity).
  assert (Hcolor :
            has_bits
              (nf_supported
                 (tu6_format_texture (view_format pCreateInfo)
                    (lay_tile_mode (view_layout image pCreateInfo))))
              FMT_COLOR = true) by (vm_compute; reflexivity).
  assert (Hstorage :
            has_bits (img_usage image) VK_IMAGE_USAGE_STORAGE_BIT = true)
    by (vm_compute; reflexivity).
  assert (Hfit :
            image_addr bo image
              (fdl_surface_offset (view_layout image pCreateInfo)
                 (sr_baseMipLevel (vci_subresourceRange pCreateInfo))
                 (sr_baseArrayLayer (vci_subresourceRange pCreateInfo)))
            < 2 ^ 49) by (vm_compute; reflexivity).
  assert (Hdepth : 0 ≤ view_storage_depth image pCreateInfo < 2 ^ 13).
  { split; vm_compute; [discriminate | reflexivity]. }
  split; [exact Hformat |]. split; [exact Hbo |]. split; [exact Hasserts |].
  split; [exact Hcolor |]. split; [exact Hstorage |]. split; [exact Hfit |].
  split; [exact Hdepth |].
  exact (tu_image_view_init_storage image iview_stale pCreateInfo false bo
           Hformat Hbo Hasserts Hcolor Hstorage Hfit Hdepth).
Defined.

(** A depth view of the sample depth image: the side band holds the stencil
    plane, 16384 bytes behind the depth plane's metadata. *)
Lemma tu_image_view_init_stencil_witness :
  let image := bind_image bo 4096 depth_stencil_image in
  let pCreateInfo :=
    aspect_view_info VK_FORMAT_D32_SFLOAT_S8_UINT VK_IMAGE_ASPECT_DEPTH_BIT in
  is_ycbcr_420 (view_format pCreateInfo) = false
  ∧ img_bo image = Some bo
  ∧ view_range_assert image (vci_subresourceRange pCreateInfo) = true
  ∧ has_bits
      (nf_supported
         (tu6_format_texture (view_format pCreateInfo)
            (lay_tile_mode (view_layout image pCreateInfo)))) FMT_COLOR = true
  ∧ img_vk_format image = VK_FORMAT_D32_SFLOAT_S8_UINT
  ∧ ∃ iview',
      tu_image_view_init image iview_stale pCreateInfo false = Ok iview'
      ∧ let level := sr_baseMipLevel (vci_subresourceRange pCreateInfo) in
        let layer := sr_baseArrayLayer (vci_subresourceRange pCreateInfo) in
        let stencil := img_layout image !!! 1%nat in
        (img_vk_format image = VK_FORMAT_D32_SFLOAT_S8_UINT →
         iv_stencil_base_addr iview'
         = image_addr bo image (fdl_surface_offset stencil level layer)
         ∧ iv_stencil_layer_size iview' = fdl_layer_stride stencil level
         ∧ iv_stencil_PITCH iview'
           = A6XX_RB_STENCIL_BUFFER_PITCH (fdl_pitch stencil level))
        ∧ (img_vk_format image ≠ VK_FORMAT_D32_SFLOAT_S8_UINT →
           iv_stencil_base_addr iview' = iv_stencil_base_addr iview_stale
           ∧ iv_stencil_layer_size iview' = iv_stencil_layer_size iview_stale
           ∧ iv_stencil_PITCH iview' = iv_stencil_PITCH iview_stale)
        ∧ (has_bits (img_usage image) VK_IMAGE_USAGE_STORAGE_BIT = false →
           iv_storage_descriptor iview' = iv_storage_descriptor iview_stale).
Proof.
  intros image pCreateInfo.
  assert (Hformat : is_ycbcr_420 (view_format pCreateInfo) = false)
    by reflexivity.
  assert (Hbo : img_bo image = Some bo) by reflexivity.
  assert (Hasserts :
            view_range_assert image (vci_subresourceRange pCreateInfo) = true)
    by (vm_compute; reflexivity).
  assert (Hcolor :
            has_bits
              (nf_supported
                 (tu6_format_texture (view_format pCreateInfo)
                    (lay_tile_mode (view_layout image pCreateInfo))))
              FMT_COLOR = true) by (vm_compute; reflexivity).
  split; [exact Hformat |]. split; [exact Hbo |]. split; [exact Hasserts |].
  split; [exact Hcolor |]. split; [reflexivity |].
  exact (tu_image_view_init_stencil image iview_stale pCreateInfo false bo
           Hformat Hbo Hasserts Hcolor).
Defined.

(** A view created in the store of the sample colour image under handle 21,
    and destroyed again. *)
Lemma tu_CreateImageView_destroy_witness :
  let image := bind_image bo 4096 color_image in
  let pCreateInfo :=
    view_info VK_IMAGE_VIEW_TYPE_2D VK_FORMAT_R8G8B8A8_UNORM 1 in
  21 ≠ VK_NULL_HANDLE
  ∧ heap_image_views heap_color !! 21 = None
  ∧ heap_images heap_color !! vci_image pCreateInfo = Some image
  ∧ img_bo image = Some bo
  ∧ view_init_asserts image pCreateInfo = true
  ∧ ∃ h' iview,
      tu_CreateImageView device heap_color (Some (21, iview_stale)) pCreateInfo
      = Ok (h', 21)
      ∧ tu_image_view_init image iview_stale pCreateInfo (limited_z24s8 device)
        = Ok iview
      ∧ heap_image_views h' !! 21 = Some iview
      ∧ heap_images h' = heap_images heap_color
      ∧ heap_buffer_views h' = heap_buffer_views heap_color
      ∧ heap_memory h' = heap_memory heap_color
      ∧ tu_DestroyImageView h' 21 = Ok heap_color.
Proof.
  intros image pCreateInfo.
  assert (Hnull : 21 ≠ VK_NULL_HANDLE) by discriminate.
  assert (Hfresh : heap_image_views heap_color !! 21 = None) by reflexivity.
  assert (Himage :
            heap_images heap_color !! vci_image pCreateInfo = Some image)
    by (vm_compute; reflexivity).
  assert (Hbo : img_bo image = Some bo) by reflexivity.
  assert (Hasserts : view_init_asserts image pCreateInfo = true)
    by (vm_compute; reflexivity).
  split; [exact Hnull |]. split; [exact Hfresh |]. split; [exact Himage |].
  split; [exact Hbo |]. split; [exact Hasserts |].
  exact (tu_CreateImageView_destroy device heap_color 21 iview_stale
           pCreateInfo image bo Hnull Hfresh Himage Hbo Hasserts).
Defined.

(** A buffer view created under handle 31 and destroyed again. *)
Lemma tu_CreateBufferView_destroy_witness :
  31 ≠ VK_NULL_HANDLE
  ∧ heap_buffer_views heap_color !! 31 = None
  ∧ ∃ h',
      tu_CreateBufferView heap_color (Some (31, buffer_view_stale))
        (Some buffer) buffer_view_info
      = Ok (h', 31)
      ∧ heap_buffer_views h' !! 31
        = Some (tu_buffer_view_init buffer buffer_view_stale buffer_view_info)
      ∧ heap_images h' = heap_images heap_color
      ∧ heap_image_views h' = heap_image_views heap_color
      ∧ heap_memory h' = heap_memory heap_color
      ∧ tu_DestroyBufferView h' 31 = Ok heap_color.
Proof.
  assert (Hnull : 31 ≠ VK_NULL_HANDLE) by discriminate.
  assert (Hfresh : heap_buffer_views heap_color !! 31 = None) by reflexivity.
  split; [exact Hnull |]. split; [exact Hfresh |].
  exact (tu_CreateBufferView_destroy heap_color 31 buffer_view_stale buffer
           buffer_view_info Hnull Hfresh).
Defined.

(** The sample storage image stored under handle 12 and destroyed again. *)
Lemma tu_image_create_destroy_witness :
  tu_image_create device true storage_info DRM_FORMAT_MOD_INVALID None
  = Ok storage_image
  ∧ 12 ≠ VK_NULL_HANDLE
  ∧ heap_images heap_color !! 12 = None
  ∧ img_owned_memory storage_image = VK_NULL_HANDLE
  ∧ img_bo storage_image = None
  ∧ tu_DestroyImage
      (set_heap_images (<[12 := storage_image]> (heap_images heap_color))
         heap_color) 12
    = Ok heap_color.
Proof.
  assert (Hcreate :
            tu_image_create device true storage_info DRM_FORMAT_MOD_INVALID
              None = Ok storage_image) by (vm_compute; reflexivity).
  assert (Hnull : 12 ≠ VK_NULL_HANDLE) by discriminate.
  assert (Hfresh : heap_images heap_color !! 12 = None)
    by (vm_compute; reflexivity).
  split; [exact Hcreate |]. split; [exact Hnull |]. split; [exact Hfresh |].
  exact (tu_image_create_destroy device true storage_info
           DRM_FORMAT_MOD_INVALID None storage_image heap_color 12 Hcreate
           Hnull Hfresh).
Defined.

(** From here on the format tables are the ones without colour support. *)
#[local] Existing Instance driver_no_color | 0.

(** A view of the sample storage image under these tables keeps the
    left-over storage descriptor and attachment fields. *)
Lemma tu_image_view_init_no_color_witness :
  let image := bind_image bo 4096 storage_image in
  let pCreateInfo :=
    view_info VK_IMAGE_VIEW_TYPE_2D VK_FORMAT_R8G8B8A8_UNORM 1 in
  is_ycbcr_420 (view_format pCreateInfo) = false
  ∧ img_bo image = Some bo
  ∧ view_range_assert image (vci_subresourceRange pCreateInfo) = true
  ∧ has_bits
      (nf_supported
         (tu6_format_texture (view_format pCreateInfo)
            (lay_tile_mode (view_layout image pCreateInfo)))) FMT_COLOR = false
  ∧ has_bits (img_usage image) VK_IMAGE_USAGE_STORAGE_BIT = true
  ∧ ∃ iview',
      tu_image_view_init image iview_stale pCreateInfo false = Ok iview'
      ∧ iv_storage_descriptor iview' = [9]
      ∧ iv_extent iview' = {| ext2_width := 6; ext2_height := 7 |}
      ∧ iv_need_y2_align iview' = true
      ∧ iv_ubwc_enabled iview' = true
      ∧ iv_RB_MRT_BUF_INFO iview' = 12
      ∧ iv_SP_FS_MRT_REG iview' = 13
      ∧ iv_RB_2D_DST_INFO iview' = 16
      ∧ iv_RB_BLIT_DST_INFO iview' = 17
      ∧ iv_stencil_base_addr iview' = 18
      ∧ iv_stencil_layer_size iview' = 19
      ∧ iv_stencil_PITCH iview' = 20.
Proof.
  intros image pCreateInfo.
  assert (Hformat : is_ycbcr_420 (view_format pCreateInfo) = false)
    by reflexivity.
  assert (Hbo : img_bo image = Some bo) by reflexivity.
  assert (Hasserts :
            view_range_assert image (vci_subresourceRange pCreateInfo) = true)
    by (vm_compute; reflexivity).
  assert (Hcolor :
            has_bits
              (nf_supported
                 (tu6_format_texture (view_format pCreateInfo)
                    (lay_tile_mode (view_layout image pCreateInfo))))
              FMT_COLOR = false) by (vm_compute; reflexivity).
  split; [exact Hformat |]. split; [exact Hbo |]. split; [exact Hasserts |].
  split; [exact Hcolor |]. split; [vm_compute; reflexivity |].
  exact (tu_image_view_init_no_color image iview_stale pCreateInfo false bo
           Hformat Hbo Hasserts Hcolor).
Defined.
